(** * crawl-mtk: the fuel-price dashboard, embedded in Rocq

    The development follows the two front ends of the repository:

    - the Chart.js dashboard script (the version with zoom and URL state):
      the paginated Datasette client, the selection and view state with
      its localStorage and URL encodings, the chart alignment and the
      price analytics ([findCheapest], [analyzePricePatterns]), and around
      them the start-up ([initializeApp]), the event handlers and the
      refresh of chart and recommendation ([updateChartAndAnalysis],
      [analyzeMultiStationPrices]);
    - the React prototype ([web-app/src/App.tsx]): [computeAdvice].

    JavaScript numbers are IEEE-754 binary64 values and are modelled by
    Rocq's primitive floats, so every arithmetic step below rounds exactly
    as the program does.  Arrays are lists, [localStorage] and the URL
    query string are finite maps from strings to strings, an exception is
    an explicit [Throws] outcome, and the one unbounded loop of the program
    (pagination) runs on fuel. *)

From Stdlib Require Import ZArith Floats Ascii String.
From Stdlib Require Uint63.
From stdpp Require Import base list strings gmap sorting.

Set Default Proof Using "Type".

(** A decimal literal such as [1.899] denotes the nearest binary64 value,
    as it does in the program. *)
#[local] Set Warnings "-inexact-float".

(** * The program *)

(** ** Outcomes of a JavaScript call *)

(** A call either returns a value or throws. *)
Inductive outcome (E A : Type) : Type :=
| Returns (a : A)
| Throws (e : E).
Arguments Returns {E A} a.
Arguments Throws {E A} e.

Definition bind_outcome {E A B} (m : outcome E A) (k : A -> outcome E B) : outcome E B :=
  match m with
  | Returns a => k a
  | Throws e => Throws e
  end.

(** ** JavaScript numbers *)

(** A JavaScript number is a binary64 float.  The program compares numbers
    with [<], [<=], [===] and tests them for truthiness; these are the
    facts about those tests that the analytics need.  They are read off
    the IEEE-754 specification of the primitive floats. *)

Definition SFnan (x : spec_float) : bool :=
  match x with S754_nan => true | _ => false end.

(** [Number.isNaN] *)
Definition is_nan (x : float) : bool := negb (PrimFloat.eqb x x).

(** Truthiness of a number: every number but [0], [-0] and [NaN]. *)
Definition truthy (x : float) : bool := negb (PrimFloat.eqb x 0) && negb (is_nan x).

(** A table cell that holds a number or [null]; [null] is falsy. *)
Definition truthy_cell (c : option float) : bool :=
  match c with
  | Some x => truthy x
  | None => false
  end.

(** [c || null] for such a cell. *)
Definition or_null (c : option float) : option float :=
  if truthy_cell c then c else None.

(** An integer-valued number, as in [arr.length] or a counter. *)
Definition float_of_nat (n : nat) : float :=
  PrimFloat.of_uint63 (Uint63.of_Z (Z.of_nat n)).

(** [Math.max(a, b)]: [NaN] if either argument is, and [+0] above [-0]. *)
Definition Math_max (a b : float) : float :=
  if is_nan a || is_nan b then nan
  else if PrimFloat.ltb a b then b
  else if PrimFloat.ltb b a then a
  else if PrimFloat.eqb a 0 then PrimFloat.add a b
  else a.

(** ** Array.prototype.sort *)

(** [arr.sort(cmp)] is a stable sort; [after a b] says that the comparator
    puts [a] after [b] ([cmp(a, b) > 0]).  For a consistent comparator the
    result is determined, and stable insertion computes it. *)
Section Sort.

Context {A : Type} (after : A -> A -> bool).

Fixpoint sort_insert (x : A) (l : list A) : list A :=
  match l with
  | [] => [x]
  | y :: l' => if after x y then y :: sort_insert x l' else x :: l
  end.

Definition js_sort (l : list A) : list A := foldr sort_insert [] l.

End Sort.

(** [arr.sort()] on strings: code-unit order. *)
Definition sort_strings (l : list string) : list string :=
  js_sort (fun a b => String.ltb b a) l.

(** [arr.sort((a, b) => a - b)] on numbers. *)
Definition sort_numbers (l : list float) : list float :=
  js_sort (fun a b => PrimFloat.ltb 0 (PrimFloat.sub a b)) l.

(** ** Paginated query client *)

Section Pagination.

(** A row of the remote table; the client never looks inside. *)
Context {Row : Type}.

(** [const PAGE_SIZE = 1000] *)
Definition PAGE_SIZE : nat := 1000.

(** What the client puts into the URL of one request: the caller's query,
    the [LIMIT] and [OFFSET] appended to it, and the named parameters. *)
Record request : Type := Request {
  req_query : string;
  req_limit : nat;
  req_offset : nat;
  req_params : list (string * string)
}.

(** What [await fetch(url)] followed by [await response.json()] gives:
    either the promise rejects, or there is a response with its [ok] flag,
    its status and the [rows] field of the body ([None] when the body has
    no such field). *)
Inductive response : Type :=
| Rejected
| Response (ok : bool) (status : Z) (rows : option (list Row)).

Inductive fetch_error : Type :=
| HttpError (status : Z) (url : request)
| NetworkError (url : request).

(** The remote service as the client sees it. *)
Definition service : Type := request -> response.

(** One run of the [while (hasMore)] loop.  [log] is the list of requests
    issued so far, oldest first; it is ghost state that only the theorems
    read.  [None] means the fuel ran out before [hasMore] became false. *)
Fixpoint fetchLoop (fetch : service) (baseQuery : string)
    (params : list (string * string)) (fuel : nat)
    (allRows : list Row) (offset : nat) (log : list request)
  : option (list request * outcome fetch_error (list Row)) :=
  match fuel with
  | O => None
  | S fuel' =>
      let url := Request baseQuery PAGE_SIZE offset params in
      let log := log ++ [url] in
      match fetch url with
      | Rejected => Some (log, Throws (NetworkError url))
      | Response ok status rows =>
          if negb ok then Some (log, Throws (HttpError status url))
          else
            let fetchedRows := default [] rows in
            let allRows :=
              if 0 <? length fetchedRows then allRows ++ fetchedRows else allRows in
            if length fetchedRows <? PAGE_SIZE
            then Some (log, Returns allRows)
            else fetchLoop fetch baseQuery params fuel' allRows (offset + PAGE_SIZE) log
      end
  end.

Definition fetchPaginatedData (fetch : service) (fuel : nat)
    (baseQuery : string) (params : list (string * string))
  : option (list request * outcome fetch_error (list Row)) :=
  fetchLoop fetch baseQuery params fuel [] 0 [].

(** A service whose answer to the caller's query is exactly [table]:
    [LIMIT l OFFSET o] selects [l] rows after skipping [o]. *)
Definition table_service (table : list Row) : service :=
  fun url => Response true 200 (Some (take (req_limit url) (drop (req_offset url) table))).

(** The requests for pages [0 .. n-1] starting at [offset]. *)
Definition page_requests (baseQuery : string) (params : list (string * string))
    (offset n : nat) : list request :=
  (fun i => Request baseQuery PAGE_SIZE (offset + i * PAGE_SIZE) params) <$> seq 0 n.

(** The rows a request brought back ([data.rows || []]); nothing on failure. *)
Definition page_of (fetch : service) (url : request) : list Row :=
  match fetch url with
  | Response true _ (Some rows) => rows
  | _ => []
  end.

Definition ceil_div (a b : nat) : nat := (a + b - 1) / b.

End Pagination.

Arguments request : clear implicits.
Arguments response : clear implicits.
Arguments service : clear implicits.

(** ** The dashboard's data *)

(** A row of [gas_stations]. *)
Record Station : Type := {
  station_id : string;
  station_name : string;
  station_address : string
}.

(** A row of [price_history] as the history query selects it; a price
    column holds a number or [null]. *)
Record PriceRow : Type := {
  last_transmission : string;
  price_diesel : option float;
  price_super : option float;
  price_super_e10 : option float
}.

(** [row[key]] for a fuel key; any other key finds no price. *)
Definition row_get (row : PriceRow) (key : string) : option float :=
  if String.eqb key "price_diesel" then price_diesel row
  else if String.eqb key "price_super" then price_super row
  else if String.eqb key "price_super_e10" then price_super_e10 row
  else None.

Record FuelType : Type := {
  fuel_key : string;
  fuel_name : string;
  fuel_style : string
}.

Definition FUEL_TYPE_CONFIG : list FuelType :=
  [ {| fuel_key := "price_diesel"; fuel_name := "Diesel"; fuel_style := "solid" |};
    {| fuel_key := "price_super"; fuel_name := "Super E5"; fuel_style := "dashed" |};
    {| fuel_key := "price_super_e10"; fuel_name := "Super E10"; fuel_style := "dotted" |} ].

(** A [Date] object: a time value in milliseconds since the epoch, or the
    invalid date (time value [NaN]). *)
Inductive Date : Type :=
| DateValue (t : Z)
| InvalidDate.

(** [state.selectedTimeRange]: a string (['1d'], ['7d'], ['14d'], ['all'], or
    whatever was stored) or a [{start, end}] object. *)
Inductive TimeRange : Type :=
| RangeName (s : string)
| RangeObject (start end_ : Date).

(** The global [state] without the chart and the search index. *)
Record State : Type := {
  allStations : list Station;
  selectedStations : list Station;
  selectedFuelTypes : list string;
  selectedTimeRange : TimeRange
}.

Definition set_selectedStations (l : list Station) (st : State) : State :=
  {| allStations := allStations st;
     selectedStations := l;
     selectedFuelTypes := selectedFuelTypes st;
     selectedTimeRange := selectedTimeRange st |}.

Definition set_selectedTimeRange (r : TimeRange) (st : State) : State :=
  {| allStations := allStations st;
     selectedStations := selectedStations st;
     selectedFuelTypes := selectedFuelTypes st;
     selectedTimeRange := r |}.

(** One station with its fetched history. *)
Record StationData : Type := {
  station : Station;
  data : list PriceRow
}.

(** ** Selecting and removing stations *)

(** [handleResultClick]: the effect on [state]; the calls that persist and
    redraw afterwards do not touch the list. *)
Definition handleResultClick (s : Station) (st : State) : State :=
  match List.find (fun s' => String.eqb (station_id s') (station_id s)) (selectedStations st) with
  | Some _ => st
  | None => set_selectedStations (selectedStations st ++ [s]) st
  end.

(** [removeStation] *)
Definition removeStation (stationId : string) (st : State) : State :=
  set_selectedStations
    (List.filter (fun s => negb (String.eqb (station_id s) stationId)) (selectedStations st))
    st.

(** The two mutations of the selection, and a sequence of them. *)
Inductive mutation : Type :=
| AddStation (s : Station)
| RemoveStation (stationId : string).

Definition mutate (st : State) (m : mutation) : State :=
  match m with
  | AddStation s => handleResultClick s st
  | RemoveStation stationId => removeStation stationId st
  end.

Definition selected_ids (st : State) : list string := station_id <$> selectedStations st.

(** ** Fetching the price histories *)

Definition price_history_query : string :=
  "SELECT ph.last_transmission, ph.price_diesel, ph.price_super, ph.price_super_e10 FROM price_history ph JOIN gas_stations gs ON ph.station_id = gs.id WHERE gs.station_id = :station_id AND ph.last_transmission >= :since ORDER BY ph.last_transmission".

Definition price_history_params (since stationId : string) : list (string * string) :=
  [("station_id", stationId); ("since", since)].

(** [fetchPriceHistory]: [since] is the ISO string of the instant 30 days
    before the call.  The [catch] turns every exception of the paginated
    fetch into an empty history. *)
Definition fetchPriceHistory (fetch : service PriceRow) (fuel : nat)
    (since stationId : string) : option (list PriceRow) :=
  match fetchPaginatedData fetch fuel price_history_query
          (price_history_params since stationId) with
  | None => None
  | Some (_, Returns rows) => Some rows
  | Some (_, Throws _) => Some []
  end.

(** The first half of [updateChartAndAnalysis]: one [fetchPriceHistory] per
    selected station, all awaited, then paired with the stations by index.
    The service only answers queries, so the order in which the requests of
    different stations reach it does not matter, and each station's history
    is the one a fetch on its own gives. *)
Definition stationDataArray (fetch : service PriceRow) (fuel : nat)
    (since : string) (st : State) : option (list StationData) :=
  results ← mapM (fun s => fetchPriceHistory fetch fuel since (station_id s))
                 (selectedStations st);
  Some (zip_with (fun s r => {| station := s; data := r |}) (selectedStations st) results).

(** ** Chart alignment *)

Definition CHART_COLORS : list string :=
  [ "rgba(255, 99, 132, 1)"; "rgba(54, 162, 235, 1)"; "rgba(75, 192, 192, 1)";
    "rgba(255, 159, 64, 1)"; "rgba(153, 102, 255, 1)"; "rgba(255, 205, 86, 1)" ].

(** [set.add(x)] on a [Set] kept in insertion order. *)
Definition set_add (acc : list string) (x : string) : list string :=
  if bool_decide (x ∈ acc) then acc else acc ++ [x].

(** The master list of timestamps, in the order the [Set] collects them. *)
Definition allTimestamps (sda : list StationData) : list string :=
  foldl (fun acc sd => foldl (fun acc row => set_add acc (last_transmission row)) acc (data sd))
        [] sda.

Definition sortedLabels (sda : list StationData) : list string :=
  sort_strings (allTimestamps sda).

(** [FUEL_TYPE_CONFIG.filter(fuel => state.selectedFuelTypes.includes(fuel.key))] *)
Definition activeFuelTypes (st : State) : list FuelType :=
  List.filter (fun fuel => existsb (String.eqb (fuel_key fuel)) (selectedFuelTypes st))
              FUEL_TYPE_CONFIG.

(** [new Map(rows.map(row => [row.last_transmission, row[key]]))]: a later
    row replaces an earlier one with the same timestamp. *)
Definition priceMap (rows : list PriceRow) (key : string) : gmap string (option float) :=
  foldl (fun m row => <[last_transmission row := row_get row key]> m) ∅ rows.

(** [sortedLabels.map(ts => priceMap.get(ts) || null)] *)
Definition dataPoints (labels : list string) (pm : gmap string (option float))
  : list (option float) :=
  (fun ts => or_null (default None (pm !! ts))) <$> labels.

Record Dataset : Type := {
  label : string;
  points : list (option float);
  borderColor : string;
  borderDash : list nat
}.

(** The dataset pushed for station number [index] and one active fuel. *)
Definition dataset_of (labels : list string) (index : nat) (sd : StationData)
    (fuel : FuelType) : Dataset :=
  {| label := station_name (station sd) ++ " - " ++ fuel_name fuel;
     points := dataPoints labels (priceMap (data sd) (fuel_key fuel));
     borderColor := default "" (CHART_COLORS !! (index mod length CHART_COLORS));
     borderDash := if String.eqb (fuel_style fuel) "dashed" then [5; 5]
                   else if String.eqb (fuel_style fuel) "dotted" then [1; 5]
                   else [] |}.

(** [renderMultiStationChart]: the labels (before they are formatted for
    display) and the datasets handed to the chart. *)
Definition renderMultiStationChart (st : State) (sda : list StationData)
  : list string * list Dataset :=
  let labels := sortedLabels sda in
  (labels,
   mjoin (imap (fun index sd => dataset_of labels index sd <$> activeFuelTypes st) sda)).

(** The price a station reported at exactly [ts]: the column [key] of its
    last row with that timestamp, and nothing if it has no such row. *)
Definition reported_price (rows : list PriceRow) (key ts : string) : option float :=
  match last (List.filter (fun row => String.eqb (last_transmission row) ts) rows) with
  | Some row => row_get row key
  | None => None
  end.

(** ** Price analytics of the dashboard *)

Inductive js_error : Type :=
| TypeError
| RangeError.

(** [sd.data[sd.data.length - 1][fuelKey]], for a non-empty [sd.data]. *)
Definition latestPrice (sd : StationData) (fuelKey : string) : option float :=
  match last (data sd) with
  | Some row => row_get row fuelKey
  | None => None
  end.

(** The [cheapest] object of [findCheapest]; [station] starts as [null]. *)
Record Cheapest : Type := {
  cheapest_station : option Station;
  cheapest_price : float
}.

(** The body of the [forEach] in [findCheapest]. *)
Definition findCheapest_step (fuelKey : string) (cheapest : Cheapest) (sd : StationData)
  : Cheapest :=
  if 0 <? length (data sd) then
    match latestPrice sd fuelKey with
    | Some price =>
        if truthy price && PrimFloat.ltb price (cheapest_price cheapest)
        then {| cheapest_station := Some (station sd); cheapest_price := price |}
        else cheapest
    | None => cheapest
    end
  else cheapest.

(** [findCheapest] inside [analyzeMultiStationPrices] *)
Definition findCheapest (sda : list StationData) (fuelKey : string) : option Cheapest :=
  let cheapest :=
    foldl (findCheapest_step fuelKey)
          {| cheapest_station := None; cheapest_price := infinity |} sda in
  if PrimFloat.eqb (cheapest_price cheapest) infinity then None else Some cheapest.

(** One bucket of [dailyStats] or [hourlyStats]. *)
Record Stat : Type := {
  sum : float;
  count : nat
}.

Definition add_price (price : float) (stat : Stat) : Stat :=
  {| sum := PrimFloat.add (sum stat) price; count := S (count stat) |}.

(** [stat.count > 0 ? stat.sum / stat.count : null] *)
Definition average (stat : Stat) : option float :=
  if 0 <? count stat then Some (PrimFloat.div (sum stat) (float_of_nat (count stat)))
  else None.

(** [{ index, price }] of the minimum and maximum searches; [index] starts
    at [-1]. *)
Record Extreme : Type := {
  ext_index : Z;
  ext_price : float
}.

(** The body of the two [forEach] loops over the averages. *)
Definition extremes_step (acc : Extreme * Extreme) (entry : nat * option float)
  : Extreme * Extreme :=
  let '(cheapest, dearest) := acc in
  let '(index, price) := entry in
  match price with
  | Some price =>
      (if PrimFloat.ltb price (ext_price cheapest)
       then {| ext_index := Z.of_nat index; ext_price := price |} else cheapest,
       if PrimFloat.ltb (ext_price dearest) price
       then {| ext_index := Z.of_nat index; ext_price := price |} else dearest)
  | None => acc
  end.

Definition extremes (averages : list (option float)) : Extreme * Extreme :=
  foldl extremes_step
        ({| ext_index := -1; ext_price := infinity |},
         {| ext_index := -1; ext_price := neg_infinity |})
        (imap pair averages).

Definition dayNames : list string :=
  ["Sonntag"; "Montag"; "Dienstag"; "Mittwoch"; "Donnerstag"; "Freitag"; "Samstag"].

(** [arr[index]] for an index that may be [-1]. *)
Definition array_get {A} (arr : list A) (index : Z) : option A :=
  if (index <? 0)%Z then None else arr !! Z.to_nat index.

Record DayResult : Type := { day : option string; day_price : float }.
Record HourResult : Type := { hour : Z; hour_price : float }.

Record Patterns : Type := {
  cheapestDay : DayResult;
  dearestDay : DayResult;
  cheapestHour : HourResult;
  dearestHour : HourResult
}.

Section PricePatterns.

(** [new Date(ts).getDay()] and [new Date(ts).getHours()] in the browser's
    time zone; [None] is the [NaN] of an invalid date. *)
Variables getDay getHours : string -> option nat.

(** The body of [priceData.forEach]: indexing a bucket that does not exist
    gives [undefined], and reading its [sum] throws. *)
Definition analyze_row (fuelKey : string) (stats : list Stat * list Stat) (row : PriceRow)
  : outcome js_error (list Stat * list Stat) :=
  let '(dailyStats, hourlyStats) := stats in
  match row_get row fuelKey with
  | Some price =>
      if truthy price then
        match getDay (last_transmission row), getHours (last_transmission row) with
        | Some day, Some hour =>
            if (day <? length dailyStats) && (hour <? length hourlyStats)
            then Returns (alter (add_price price) day dailyStats,
                          alter (add_price price) hour hourlyStats)
            else Throws TypeError
        | _, _ => Throws TypeError
        end
      else Returns stats
  | None => Returns stats
  end.

Fixpoint forEach_row (fuelKey : string) (stats : list Stat * list Stat)
    (priceData : list PriceRow) : outcome js_error (list Stat * list Stat) :=
  match priceData with
  | [] => Returns stats
  | row :: rest =>
      bind_outcome (analyze_row fuelKey stats row) (fun stats => forEach_row fuelKey stats rest)
  end.

Definition analyzePricePatterns (priceData : list PriceRow) (fuelKey : string)
  : outcome js_error (option Patterns) :=
  let zero := {| sum := 0; count := 0 |} in
  bind_outcome (forEach_row fuelKey (replicate 7 zero, replicate 24 zero) priceData)
    (fun '(dailyStats, hourlyStats) =>
       let dailyAverages := average <$> dailyStats in
       let hourlyAverages := average <$> hourlyStats in
       let '(cheapestDay, dearestDay) := extremes dailyAverages in
       let '(cheapestHour, dearestHour) := extremes hourlyAverages in
       if (ext_index cheapestDay =? -1)%Z || (ext_index cheapestHour =? -1)%Z
       then Returns None
       else Returns (Some
         {| cheapestDay := {| day := array_get dayNames (ext_index cheapestDay);
                              day_price := ext_price cheapestDay |};
            dearestDay := {| day := array_get dayNames (ext_index dearestDay);
                             day_price := ext_price dearestDay |};
            cheapestHour := {| hour := ext_index cheapestHour;
                               hour_price := ext_price cheapestHour |};
            dearestHour := {| hour := ext_index dearestHour;
                              hour_price := ext_price dearestHour |} |})).

(** The priced points of bucket [b]: the truthy prices of the rows that
    [slot] (day or hour) maps to [b], in series order. *)
Definition bucket_prices (slot : string -> option nat) (fuelKey : string) (b : nat)
    (priceData : list PriceRow) : list float :=
  omap (fun row =>
          match row_get row fuelKey with
          | Some price =>
              if truthy price && bool_decide (slot (last_transmission row) = Some b)
              then Some price else None
          | None => None
          end) priceData.

(** The arithmetic mean of a bucket, summed in series order; an empty
    bucket has none. *)
Definition bucket_mean (prices : list float) : option float :=
  match prices with
  | [] => None
  | _ => Some (PrimFloat.div (foldl PrimFloat.add 0%float prices)
                             (float_of_nat (length prices)))
  end.

End PricePatterns.

(** ** The time range in localStorage and in the URL *)

(** [s.includes(c)] for a one-character [c]. *)
Fixpoint includes (c : ascii) (s : string) : bool :=
  match s with
  | EmptyString => false
  | String x s' => Ascii.eqb x c || includes c s'
  end.

(** [s.split(c)] for a one-character separator: never empty. *)
Fixpoint split (c : ascii) (s : string) : list string :=
  match s with
  | EmptyString => [EmptyString]
  | String x s' =>
      if Ascii.eqb x c then EmptyString :: split c s'
      else match split c s' with
           | part :: parts => String x part :: parts
           | [] => [String x EmptyString]
           end
  end.

(** [arr.join(sep)] *)
Definition join (sep : string) (arr : list string) : string := String.concat sep arr.

(** A string is truthy unless it is empty. *)
Definition truthy_string (s : string) : bool := negb (String.eqb s "").

(** [isNaN(date)] *)
Definition isNaN_Date (d : Date) : bool :=
  match d with
  | DateValue _ => false
  | InvalidDate => true
  end.

Record UrlState : Type := {
  url_stationIds : list string;
  url_fuelTypes : option (list string);
  url_timeRange : option TimeRange
}.

Section TimeRange.

(** The two built-ins the encoding rests on: [new Date(string)], and
    [toISOString] on the time value of a valid date. *)
Variable Date_new : string -> Date.
Variable toISOString : Z -> string.

(** [date.toISOString()] throws a [RangeError] on an invalid date. *)
Definition Date_toISOString (d : Date) : outcome js_error string :=
  match d with
  | DateValue t => Returns (toISOString t)
  | InvalidDate => Throws RangeError
  end.

(** [new Date(part)] for an element of a destructured array; a missing
    element is [undefined] and gives the invalid date. *)
Definition Date_of (part : option string) : Date :=
  match part with
  | Some s => Date_new s
  | None => InvalidDate
  end.

(** The template literal [`${start.toISOString()};${end.toISOString()}`]. *)
Definition encode_range (start end_ : Date) : outcome js_error string :=
  bind_outcome (Date_toISOString start) (fun s =>
  bind_outcome (Date_toISOString end_) (fun e =>
  Returns (s ++ ";" ++ e)))%string.

(** The decoding shared by [loadSelectedTimeRange] and [loadStateFromUrl]:
    a string with a [';'] whose first two parts are valid dates becomes a
    range object, and every other string is kept as it is. *)
Definition decode_range (saved : string) : TimeRange :=
  if includes ";" saved then
    let parts := split ";" saved in
    let startDate := Date_of (parts !! 0) in
    let endDate := Date_of (parts !! 1) in
    if negb (isNaN_Date startDate) && negb (isNaN_Date endDate)
    then RangeObject startDate endDate
    else RangeName saved
  else RangeName saved.

(** [saveSelectedTimeRange]: a [Date] object is truthy, so an object in
    [state.selectedTimeRange] always takes the first branch. *)
Definition saveSelectedTimeRange (st : State) (localStorage : gmap string string)
  : outcome js_error (gmap string string) :=
  match selectedTimeRange st with
  | RangeObject start end_ =>
      bind_outcome (encode_range start end_) (fun valueToSave =>
      Returns (<["selectedTimeRange" := valueToSave]> localStorage))
  | RangeName s => Returns (<["selectedTimeRange" := s]> localStorage)
  end.

(** [localStorage.getItem('selectedTimeRange') || 'all'] and the decoding *)
Definition loadSelectedTimeRange (localStorage : gmap string string) : TimeRange :=
  let saved :=
    match localStorage !! "selectedTimeRange" with
    | Some s => if truthy_string s then s else "all"
    | None => "all"
    end in
  decode_range saved.

(** [updateUrlWithState]: the query parameters of the new URL. *)
Definition updateUrlWithState (st : State) : outcome js_error (gmap string string) :=
  let params : gmap string string := ∅ in
  let params :=
    if 0 <? length (selectedStations st)
    then <["stations" := join "," (station_id <$> selectedStations st)]> params
    else params in
  let params := <["fuels" := join "," (selectedFuelTypes st)]> params in
  match selectedTimeRange st with
  | RangeObject start end_ =>
      bind_outcome (encode_range start end_) (fun time =>
      Returns (<["time" := time]> params))
  | RangeName s => Returns (<["time" := s]> params)
  end.

(** [loadStateFromUrl] on the query parameters of the current URL. *)
Definition loadStateFromUrl (params : gmap string string) : option UrlState :=
  let stationIdsParam := params !! "stations" in
  let fuelTypesParam := params !! "fuels" in
  let timeRangeParam := params !! "time" in
  let present (p : option string) := from_option truthy_string false p in
  if negb (present stationIdsParam) && negb (present fuelTypesParam)
     && negb (present timeRangeParam)
  then None
  else
    Some {| url_stationIds :=
              match stationIdsParam with
              | Some s => if truthy_string s then split "," s else []
              | None => []
              end;
            url_fuelTypes :=
              match fuelTypesParam with
              | Some s => Some (if truthy_string s then split "," s else [])
              | None => None
              end;
            url_timeRange :=
              match timeRangeParam with
              | Some s => Some (if truthy_string s then decode_range s else RangeName s)
              | None => None
              end |}.

(** [urlState.timeRange || 'all'] in [initializeApp] *)
Definition restored_timeRange (urlState : UrlState) : TimeRange :=
  match url_timeRange urlState with
  | Some (RangeName s) => if truthy_string s then RangeName s else RangeName "all"
  | Some r => r
  | None => RangeName "all"
  end.

(** The instant [n] days before now that [filterDataByTimeRange] gets
    from [new Date()] and [setDate(now.getDate() - n)]. *)
Variable daysBeforeNow : nat -> Date.

(** [a <= b] on dates: false as soon as one of them is invalid. *)
Definition date_leb (a b : Date) : bool :=
  match a, b with
  | DateValue x, DateValue y => (x <=? y)%Z
  | _, _ => false
  end.

(** [filterDataByTimeRange] on an array [data]. *)
Definition filterDataByTimeRange (data : list PriceRow) (range : TimeRange)
  : list PriceRow :=
  match range with
  | RangeName s =>
      if String.eqb s "all" then data
      else
        let startDate :=
          if String.eqb s "1d" then Some (daysBeforeNow 1)
          else if String.eqb s "7d" then Some (daysBeforeNow 7)
          else if String.eqb s "14d" then Some (daysBeforeNow 14)
          else None in
        match startDate with
        | Some startDate =>
            List.filter (fun row => date_leb startDate (Date_new (last_transmission row))) data
        | None => data
        end
  | RangeObject startDate endDate =>
      List.filter (fun row =>
                     let rowDate := Date_new (last_transmission row) in
                     date_leb startDate rowDate && date_leb rowDate endDate) data
  end.

End TimeRange.

(** ** The date-time string format *)

(** [toISOString] and the parsing of the strings it produces, after
    ECMA-262 (Date Time String Format, [YYYY-MM-DDTHH:mm:ss.sssZ] with the
    expanded years [+YYYYYY] and [-YYYYYY]).  The parser here reads that
    full form only; it stands in for [new Date(string)] on such strings
    and on strings no parser accepts. *)

Definition msPerDay : Z := 86400000.

(** Days since the epoch of a proleptic Gregorian date, and back. *)
Definition days_from_civil (y m d : Z) : Z :=
  let y := if (m <=? 2)%Z then (y - 1)%Z else y in
  let era := (y / 400)%Z in
  let yoe := (y - era * 400)%Z in
  let mp := if (2 <? m)%Z then (m - 3)%Z else (m + 9)%Z in
  let doy := ((153 * mp + 2) / 5 + d - 1)%Z in
  let doe := (yoe * 365 + yoe / 4 - yoe / 100 + doy)%Z in
  (era * 146097 + doe - 719468)%Z.

Definition civil_from_days (z : Z) : Z * Z * Z :=
  let z := (z + 719468)%Z in
  let era := (z / 146097)%Z in
  let doe := (z - era * 146097)%Z in
  let yoe := ((doe - doe / 1460 + doe / 36524 - doe / 146096) / 365)%Z in
  let y := (yoe + era * 400)%Z in
  let doy := (doe - (365 * yoe + yoe / 4 - yoe / 100))%Z in
  let mp := ((5 * doy + 2) / 153)%Z in
  let d := (doy - (153 * mp + 2) / 5 + 1)%Z in
  let m := if (mp <? 10)%Z then (mp + 3)%Z else (mp - 9)%Z in
  (if (m <=? 2)%Z then (y + 1)%Z else y, m, d).

Definition digit (n : Z) : ascii := ascii_of_nat (48 + Z.to_nat (n mod 10)).

(** [n] in decimal, [width] digits, zero padded. *)
Fixpoint pad (width : nat) (n : Z) : string :=
  match width with
  | O => EmptyString
  | S w => (pad w (n / 10) ++ String (digit n) EmptyString)%string
  end.

Definition year_string (y : Z) : string :=
  if (0 <=? y)%Z && (y <=? 9999)%Z then pad 4 y
  else if (y <? 0)%Z then ("-" ++ pad 6 (- y))%string
  else ("+" ++ pad 6 y)%string.

Definition iso_toISOString (t : Z) : string :=
  let ms := (t mod msPerDay)%Z in
  let '(y, m, d) := civil_from_days (t / msPerDay) in
  (year_string y ++ "-" ++ pad 2 m ++ "-" ++ pad 2 d ++ "T" ++
   pad 2 (ms / 3600000) ++ ":" ++ pad 2 (ms / 60000 mod 60) ++ ":" ++
   pad 2 (ms / 1000 mod 60) ++ "." ++ pad 3 (ms mod 1000) ++ "Z")%string.

Definition digit_value (c : ascii) : option Z :=
  let n := Z.of_nat (nat_of_ascii c) in
  if (48 <=? n)%Z && (n <=? 57)%Z then Some (n - 48)%Z else None.

Fixpoint read_digits (width : nat) (acc : Z) (s : string) : option (Z * string) :=
  match width, s with
  | O, _ => Some (acc, s)
  | S w, String c s' => d ← digit_value c; read_digits w (10 * acc + d)%Z s'
  | S _, EmptyString => None
  end.

Definition expect (c : ascii) (s : string) : option string :=
  match s with
  | String x s' => if Ascii.eqb x c then Some s' else None
  | EmptyString => None
  end.

Definition read_year (s : string) : option (Z * string) :=
  match s with
  | String "+" s' => read_digits 6 0 s'
  | String "-" s' =>
      '(y, rest) ← read_digits 6 0 s';
      if (y =? 0)%Z then None else Some ((- y)%Z, rest)
  | _ => read_digits 4 0 s
  end.

Definition days_in_month (y m : Z) : Z :=
  if (m =? 2)%Z then
    if ((y mod 4 =? 0) && negb (y mod 100 =? 0) || (y mod 400 =? 0))%Z then 29 else 28
  else if ((m =? 4) || (m =? 6) || (m =? 9) || (m =? 11))%Z then 30
  else 31.

Definition iso_parse (s : string) : option Z :=
  '(y, s) ← read_year s;
  s ← expect "-" s;
  '(m, s) ← read_digits 2 0 s;
  s ← expect "-" s;
  '(d, s) ← read_digits 2 0 s;
  s ← expect "T" s;
  '(h, s) ← read_digits 2 0 s;
  s ← expect ":" s;
  '(mi, s) ← read_digits 2 0 s;
  s ← expect ":" s;
  '(sec, s) ← read_digits 2 0 s;
  s ← expect "." s;
  '(ms, s) ← read_digits 3 0 s;
  s ← expect "Z" s;
  let t := (days_from_civil y m d * msPerDay
            + h * 3600000 + mi * 60000 + sec * 1000 + ms)%Z in
  if String.eqb s "" && (1 <=? m)%Z && (m <=? 12)%Z && (1 <=? d)%Z
     && (d <=? days_in_month y m)%Z && (h <=? 23)%Z && (mi <=? 59)%Z && (sec <=? 59)%Z
     && (Z.abs t <=? 8640000000000000)%Z
  then Some t else None.

Definition iso_Date_new (s : string) : Date :=
  match iso_parse s with
  | Some t => DateValue t
  | None => InvalidDate
  end.

(** ** The buy/wait advice of the React prototype *)

(** [PriceRow] of [App.tsx]. *)
Record AppPriceRow : Type := {
  ts : string;
  diesel : option float;
  super : option float;
  e10 : option float
}.

(** The price keys of [PriceRow], the keys [computeAdvice] is meant for. *)
Inductive FuelKey : Type := Diesel | Super | E10.

Definition app_row_get (r : AppPriceRow) (fuelKey : FuelKey) : option float :=
  match fuelKey with
  | Diesel => diesel r
  | Super => super r
  | E10 => e10 r
  end.

(** [{ date, v }]; the [Date] object is kept as the string it is made of. *)
Record Value : Type := {
  date : string;
  v : float
}.

Inductive Decision : Type := buy | wait | neutral.

Record BestWindow : Type := {
  startHour : nat;
  endHour : nat;
  avg : float
}.

(** [nextBest]: [now] moved [daysOffset] days ahead and set to
    [startHour]:00:00.000, given by these two numbers. *)
Record NextBest : Type := {
  daysOffset : nat;
  atHour : nat
}.

Record Advice : Type := {
  last_value : Value;
  median : float;
  mean : float;
  std : float;
  bestWindow : BestWindow;
  decision : Decision;
  nextBest : NextBest
}.

(** [{ h, avg }] of [hourAvg] and of the [reduce] that finds [bestHour]. *)
Record HourAvg : Type := {
  h : nat;
  hour_avg : float
}.

(** [rows.map(...).filter(x => x.v != null)] *)
Definition advice_values (rows : list AppPriceRow) (fuelKey : FuelKey) : list Value :=
  omap (fun r => price ← app_row_get r fuelKey; Some {| date := ts r; v := price |}) rows.

(** [(v - mean) ** 2], taken as the correctly rounded square. *)
Definition square (x : float) : float := PrimFloat.mul x x.

(** [(min, cur) => (cur.avg < min.avg ? cur : min)] *)
Definition bestHour_step (min cur : HourAvg) : HourAvg :=
  if PrimFloat.ltb (hour_avg cur) (hour_avg min) then cur else min.

Section Advice.

(** [Number(new Intl.DateTimeFormat("de-DE", ...).format(date))] for the
    zone Europe/Berlin.  [format] throws a [RangeError] for an invalid
    date, before any text is made; otherwise the text is converted to a
    number: [Some h] when that number is the integer [h], and [None] when
    it is no index of an array, as [NaN] is for a text that is not a
    number. *)
Variable hourOf : string -> outcome js_error (option nat).

(** The loop [for (const { date, v } of values)] over the 24 buckets. *)
Fixpoint perHour_fill (perHour : list Stat) (values : list Value)
  : outcome js_error (list Stat) :=
  match values with
  | [] => Returns perHour
  | x :: rest =>
      match hourOf (date x) with
      | Throws e => Throws e
      | Returns (Some hr) =>
          if hr <? length perHour
          then perHour_fill (alter (add_price (v x)) hr perHour) rest
          else Throws TypeError
      | Returns None => Throws TypeError
      end
  end.

(** Everything after the buckets are filled.  [curHour] is the hour of
    [now] in the same zone ([None] when it is not a number). *)
Definition advice_of (values : list Value) (last : Value) (perHour : list Stat)
    (curHour : option nat) : Advice :=
  let sorted := sort_numbers (v <$> values) in
  let median := default nan (sorted !! (length sorted / 2)) in
  let mean := PrimFloat.div (foldl PrimFloat.add 0%float sorted)
                            (float_of_nat (length sorted)) in
  let std :=
    PrimFloat.sqrt
      (PrimFloat.div
         (foldl (fun acc x => PrimFloat.add acc (square (PrimFloat.sub x mean))) 0%float sorted)
         (float_of_nat (length sorted))) in
  let hourAvg :=
    imap (fun hr x =>
            {| h := hr;
               hour_avg := if 0 <? count x
                           then PrimFloat.div (sum x) (float_of_nat (count x))
                           else infinity |}) perHour in
  let bestHour := foldl bestHour_step {| h := 0; hour_avg := infinity |} hourAvg in
  let bestWindow :=
    {| startHour := h bestHour; endHour := (h bestHour + 2) mod 24;
       avg := hour_avg bestHour |} in
  let priceNow := v last in
  let isBargain := PrimFloat.leb priceNow (PrimFloat.add (avg bestWindow) 0.02%float) in
  let isExpensive :=
    PrimFloat.leb (PrimFloat.add median (Math_max 0.03%float (PrimFloat.mul 1.5%float std)))
                  priceNow in
  let daysOffset :=
    match curHour with
    | Some c => if c <=? startHour bestWindow then 0 else 1
    | None => 1
    end in
  {| last_value := last;
     median := median;
     mean := mean;
     std := std;
     bestWindow := bestWindow;
     decision := if isBargain then buy else if isExpensive then wait else neutral;
     nextBest := {| daysOffset := daysOffset; atHour := startHour bestWindow |} |}.

Definition computeAdvice (curHour : option nat) (rows : list AppPriceRow)
    (fuelKey : FuelKey) : outcome js_error (option Advice) :=
  let values := advice_values rows fuelKey in
  if length values <? 3 then Returns None
  else
    match last values with
    | Some last =>
        bind_outcome (perHour_fill (replicate 24 {| sum := 0; count := 0 |}) values)
          (fun perHour => Returns (Some (advice_of values last perHour curHour)))
    | None => Throws TypeError
    end.

(** The prices that fall into the hour [hr], in series order. *)
Definition hour_prices (hr : nat) (values : list Value) : list float :=
  omap (fun x => match hourOf (date x) with
                 | Returns (Some hr') => if hr' =? hr then Some (v x) else None
                 | _ => None
                 end) values.

End Advice.

(** ** The hour as the locale de-DE writes it *)

(** The text that [Intl.DateTimeFormat] makes of an hour for the locale
    de-DE with [hour: "2-digit"]: the two digits and the word Uhr. *)
Definition de_DE_hour (hr : Z) : string := (pad 2 hr ++ " Uhr")%string.

(** [Number(text)] as an index of an array, for a text that starts with
    decimal digits: the number of the digits when nothing follows them,
    and otherwise [NaN], which is no index.  The empty text is the number
    0. *)
Fixpoint decimal_number (acc : Z) (text : string) : option Z :=
  match text with
  | EmptyString => Some acc
  | String c rest => d ← digit_value c; decimal_number (10 * acc + d) rest
  end.

Definition Number_index (text : string) : option nat :=
  Z.to_nat <$> decimal_number 0 text.

(** The hour reader of [computeAdvice] with this text.  [offset] is the
    distance of the zone Europe/Berlin from UTC at an instant, in
    milliseconds. *)
Definition de_DE_hourOf (Date_new : string -> Date) (offset : Z -> Z) (ts : string)
  : outcome js_error (option nat) :=
  match Date_new ts with
  | InvalidDate => Throws RangeError
  | DateValue t =>
      Returns (Number_index (de_DE_hour ((t + offset t) mod msPerDay / 3600000)))
  end.

(** ** The list of stations *)

(** [fetchStations]: the paginated fetch of the station table, without
    parameters and without a [catch]. *)
Definition stations_query : string :=
  "select station_id, name, address from gas_stations order by name".

Definition fetchStations (fetch : service Station) (fuel : nat)
  : option (list request * outcome fetch_error (list Station)) :=
  fetchPaginatedData fetch fuel stations_query [].

(** ** Values read from localStorage *)

(** What [JSON.parse] returns. *)
#[local] Unset Elimination Schemes.
Inductive json : Type :=
| JNull
| JBool (b : bool)
| JNumber (x : float)
| JString (s : string)
| JArray (items : list json)
| JObject (members : list (string * json)).
#[local] Set Elimination Schemes.

(** An array of strings as a value, and the strings of a value that is
    such an array. *)
Definition json_of_strings (l : list string) : json := JArray (JString <$> l).

Definition strings_of_json (value : json) : option (list string) :=
  match value with
  | JArray items =>
      mapM (fun item => match item with JString s => Some s | _ => None end) items
  | _ => None
  end.

(** What the start-up code can catch: a failed fetch, a run-time error of
    the language, the [SyntaxError] of [JSON.parse], or the [DOMException]
    of [querySelector] for a selector that it cannot parse. *)
Inductive exception : Type :=
| FetchError (e : fetch_error)
| JsError (e : js_error)
| SyntaxError
| DOMException.

Definition set_allStations (l : list Station) (st : State) : State :=
  {| allStations := l;
     selectedStations := selectedStations st;
     selectedFuelTypes := selectedFuelTypes st;
     selectedTimeRange := selectedTimeRange st |}.

Definition set_selectedFuelTypes (l : list string) (st : State) : State :=
  {| allStations := allStations st;
     selectedStations := selectedStations st;
     selectedFuelTypes := l;
     selectedTimeRange := selectedTimeRange st |}.

(** [allStations.find(s => s.station_id === id)] *)
Definition find_station (allStations : list Station) (id : string) : option Station :=
  List.find (fun s => String.eqb (station_id s) id) allStations.

(** [ids.map(id => allStations.find(...)).filter(Boolean)] for ids that
    are strings. *)
Definition stations_of_ids (allStations : list Station) (ids : list string) : list Station :=
  omap (find_station allStations) ids.

(** The quotation mark. *)
Definition quote : ascii := ascii_of_nat 34.

(** The selector that [updateTimeRangeRadios] builds for a range that is
    a string: the string goes between the quotation marks as it is. *)
Definition radio_selector (name : string) : string :=
  ("#timeRangeSelector input[value=" ++ String quote (name ++ String quote "]"))%string.

Section Storage.

(** The built-ins: [JSON.stringify] on an array of strings, which is all
    the program ever passes to it; [JSON.parse], where [None] is its
    [SyntaxError]; and the comparison [value > 0] on a parsed value, which
    converts the value to a number first. *)
Variable JSON_stringify : list string -> string.
Variable JSON_parse : string -> option json.
Variable greater_than_zero : json -> bool.

(** [saveSelectedStations] *)
Definition saveSelectedStations (st : State) (localStorage : gmap string string)
  : gmap string string :=
  <["selectedStationIds" := JSON_stringify (station_id <$> selectedStations st)]> localStorage.

(** [loadSelectedStations].  [savedIds] is whatever value the stored text
    denotes: [null.length] throws, a number or boolean has no [length], a
    string or an object with a positive [length] has no [map], and an
    element of an array that is not a string equals no station id. *)
Definition loadSelectedStations (allStations : list Station)
    (localStorage : gmap string string) : outcome exception (list Station) :=
  let text :=
    match localStorage !! "selectedStationIds" with
    | Some s => if truthy_string s then s else "[]"
    | None => "[]"
    end in
  match JSON_parse text with
  | None => Throws SyntaxError
  | Some savedIds =>
      let nonempty := 0 <? length allStations in
      match savedIds with
      | JNull => Throws (JsError TypeError)
      | JBool _ | JNumber _ => Returns []
      | JString s =>
          if truthy_string s && nonempty then Throws (JsError TypeError) else Returns []
      | JArray items =>
          if (0 <? length items) && nonempty
          then Returns (omap (fun id => match id with
                                        | JString id => find_station allStations id
                                        | _ => None
                                        end) items)
          else Returns []
      | JObject members =>
          let positive :=
            match List.find (fun member => String.eqb member.1 "length") members with
            | Some member => greater_than_zero member.2
            | None => false
            end in
          if positive && nonempty then Throws (JsError TypeError) else Returns []
      end
  end.

(** [saveSelectedFuelTypes] *)
Definition saveSelectedFuelTypes (st : State) (localStorage : gmap string string)
  : gmap string string :=
  <["selectedFuelTypes" := JSON_stringify (selectedFuelTypes st)]> localStorage.

(** [loadSelectedFuelTypes]: [getItem] gives [null] for a missing key, and
    [JSON.parse(null)] reads the text ["null"].  Whatever else the stored
    text denotes is returned as it is. *)
Definition loadSelectedFuelTypes (localStorage : gmap string string)
  : outcome exception json :=
  match JSON_parse (default "null" (localStorage !! "selectedFuelTypes")) with
  | None => Throws SyntaxError
  | Some JNull => Returns (json_of_strings (fuel_key <$> FUEL_TYPE_CONFIG))
  | Some savedTypes => Returns savedTypes
  end.

(** ** Start-up *)

Variable Date_new : string -> Date.

(** [document.querySelector]: whether an element matches, or the
    exception for a selector that is not well formed. *)
Variable querySelector : string -> outcome exception bool.

(** [updateTimeRangeRadios].  For a range that is an object the radios
    are looked up with a selector that is a constant, and unchecked; for a
    string the radio of that value is looked up, and checked if there is
    one.  The reset button, if there is one, is shown or hidden. *)
Definition updateTimeRangeRadios (st : State) : outcome exception unit :=
  match selectedTimeRange st with
  | RangeObject _ _ => Returns tt
  | RangeName name =>
      bind_outcome (querySelector (radio_selector name)) (fun radioToCheck => Returns tt)
  end.

(** How [initializeApp] ends.  [Started]: the [try] block ran through;
    [refresh] says whether [updateChartAndAnalysis] was called.  [Failed]:
    an exception was caught and the page says that the stations could not
    be loaded; the state is as the block left it.  [Unmodelled]: the stored
    fuel types are a value other than an array of strings, which [State]
    cannot hold. *)
Inductive Startup : Type :=
| Started (st : State) (refresh : bool)
| Failed (st : State) (e : exception)
| Unmodelled.

(** The end of the [try] block of [initializeApp], when the state has
    been restored: the page is brought up to date and the chart refreshed
    if a station is selected.  [updateFuelTypeCheckboxes] sets each box by
    whether the array of fuel types includes its value, and
    [renderSelectedStations] writes one tag per selected station; between
    them [updateTimeRangeRadios] can throw. *)
Definition showState (st : State) : Startup :=
  match updateTimeRangeRadios st with
  | Throws e => Failed st e
  | Returns _ => Started st (0 <? length (selectedStations st))
  end.

(** The [try] block of [initializeApp] after the stations have arrived. *)
Definition restoreState (fetched : list Station) (st : State)
    (localStorage params : gmap string string) : Startup :=
  let st := set_allStations fetched st in
  match loadStateFromUrl Date_new params with
  | Some urlState =>
      let st := set_selectedStations
                  (stations_of_ids (allStations st) (url_stationIds urlState)) st in
      let st := set_selectedFuelTypes
                  (default (fuel_key <$> FUEL_TYPE_CONFIG) (url_fuelTypes urlState)) st in
      let st := set_selectedTimeRange (restored_timeRange urlState) st in
      showState st
  | None =>
      match loadSelectedStations (allStations st) localStorage with
      | Throws e => Failed st e
      | Returns stations =>
          let st := set_selectedStations stations st in
          match loadSelectedFuelTypes localStorage with
          | Throws e => Failed st e
          | Returns fuelTypes =>
              match strings_of_json fuelTypes with
              | None => Unmodelled
              | Some fuelTypes =>
                  let st := set_selectedFuelTypes fuelTypes st in
                  let st := set_selectedTimeRange
                              (loadSelectedTimeRange Date_new localStorage) st in
                  showState st
              end
          end
      end
  end.

(** [initializeApp]; [None] when the fetch of the stations is still
    running after [fuel] requests. *)
Definition initializeApp (fetch : service Station) (fuel : nat) (st : State)
    (localStorage params : gmap string string) : option Startup :=
  match fetchStations fetch fuel with
  | None => None
  | Some (_, Throws e) => Some (Failed st (FetchError e))
  | Some (_, Returns fetched) => Some (restoreState fetched st localStorage params)
  end.

End Storage.

(** ** The event handlers *)

(** What the handlers work on: the global [state], [localStorage], and the
    query parameters of the page's URL. *)
Record Page : Type := {
  page_state : State;
  page_localStorage : gmap string string;
  page_url : gmap string string
}.

Definition set_page_state (st : State) (p : Page) : Page :=
  {| page_state := st;
     page_localStorage := page_localStorage p;
     page_url := page_url p |}.

Definition set_page_localStorage (localStorage : gmap string string) (p : Page) : Page :=
  {| page_state := page_state p;
     page_localStorage := localStorage;
     page_url := page_url p |}.

Definition set_page_url (params : gmap string string) (p : Page) : Page :=
  {| page_state := page_state p;
     page_localStorage := page_localStorage p;
     page_url := params |}.

(** A handler runs on the page and returns or throws; what it changed
    before it threw stays changed. *)
Definition Handler (A : Type) : Type := Page -> Page * outcome js_error A.

Definition handler_ret {A} (a : A) : Handler A := fun p => (p, Returns a).

Definition handler_bind {A B} (m : Handler A) (k : A -> Handler B) : Handler B :=
  fun p =>
    match m p with
    | (p', Returns a) => k a p'
    | (p', Throws e) => (p', Throws e)
    end.

(** An assignment to a field of [state]. *)
Definition assign (f : State -> State) : Handler unit :=
  fun p => (set_page_state (f (page_state p)) p, Returns tt).

(** A [save...] function that cannot throw, and one that can. *)
Definition save (f : State -> gmap string string -> gmap string string) : Handler unit :=
  fun p => (set_page_localStorage (f (page_state p) (page_localStorage p)) p, Returns tt).

Definition save_or_throw
    (f : State -> gmap string string -> outcome js_error (gmap string string))
  : Handler unit :=
  fun p =>
    match f (page_state p) (page_localStorage p) with
    | Returns localStorage => (set_page_localStorage localStorage p, Returns tt)
    | Throws e => (p, Throws e)
    end.

(** [state.priceChart] as the handlers use it.  [isZoomedOrPanned] is
    [None] when the chart has no such method.  [resetZoom('none')] puts the
    scales back and redraws the chart; where the zoom plugin ends this by
    calling [onZoomComplete], it thereby calls [handleZoom] with the labels
    at the two ends of the x axis, as [renderMultiStationChart] has wired
    it.  [resetZoom] holds the two arguments of that call, [None] for one
    that is [undefined], and is [None] when the plugin makes no such call.
    The plugin's own work is taken to return. *)
Record Chart : Type := {
  isZoomedOrPanned : option bool;
  resetZoom : option (option string * option string)
}.

(** The user's actions on the page.  The two that reset the zoom come with
    [state.priceChart] as the last refresh has left it: [None] when no
    chart has been drawn yet. *)
Inductive event : Type :=
| ResultClick (s : Station)
| RemoveClick (stationId : string)
| FuelTypeChange (checked : list string)
| TimeRangeChange (value : string) (priceChart : option Chart)
| Zoom (startDate endDate : option string)
| ResetZoom (priceChart : option Chart).

Module Handlers.

Section Handlers.

Variable toISOString : Z -> string.
Variable Date_new : string -> Date.
Variable JSON_stringify : list string -> string.

(** Statements one after the other, and then the returned value. *)
Definition steps {A} (body : list (Handler unit)) (result : A) : Handler A :=
  foldr (fun m k => handler_bind m (fun _ => k)) (handler_ret result) body.

(** [updateUrlWithState()] with [history.replaceState]: the new URL has
    the parameters of the state and no others. *)
Definition updateUrlWithState : Handler unit :=
  fun p =>
    match updateUrlWithState toISOString (page_state p) with
    | Returns params => (set_page_url params p, Returns tt)
    | Throws e => (p, Throws e)
    end.

(** [handleResultClick]: for a station that is already selected only the
    search field is cleared.  Like every handler below it returns whether
    it called [updateChartAndAnalysis]. *)
Definition handleResultClick (s : Station) : Handler bool :=
  fun p =>
    match List.find (fun s' => String.eqb (station_id s') (station_id s))
                    (selectedStations (page_state p)) with
    | Some _ => (p, Returns false)
    | None =>
        steps [ assign (fun st => set_selectedStations (selectedStations st ++ [s]) st);
                save (saveSelectedStations JSON_stringify);
                updateUrlWithState ] true p
    end.

(** [removeStation] *)
Definition removeStation (stationId : string) : Handler bool :=
  steps [ assign (removeStation stationId);
          save (saveSelectedStations JSON_stringify);
          updateUrlWithState ] true.

(** [handleFuelTypeChange]; [checked] are the values of the checked boxes. *)
Definition handleFuelTypeChange (checked : list string) : Handler bool :=
  steps [ assign (set_selectedFuelTypes checked);
          save (saveSelectedFuelTypes JSON_stringify);
          updateUrlWithState ] true.

(** [handleZoom]; an argument is [undefined] when the chart's scale points
    outside the labels.  The range is an object when
    [updateTimeRangeRadios] runs at the end, so that no selector is built
    from it. *)
Definition handleZoom (startDate endDate : option string) : Handler bool :=
  steps [ assign (set_selectedTimeRange
                    (RangeObject (Date_of Date_new startDate) (Date_of Date_new endDate)));
          save_or_throw (saveSelectedTimeRange toISOString);
          updateUrlWithState ] false.

(** The call of [onZoomComplete] by the plugin, if it makes one:
    [renderMultiStationChart] has set it to call [handleZoom]. *)
Definition onZoomComplete (call : option (option string * option string)) : Handler unit :=
  match call with
  | Some (startDate, endDate) =>
      handler_bind (handleZoom startDate endDate) (fun _ => handler_ret tt)
  | None => handler_ret tt
  end.

(** [state.priceChart.resetZoom('none')]; an exception of the call that
    the plugin makes on the way leaves [resetZoom], and with it the
    handler that called it. *)
Definition resetZoom_none (chart : Chart) : Handler unit :=
  onZoomComplete (resetZoom chart).

(** [handleTimeRangeChange]; [value] is the value of the chosen radio.
    The zoom is reset if there is a chart that says it is zoomed or
    panned.  The refresh is called before the URL is written, which does
    not throw once the steps before it have returned. *)
Definition handleTimeRangeChange (value : string) (priceChart : option Chart)
  : Handler bool :=
  steps [ assign (set_selectedTimeRange (RangeName value));
          save_or_throw (saveSelectedTimeRange toISOString);
          match priceChart with
          | Some chart =>
              if default false (isZoomedOrPanned chart) then resetZoom_none chart
              else handler_ret tt
          | None => handler_ret tt
          end;
          updateUrlWithState ] true.

(** [handleResetZoom]: the URL is not written here. *)
Definition handleResetZoom (priceChart : option Chart) : Handler bool :=
  steps [ assign (set_selectedTimeRange (RangeName "all"));
          save_or_throw (saveSelectedTimeRange toISOString);
          match priceChart with
          | Some chart => resetZoom_none chart
          | None => handler_ret tt
          end ] true.

Definition handle (e : event) : Handler bool :=
  match e with
  | ResultClick s => handleResultClick s
  | RemoveClick stationId => removeStation stationId
  | FuelTypeChange checked => handleFuelTypeChange checked
  | TimeRangeChange value priceChart => handleTimeRangeChange value priceChart
  | Zoom startDate endDate => handleZoom startDate endDate
  | ResetZoom priceChart => handleResetZoom priceChart
  end.

(** The page after a sequence of events; an exception ends the handler
    that threw, not the page. *)
Definition after (es : list event) (p : Page) : Page :=
  foldl (fun p e => (handle e p).1) p es.

End Handlers.

End Handlers.

(** ** JSON texts of arrays of strings *)

(** [JSON.stringify] on an array of strings, and a reader for these texts
    and for ["null"]; it stands in for [JSON.parse] on what the dashboard
    itself writes.  Strings are sequences of bytes here. *)

Definition hex_digit (n : nat) : ascii :=
  if n <? 10 then ascii_of_nat (48 + n) else ascii_of_nat (87 + n).

Definition hex_value (c : ascii) : option nat :=
  let n := nat_of_ascii c in
  if (48 <=? n) && (n <=? 57) then Some (n - 48)
  else if (97 <=? n) && (n <=? 102) then Some (n - 87)
  else if (65 <=? n) && (n <=? 70) then Some (n - 55)
  else None.

(** The escape of one character inside a string literal. *)
Definition escape_char (c : ascii) : string :=
  let n := nat_of_ascii c in
  if n =? 34 then String "\" (String quote "")
  else if n =? 92 then "\\"
  else if n =? 8 then "\b"
  else if n =? 9 then "\t"
  else if n =? 10 then "\n"
  else if n =? 12 then "\f"
  else if n =? 13 then "\r"
  else if n <? 32 then String "\" (String "u" (String "0" (String "0"
         (String (hex_digit (n / 16)) (String (hex_digit (n mod 16)) "")))))
  else String c "".

Fixpoint escape (s : string) : string :=
  match s with
  | EmptyString => ""
  | String c s' => escape_char c ++ escape s'
  end.

Definition stringify_string (s : string) : string :=
  String quote (escape s ++ String quote "").

Definition json_stringify (l : list string) : string :=
  "[" ++ join "," (stringify_string <$> l) ++ "]".

(** The character that a one-letter escape denotes. *)
Definition unescape_char (c : ascii) : option ascii :=
  let n := nat_of_ascii c in
  if n =? 34 then Some quote
  else if n =? 92 then Some "\"%char
  else if n =? 47 then Some "/"%char
  else if n =? 98 then Some (ascii_of_nat 8)
  else if n =? 116 then Some (ascii_of_nat 9)
  else if n =? 110 then Some (ascii_of_nat 10)
  else if n =? 102 then Some (ascii_of_nat 12)
  else if n =? 114 then Some (ascii_of_nat 13)
  else None.

(** The rest of a string literal after its opening quote: the string it
    denotes, and the text after the closing quote.  Of the [\u] escapes
    only those below 256 are read. *)
Fixpoint read_string (s : string) : option (string * string) :=
  match s with
  | EmptyString => None
  | String c s' =>
      if Ascii.eqb c quote then Some (EmptyString, s')
      else if Ascii.eqb c "\" then
        match s' with
        | String "u" (String "0" (String "0" (String h1 (String h2 s'')))) =>
            a ← hex_value h1;
            b ← hex_value h2;
            '(str, rest) ← read_string s'';
            Some (String (ascii_of_nat (16 * a + b)) str, rest)
        | String e s'' =>
            c' ← unescape_char e;
            '(str, rest) ← read_string s'';
            Some (String c' str, rest)
        | EmptyString => None
        end
      else if nat_of_ascii c <? 32 then None
      else '(str, rest) ← read_string s'; Some (String c str, rest)
  end.

(** The elements after the first one, up to the closing bracket and the
    end of the text. *)
Fixpoint read_elements (fuel : nat) (s : string) : option (list string) :=
  match fuel, s with
  | S _, String "]" EmptyString => Some []
  | S fuel', String "," (String c s') =>
      if Ascii.eqb c quote then
        '(str, rest) ← read_string s';
        strs ← read_elements fuel' rest;
        Some (str :: strs)
      else None
  | _, _ => None
  end.

Definition json_parse (text : string) : option json :=
  match text with
  | "null" => Some JNull
  | "[]" => Some (JArray [])
  | String "[" (String c s) =>
      if Ascii.eqb c quote then
        '(str, rest) ← read_string s;
        strs ← read_elements (String.length rest) rest;
        Some (json_of_strings (str :: strs))
      else None
  | _ => None
  end%string.

(** The comparison [value > 0] for a number or a boolean.  The conversion
    of the other values to a number is not spelled out here: the reader
    above produces no object, so the comparison is never asked about one
    of them. *)
Definition json_greater_than_zero (value : json) : bool :=
  match value with
  | JNumber x => PrimFloat.ltb 0 x
  | JBool b => b
  | _ => false
  end.

(** ** Selectors of radio buttons *)

Fixpoint count_char (c : ascii) (s : string) : nat :=
  match s with
  | EmptyString => 0
  | String c' s' => (if Ascii.eqb c' c then 1 else 0) + count_char c s'
  end.

(** A stand-in for [document.querySelector] on the selectors that
    [updateTimeRangeRadios] builds.  A value without a quotation mark, a
    backslash or a line break makes a well-formed selector, which matches
    a radio when the value is one of the four ranges of the page; a value
    that is one quotation mark makes a selector that cannot be parsed.  The
    stand-in throws for every text whose quotation marks are not just the
    two around the value, or that holds a backslash or a line break. *)
Definition page_querySelector (selector : string) : outcome exception bool :=
  if (count_char quote selector =? 2) && negb (includes "\" selector)
     && negb (includes (ascii_of_nat 10) selector)
     && negb (includes (ascii_of_nat 12) selector)
     && negb (includes (ascii_of_nat 13) selector)
  then Returns (existsb (String.eqb selector) (radio_selector <$> ["all"; "1d"; "7d"; "14d"]))
  else Throws DOMException.

(** ** What the page shows *)

(** One line of the recommendation: the fuel, the cheapest latest price
    and the station that asks it. *)
Record PriceLine : Type := {
  line_fuel : FuelType;
  line_price : float;
  line_station : Station
}.

(** The texts of the [recommendation] element:
    - [Prompt]: "Wähle eine oder mehrere Tankstellen aus, um die Analyse zu
      starten.";
    - [Loading]: "Lade Preisdaten...";
    - [LoadingFailed]: "Fehler beim Laden der Preisdaten.";
    - [NoPriceData]: "Keine Preisdaten für die ausgewählten Tankstellen
      vorhanden.";
    - [CheapestPrices]: the heading "Aktuell günstigste Preise:" and one
      line per fuel, with the formatted price and the name of the station;
    - [NoCurrentPrices]: "Keine aktuellen Preisdaten für die ausgewählten
      Kraftstoffarten gefunden." *)
Inductive RecommendationText : Type :=
| Prompt
| Loading
| LoadingFailed
| NoPriceData
| CheapestPrices (lines : list PriceLine)
| NoCurrentPrices.

(** One block of the [pricePatternAnalysis] element: the heading with the
    station, and a paragraph for each fuel with a pattern. *)
Record StationAnalysis : Type := {
  analysis_station : Station;
  analysis_fuels : list (FuelType * Patterns)
}.

(** The three parts of the page that the refresh writes; [priceChart] are
    the labels and datasets of the chart on display, before the labels are
    formatted. *)
Record View : Type := {
  recommendation : RecommendationText;
  pricePatternAnalysis : list StationAnalysis;
  priceChart : option (list string * list Dataset)
}.

Definition set_recommendation (text : RecommendationText) (view : View) : View :=
  {| recommendation := text;
     pricePatternAnalysis := pricePatternAnalysis view;
     priceChart := priceChart view |}.

Definition set_pricePatternAnalysis (blocks : list StationAnalysis) (view : View) : View :=
  {| recommendation := recommendation view;
     pricePatternAnalysis := blocks;
     priceChart := priceChart view |}.

(** The loop over the active fuel types that builds the recommendation;
    [cheapest.station.name] throws when the station is [null]. *)
Fixpoint cheapest_lines (fuels : list FuelType) (sda : list StationData)
  : outcome js_error (list PriceLine) :=
  match fuels with
  | [] => Returns []
  | fuel :: rest =>
      match findCheapest sda (fuel_key fuel) with
      | None => cheapest_lines rest sda
      | Some cheapest =>
          match cheapest_station cheapest with
          | None => Throws TypeError
          | Some s =>
              bind_outcome (cheapest_lines rest sda) (fun lines =>
              Returns ({| line_fuel := fuel; line_price := cheapest_price cheapest;
                          line_station := s |} :: lines))
          end
      end
  end.

Section Refresh.

Variables getDay getHours : string -> option nat.
Variable Date_new : string -> Date.
Variable daysBeforeNow : nat -> Date.

(** The loop over the active fuel types for one station: the paragraphs
    appended to the station's block. *)
Fixpoint fuel_patterns (fuels : list FuelType) (rows : list PriceRow)
  : outcome js_error (list (FuelType * Patterns)) :=
  match fuels with
  | [] => Returns []
  | fuel :: rest =>
      bind_outcome (analyzePricePatterns getDay getHours rows (fuel_key fuel)) (fun patterns =>
      bind_outcome (fuel_patterns rest rows) (fun found =>
      Returns match patterns with
              | Some patterns => (fuel, patterns) :: found
              | None => found
              end))
  end.

(** The loop over the stations: a station with fewer than 50 rows is
    passed over, and a block is appended only if it has a paragraph.  An
    exception leaves the blocks appended so far. *)
Fixpoint append_analyses (fuels : list FuelType) (sda : list StationData)
    (container : list StationAnalysis) : list StationAnalysis * outcome js_error unit :=
  match sda with
  | [] => (container, Returns tt)
  | sd :: rest =>
      if length (data sd) <? 50 then append_analyses fuels rest container
      else
        match fuel_patterns fuels (data sd) with
        | Throws e => (container, Throws e)
        | Returns found =>
            append_analyses fuels rest
              (if 0 <? length found
               then container ++ [{| analysis_station := station sd;
                                     analysis_fuels := found |}]
               else container)
        end
  end.

(** [analyzeMultiStationPrices] *)
Definition analyzeMultiStationPrices (st : State) (sda : list StationData) (view : View)
  : View * outcome js_error unit :=
  if (length sda =? 0) || forallb (fun sd => length (data sd) =? 0) sda
  then (set_recommendation NoPriceData view, Returns tt)
  else
    match cheapest_lines (activeFuelTypes st) sda with
    | Throws e => (view, Throws e)
    | Returns lines =>
        let view :=
          set_recommendation
            (if 0 <? length lines then CheapestPrices lines else NoCurrentPrices) view in
        let '(blocks, out) := append_analyses (activeFuelTypes st) sda [] in
        (set_pricePatternAnalysis blocks view, out)
    end.

(** [updateChartAndAnalysis]; [None] when a fetch is still running after
    [fuel] requests. *)
Definition updateChartAndAnalysis (fetch : service PriceRow) (fuel : nat) (since : string)
    (st : State) (view : View) : option View :=
  if length (selectedStations st) =? 0
  then Some {| recommendation := Prompt;
               pricePatternAnalysis := pricePatternAnalysis view;
               priceChart := None |}
  else
    sda ← stationDataArray fetch fuel since st;
    let filtered :=
      (fun sd => {| station := station sd;
                    data := filterDataByTimeRange Date_new daysBeforeNow (data sd)
                              (selectedTimeRange st) |}) <$> sda in
    let view :=
      {| recommendation := Loading;
         pricePatternAnalysis := pricePatternAnalysis view;
         priceChart := Some (renderMultiStationChart st filtered) |} in
    match analyzeMultiStationPrices st sda view with
    | (view, Returns _) => Some view
    | (view, Throws _) => Some (set_recommendation LoadingFailed view)
    end.

End Refresh.

(** * Specifications *)

(** The vocabulary of the theorems below, and the example data their
    instances are stated on. *)

(** ** What the program is compared with *)

Section SortSpec.

Context {A : Type} (after : A -> A -> bool).

(** The comparator orders the elements of [l] consistently: [after] is
    asymmetric on them and its complement transitive. *)
Definition consistent_on (l : list A) : Prop :=
  (forall x y, x ∈ l -> y ∈ l -> after x y = true -> after y x = false) /\
  (forall x y z, x ∈ l -> y ∈ l -> z ∈ l ->
     after y x = false -> after z y = false -> after z x = false).

End SortSpec.

(** The comparator [(a, b) => a - b] orders the numbers of [l] as [<]
    does, and none of them is [NaN]; this holds for finite numbers. *)
Definition comparator_agrees (l : list float) : Prop :=
  forall x y, x ∈ l -> y ∈ l ->
    is_nan x = false /\
    PrimFloat.ltb 0 (PrimFloat.sub x y) = PrimFloat.ltb y x.

Definition comparator_agrees_check (l : list float) : bool :=
  forallb (fun x => forallb (fun y =>
    negb (is_nan x) &&
    Bool.eqb (PrimFloat.ltb 0 (PrimFloat.sub x y)) (PrimFloat.ltb y x)) l) l.

(** What one station's fetch contributes: its rows, or nothing when the
    paginated fetch threw. *)
Definition history_of (fetch : service PriceRow) (fuel : nat) (since : string)
    (s : Station) (rows : list PriceRow) : Prop :=
  match fetchPaginatedData fetch fuel price_history_query
          (price_history_params since (station_id s)) with
  | Some (_, Returns fetched) => rows = fetched
  | Some (_, Throws _) => rows = []
  | None => False
  end.

Section AnalyticsSpec.

Local Open Scope float_scope.

Variables getDay getHours : string -> option nat.

(** A station takes part in the comparison when its latest price is
    truthy and below [Infinity]. *)
Definition candidate (sd : StationData) (fuelKey : string) (p : float) : Prop :=
  latestPrice sd fuelKey = Some p /\ truthy p = true /\ (p <? infinity) = true.

(** The state of the scan after the stations [sda]: still the initial
    object when none was a candidate, and otherwise the first candidate
    that no other candidate undercuts. *)
Definition scan_result (sda : list StationData) (fuelKey : string) (c : Cheapest) : Prop :=
  (c = {| cheapest_station := None; cheapest_price := infinity |} /\
   forall sd p, sd ∈ sda -> ~ candidate sd fuelKey p) \/
  (exists i sd p,
     sda !! i = Some sd /\ candidate sd fuelKey p /\
     c = {| cheapest_station := Some (station sd); cheapest_price := p |} /\
     (forall j sd' q, sda !! j = Some sd' -> candidate sd' fuelKey q -> (q <? p) = false) /\
     (forall j sd' q, j < i -> sda !! j = Some sd' -> candidate sd' fuelKey q ->
        (p <? q) = true)).

(** One search, for an order [lt] on prices: [<] for the cheapest and [>]
    for the dearest entry. *)
Definition better (lt : float -> float -> bool) (best : Extreme)
    (entry : nat * option float) : Extreme :=
  match entry.2 with
  | Some price =>
      if lt price (ext_price best)
      then {| ext_index := Z.of_nat entry.1; ext_price := price |} else best
  | None => best
  end.

Definition gtb (a b : float) : bool := b <? a.

(** The outcome of one search over [averages], started at [top]: nothing
    found when no average is below [top], and otherwise an entry that no
    other average is below. *)
Definition search_result (lt : float -> float -> bool) (top : float)
    (averages : list (option float)) (best : Extreme) : Prop :=
  (best = {| ext_index := -1; ext_price := top |} /\
   forall j q, averages !! j = Some (Some q) -> lt q top = false) \/
  (exists i p,
     averages !! i = Some (Some p) /\
     best = {| ext_index := Z.of_nat i; ext_price := p |} /\
     lt p top = true /\
     forall j q, averages !! j = Some (Some q) -> lt q p = false).

(** A bucket after the prices [prices] were added to it one by one. *)
Definition filled (prices : list float) (stat : Stat) : Stat :=
  foldl (fun stat price => add_price price stat) stat prices.

(** Every priced row carries a date the browser can read. *)
Definition dated (fuelKey : string) (rows : list PriceRow) (days hours : nat) : Prop :=
  forall row price, row ∈ rows -> row_get row fuelKey = Some price -> truthy price = true ->
    exists d h, getDay (last_transmission row) = Some d /\ d < days /\
                getHours (last_transmission row) = Some h /\ h < hours.

(** The averages the searches run over: per bucket, the arithmetic mean of
    its priced points, and [null] for a bucket without one. *)
Definition bucket_means (slot : string -> option nat) (fuelKey : string)
    (rows : list PriceRow) (buckets : nat) : list (option float) :=
  (fun b => bucket_mean (bucket_prices slot fuelKey b rows)) <$> seq 0 buckets.

(** Bucket [b] received at least one priced point, its mean is [m], and no
    bucket that received a point has a smaller mean. *)
Definition min_bucket (slot : string -> option nat) (fuelKey : string)
    (rows : list PriceRow) (buckets b : nat) (m : float) : Prop :=
  b < buckets /\
  bucket_prices slot fuelKey b rows <> [] /\
  bucket_mean (bucket_prices slot fuelKey b rows) = Some m /\
  forall j q, bucket_means slot fuelKey rows buckets !! j = Some (Some q) -> (m <=? q) = true.

(** The same with no bucket of a larger mean. *)
Definition max_bucket (slot : string -> option nat) (fuelKey : string)
    (rows : list PriceRow) (buckets b : nat) (m : float) : Prop :=
  b < buckets /\
  bucket_prices slot fuelKey b rows <> [] /\
  bucket_mean (bucket_prices slot fuelKey b rows) = Some m /\
  forall j q, bucket_means slot fuelKey rows buckets !! j = Some (Some q) -> (q <=? m) = true.

(** Every mean is a finite number. *)
Definition finite_means (means : list (option float)) : Prop :=
  forall b m, means !! b = Some (Some m) ->
    (neg_infinity <? m) = true /\ (m <? infinity) = true.

End AnalyticsSpec.

(** Checks that decide the two side conditions on concrete data. *)
Definition dated_check (getDay getHours : string -> option nat) (fuelKey : string)
    (rows : list PriceRow) (days hours : nat) : bool :=
  forallb (fun row =>
    negb (truthy_cell (row_get row fuelKey)) ||
    match getDay (last_transmission row), getHours (last_transmission row) with
    | Some d, Some h => (d <? days) && (h <? hours)
    | _, _ => false
    end) rows.

Definition finite_means_check (means : list (option float)) : bool :=
  forallb (fun mean =>
    match mean with
    | Some m => PrimFloat.ltb neg_infinity m && PrimFloat.ltb m infinity
    | None => true
    end) means.

(** The cell holds the number [0] (or [-0]). *)
Definition zero_price (c : option float) : bool :=
  match c with
  | Some p => PrimFloat.eqb p 0
  | None => false
  end.

Section CalendarSpec.

Local Open Scope Z_scope.

(** Leap years of the proleptic Gregorian calendar. *)
Definition leap (y : Z) : bool :=
  ((y mod 4 =? 0) && negb (y mod 100 =? 0) || (y mod 400 =? 0))%Z.

(** [f] holds of the [count] integers from [start] on. *)
Fixpoint check_range (f : Z -> bool) (start : Z) (count : nat) : bool :=
  match count with
  | O => true
  | S count' => f start && check_range f (start + 1) count'
  end.

(** In a year that is not a leap year, the day after 28 February is not 29 February. *)
Definition leap_day_ok (y : Z) : bool :=
  let '(y', m, d) := civil_from_days (days_from_civil y 2 29) in
  negb ((m =? 2) && (d =? 29)) || leap y.

End CalendarSpec.

Section AdviceSpec.

Local Open Scope float_scope.

Variable hourOf : string -> outcome js_error (option nat).

(** Every value falls into one of [hours] hour buckets. *)
Definition hours_readable (values : list Value) (hours : nat) : Prop :=
  forall x, x ∈ values -> exists hr, hourOf (date x) = Returns (Some hr) /\ hr < hours.

(** The mean price of the hour [hr], if a value fell into it. *)
Definition hour_mean (hr : nat) (values : list Value) : option float :=
  bucket_mean (hour_prices hourOf hr values).

(** The window starts at an hour whose mean no hour with values
    undercuts, carries that mean, and ends two hours later; without any
    mean below [Infinity] it is hour 0 with [Infinity]. *)
Definition best_window (values : list Value) (w : BestWindow) : Prop :=
  endHour w = (startHour w + 2) mod 24 /\
  (forall hr m, hr < 24 -> hour_mean hr values = Some m -> (m <? avg w) = false) /\
  ((startHour w = 0%nat /\ avg w = infinity) \/
   (startHour w < 24 /\ hour_mean (startHour w) values = Some (avg w))).

(** The population standard deviation of [l] around [m]. *)
Definition population_std (l : list float) (m : float) : float :=
  PrimFloat.sqrt (foldl PrimFloat.add 0 ((fun x => square (x - m)) <$> l)
                  / float_of_nat (length l)).

(** The decision rule, in its order. *)
Definition decide_advice (priceNow bestAvg median std : float) : Decision :=
  if priceNow <=? bestAvg + 0.02 then buy
  else if median + Math_max 0.03 (1.5 * std) <=? priceNow then wait
  else neutral.

End AdviceSpec.

(** The row filter that [filterDataByTimeRange] applies for a range; a
    range that is no filter keeps every row. *)
Definition range_keeps (Date_new : string -> Date) (daysBeforeNow : nat -> Date)
    (range : TimeRange) (row : PriceRow) : bool :=
  let rowDate := Date_new (last_transmission row) in
  match range with
  | RangeName s =>
      if String.eqb s "1d" then date_leb (daysBeforeNow 1) rowDate
      else if String.eqb s "7d" then date_leb (daysBeforeNow 7) rowDate
      else if String.eqb s "14d" then date_leb (daysBeforeNow 14) rowDate
      else true
  | RangeObject startDate endDate => date_leb startDate rowDate && date_leb rowDate endDate
  end.

(** The entries can be joined with [c] and split again: none contains
    [c], and the list is not the single empty string, whose joined text is
    as empty as that of the empty list. *)
Definition separable (c : ascii) (l : list string) : Prop :=
  Forall (fun s => includes c s = false) l /\ l <> [""].

Section PersistenceSpec.

Variable Date_new : string -> Date.
Variable toISOString : Z -> string.
Variable JSON_stringify : list string -> string.
Variable JSON_parse : string -> option json.

(** A time range that survives its encoding: a non-empty name without
    [';'], or two valid dates that the platform reads back from what
    [toISOString] wrote for them. *)
Definition range_encodable (range : TimeRange) : Prop :=
  match range with
  | RangeName s => s <> "" /\ includes ";" s = false
  | RangeObject (DateValue t0) (DateValue t1) =>
      Date_new (toISOString t0) = DateValue t0 /\
      Date_new (toISOString t1) = DateValue t1 /\
      includes ";" (toISOString t0) = false /\
      includes ";" (toISOString t1) = false
  | RangeObject _ _ => False
  end.

(** A time range without an invalid date. *)
Definition range_valid (range : TimeRange) : Prop :=
  match range with
  | RangeName _ => True
  | RangeObject (DateValue _) (DateValue _) => True
  | RangeObject _ _ => False
  end.

(** The call of [handleZoom] that an event makes: the zoom itself, or
    the call that comes back from the plugin when the zoom is reset. *)
Definition zoom_call (e : event) : option (option string * option string) :=
  match e with
  | Zoom startDate endDate => Some (startDate, endDate)
  | TimeRangeChange _ (Some chart) =>
      if default false (isZoomedOrPanned chart) then resetZoom chart else None
  | ResetZoom (Some chart) => resetZoom chart
  | _ => None
  end.

(** A zoom between two labels that are dates; an event without a call of
    [handleZoom] is no zoom. *)
Definition zoom_readable (e : event) : Prop :=
  match zoom_call e with
  | Some (startDate, endDate) =>
      isNaN_Date (Date_of Date_new startDate) = false /\
      isNaN_Date (Date_of Date_new endDate) = false
  | None => True
  end.

(** The platform can parse the selector that [updateTimeRangeRadios]
    builds for the range, or throws [e] for it; for a range that is an
    object no selector is built from it. *)
Definition radio_selector_accepted (querySelector : string -> outcome exception bool)
    (range : TimeRange) : Prop :=
  match range with
  | RangeName name => exists found, querySelector (radio_selector name) = Returns found
  | RangeObject _ _ => True
  end.

Definition radio_selector_rejected (querySelector : string -> outcome exception bool)
    (range : TimeRange) (e : exception) : Prop :=
  match range with
  | RangeName name => querySelector (radio_selector name) = Throws e
  | RangeObject _ _ => False
  end.

(** The URL shows the state: updating it again would write the same
    parameters. *)
Definition url_in_sync (p : Page) : Prop :=
  updateUrlWithState toISOString (page_state p) = Returns (page_url p).

(** [localStorage] holds the state: saving again would change nothing. *)
Definition storage_in_sync (p : Page) : Prop :=
  saveSelectedStations JSON_stringify (page_state p) (page_localStorage p) =
    page_localStorage p /\
  saveSelectedFuelTypes JSON_stringify (page_state p) (page_localStorage p) =
    page_localStorage p /\
  saveSelectedTimeRange toISOString (page_state p) (page_localStorage p) =
    Returns (page_localStorage p).

(** The text that the platform writes for [l] is not empty, and the
    platform reads it back. *)
Definition json_round_trip (l : list string) : Prop :=
  JSON_stringify l <> "" /\
  JSON_parse (JSON_stringify l) = Some (json_of_strings l).

(** The selection is made of stations of the list, and the list has one
    station per id. *)
Definition selection_known (st : State) : Prop :=
  NoDup (station_id <$> allStations st) /\
  (forall s, s ∈ selectedStations st -> s ∈ allStations st).

End PersistenceSpec.

(** The text that stands for a time range in localStorage and in the URL. *)
Definition range_text (toISOString : Z -> string) (range : TimeRange)
  : outcome js_error string :=
  match range with
  | RangeName s => Returns s
  | RangeObject start end_ => encode_range toISOString start end_
  end.

(** A reset of the zoom during which the plugin does not call
    [handleZoom]. *)
Definition quiet_reset (e : event) : Prop :=
  match e with
  | ResetZoom _ => zoom_call e = None
  | _ => False
  end.

(** The events whose handler writes the URL anew: all but the click on a
    station that is already selected and the reset of the zoom without a
    call of [handleZoom]. *)
Definition writes_url (e : event) (st : State) : Prop :=
  match e with
  | ResetZoom _ => zoom_call e <> None
  | ResultClick s => station_id s ∉ selected_ids st
  | _ => True
  end.

(** What an event does to the state.  A call of [handleZoom] is the last
    to assign the time range in the events that have one. *)
Definition state_after (Date_new : string -> Date) (e : event) (st : State) : State :=
  let last_assigned (range : TimeRange) : TimeRange :=
    match zoom_call e with
    | Some (startDate, endDate) =>
        RangeObject (Date_of Date_new startDate) (Date_of Date_new endDate)
    | None => range
    end in
  match e with
  | ResultClick s => handleResultClick s st
  | RemoveClick stationId => removeStation stationId st
  | FuelTypeChange checked => set_selectedFuelTypes checked st
  | TimeRangeChange value _ => set_selectedTimeRange (last_assigned (RangeName value)) st
  | Zoom startDate endDate =>
      set_selectedTimeRange
        (RangeObject (Date_of Date_new startDate) (Date_of Date_new endDate)) st
  | ResetZoom _ => set_selectedTimeRange (last_assigned (RangeName "all")) st
  end.

Section RefreshSpec.

Variables getDay getHours : string -> option nat.

(** The row has a price for the fuel, but its timestamp gives no weekday
    in 0..6 or no hour in 0..23. *)
Definition undated_row (fuelKey : string) (row : PriceRow) : Prop :=
  exists price,
    row_get row fuelKey = Some price /\ truthy price = true /\
    ~ exists d h, getDay (last_transmission row) = Some d /\ d < 7 /\
                  getHours (last_transmission row) = Some h /\ h < 24.

(** Some station has a current price for the fuel. *)
Definition has_price (sda : list StationData) (fuel : FuelType) : bool :=
  match findCheapest sda (fuel_key fuel) with
  | Some _ => true
  | None => false
  end.

(** The pattern of a fuel at a station, if the analysis finds one. *)
Definition pattern_of (sd : StationData) (fuel : FuelType) : option (FuelType * Patterns) :=
  match analyzePricePatterns getDay getHours (data sd) (fuel_key fuel) with
  | Returns (Some patterns) => Some (fuel, patterns)
  | _ => None
  end.

(** The block of a station: none for a station with fewer than 50 rows or
    without a pattern for any of the fuels. *)
Definition block_of (fuels : list FuelType) (sd : StationData) : option StationAnalysis :=
  if length (data sd) <? 50 then None
  else
    match omap (pattern_of sd) fuels with
    | [] => None
    | found => Some {| analysis_station := station sd; analysis_fuels := found |}
    end.

(** The timestamps of the rows that the pattern analysis reads can all be
    read: the priced rows, for the fuels shown, of the stations with at
    least 50 rows. *)
Definition analysable (fuels : list FuelType) (sda : list StationData) : Prop :=
  forall sd fuel, sd ∈ sda -> 50 <= length (data sd) -> fuel ∈ fuels ->
    dated getDay getHours (fuel_key fuel) (data sd) 7 24.

End RefreshSpec.

(** Reading the hour of the value fails with [e]: the formatter throws
    [e], or the formatted text is no hour of the day, and the bucket that
    is missing for it gives a [TypeError]. *)
Definition hour_fails (hourOf : string -> outcome js_error (option nat)) (x : Value)
    (e : js_error) : Prop :=
  hourOf (date x) = Throws e \/
  (e = TypeError /\
   exists reading, hourOf (date x) = Returns reading /\
                   forall hr, reading = Some hr -> 24 <= hr).

(** The row has a price for the key ([0] included). *)
Definition has_value (fuelKey : FuelKey) (r : AppPriceRow) : bool :=
  match app_row_get r fuelKey with
  | Some _ => true
  | None => false
  end.

(** ** Example data *)

Definition station_A : Station :=
  {| station_id := "a1"; station_name := "Aral"; station_address := "Hauptstr. 1" |}.
Definition station_B : Station :=
  {| station_id := "b2"; station_name := "Shell"; station_address := "Ring 2" |}.
Definition state_AB : State :=
  {| allStations := [station_A; station_B];
     selectedStations := [station_A; station_B];
     selectedFuelTypes := ["price_diesel"];
     selectedTimeRange := RangeName "all" |}.

(** A service that fails for station ["a1"] and has one row for any other. *)
Definition row_noon : PriceRow :=
  {| last_transmission := "2024-05-01T12:00:00+00:00";
     price_diesel := Some 1.659%float;
     price_super := Some 1.799%float;
     price_super_e10 := None |}.

Definition flaky_service : service PriceRow :=
  fun url =>
    if bool_decide (("station_id", "a1") ∈ req_params url)
    then Response false 500 None
    else table_service [row_noon] url.

Definition station_X : StationData :=
  {| station := station_A;
     data := [ {| last_transmission := "2024-05-01T10:00:00+00:00";
                  price_diesel := Some 1.919%float; price_super := None;
                  price_super_e10 := None |};
               {| last_transmission := "2024-05-01T12:00:00+00:00";
                  price_diesel := Some 1.899%float; price_super := Some 1.999%float;
                  price_super_e10 := None |} ] |}.

Definition station_Y : StationData :=
  {| station := station_B;
     data := [ {| last_transmission := "2024-05-01T11:00:00+00:00";
                  price_diesel := Some 1.879%float; price_super := Some 0%float;
                  price_super_e10 := None |} ] |}.

(** A week of an example station: two Monday prices, one Tuesday price, a
    Tuesday row without a diesel price and a Wednesday row with price [0]. *)
Definition example_times : list (string * (nat * nat)) :=
  [ ("2024-04-29T10:15:00+02:00", (1, 10));
    ("2024-04-29T18:45:00+02:00", (1, 18));
    ("2024-04-30T10:05:00+02:00", (2, 10));
    ("2024-04-30T12:00:00+02:00", (2, 12));
    ("2024-05-01T09:00:00+02:00", (3, 9)) ].

Definition example_getDay (ts : string) : option nat :=
  fst <$> (list_to_map example_times : gmap string (nat * nat)) !! ts.

Definition example_getHours (ts : string) : option nat :=
  snd <$> (list_to_map example_times : gmap string (nat * nat)) !! ts.

Definition diesel_row (ts : string) (price : option float) : PriceRow :=
  {| last_transmission := ts; price_diesel := price;
     price_super := None; price_super_e10 := None |}.

Definition example_week : list PriceRow :=
  [ diesel_row "2024-04-29T10:15:00+02:00" (Some 1.60%float);
    diesel_row "2024-04-29T18:45:00+02:00" (Some 1.70%float);
    diesel_row "2024-04-30T10:05:00+02:00" (Some 1.55%float);
    diesel_row "2024-04-30T12:00:00+02:00" None;
    diesel_row "2024-05-01T09:00:00+02:00" (Some 0%float) ].

(** A zoomed view from 1 March 2024 12:00 to 2 March 2024 12:00 (UTC). *)
Definition state_zoomed : State :=
  set_selectedTimeRange
    (RangeObject (DateValue 1709294400000) (DateValue 1709380800000)) state_AB.

(** Five diesel prices at noon on five days, and four at noon on four. *)
Definition noon (ts : string) : outcome js_error (option nat) := Returns (Some 12).

Definition diesel_at (day : string) (price : float) : AppPriceRow :=
  {| ts := (day ++ "T10:00:00Z")%string; diesel := Some price; super := None; e10 := None |}.

Definition five_days : list AppPriceRow :=
  [ diesel_at "2024-05-01" 1.80%float; diesel_at "2024-05-02" 1.82%float;
    diesel_at "2024-05-03" 1.79%float; diesel_at "2024-05-04" 1.85%float;
    diesel_at "2024-05-05" 1.78%float ].

(** The five prices with timestamps as [toISOString] writes them. *)
Definition five_noons : list AppPriceRow :=
  [ {| ts := "2024-05-01T10:00:00.000Z"; diesel := Some 1.80%float;
       super := None; e10 := None |};
    {| ts := "2024-05-02T10:00:00.000Z"; diesel := Some 1.82%float;
       super := None; e10 := None |};
    {| ts := "2024-05-03T10:00:00.000Z"; diesel := Some 1.79%float;
       super := None; e10 := None |};
    {| ts := "2024-05-04T10:00:00.000Z"; diesel := Some 1.85%float;
       super := None; e10 := None |};
    {| ts := "2024-05-05T10:00:00.000Z"; diesel := Some 1.78%float;
       super := None; e10 := None |} ].

Definition four_days : list AppPriceRow :=
  [ diesel_at "2024-05-01" 1%float; diesel_at "2024-05-02" 4%float;
    diesel_at "2024-05-03" 2%float; diesel_at "2024-05-04" 3%float ].

(** A service whose second page fails: the first request is answered from
    [table], every later one with status 503. *)
Definition failing_second_page (table : list nat) : service nat :=
  fun url =>
    if req_offset url =? 0 then table_service table url
    else Response false 503 None.

(** A service that ignores [OFFSET] and answers every request with the
    same full page. *)
Definition endless_service : service nat :=
  fun url => Response true 200 (Some (seq 0 (req_limit url))).

(** A clock that stands at 1 May 2024 12:00 UTC. *)
Definition example_daysBeforeNow (n : nat) : Date :=
  DateValue (1714564800000 - Z.of_nat n * msPerDay).

(** Three rows: twelve days, three days and one hour before that instant. *)
Definition example_history : list PriceRow :=
  [ diesel_row "2024-04-19T12:00:00.000Z" (Some 1.70%float);
    diesel_row "2024-04-28T12:00:00.000Z" (Some 1.65%float);
    diesel_row "2024-05-01T11:00:00.000Z" (Some 1.68%float) ].

(** A station service that knows the stations A and B. *)
Definition station_service : service Station := table_service [station_A; station_B].

(** The state of a page that has just been opened. *)
Definition fresh_state : State :=
  {| allStations := []; selectedStations := []; selectedFuelTypes := [];
     selectedTimeRange := RangeName "all" |}.

(** A page that knows the two stations and has nothing selected, stored
    or written to its URL yet. *)
Definition fresh_page : Page :=
  {| page_state := set_selectedFuelTypes [] (set_selectedStations [] state_AB);
     page_localStorage := ∅;
     page_url := ∅ |}.

(** A session: stations are added, fuel types and time range changed, the
    chart zoomed, and a station removed. *)
Definition example_events : list event :=
  [ ResultClick station_B;
    FuelTypeChange ["price_diesel"; "price_super"];
    ResultClick station_A;
    ResultClick station_B;
    TimeRangeChange "7d" None;
    Zoom (Some "2024-03-01T12:00:00.000Z") (Some "2024-03-02T12:00:00.000Z");
    RemoveClick "b2" ].

(** The page after these events: station A selected, Diesel and Super E5
    shown, zoomed to 1 to 2 March 2024. *)
Definition zoomed_page : Page :=
  Handlers.after iso_toISOString iso_Date_new json_stringify example_events fresh_page.

(** The same page with a time range whose name is one quotation mark, as
    a URL or localStorage that was edited by hand can name it. *)
Definition quoted_page : Page :=
  Handlers.after iso_toISOString iso_Date_new json_stringify
    [TimeRangeChange (String quote "") None] zoomed_page.

(** A chart that is zoomed, and whose plugin calls [handleZoom] with the
    first and the last label when the zoom is reset. *)
Definition calling_chart : Chart :=
  {| isZoomedOrPanned := Some true;
     resetZoom := Some (Some "2024-03-01T00:00:00.000Z", Some "2024-03-03T00:00:00.000Z") |}.

(** A station with 50 rows, half of them on a Monday morning and half on a
    Tuesday morning, and a page that shows nothing yet. *)
Definition busy_station : StationData :=
  {| station := station_A;
     data := replicate 25 (diesel_row "2024-04-29T10:15:00+02:00" (Some 1.60%float)) ++
             replicate 25 (diesel_row "2024-04-30T10:05:00+02:00" (Some 1.55%float)) |}.

Definition empty_view : View :=
  {| recommendation := Prompt; pricePatternAnalysis := []; priceChart := None |}.

(** An hour reader whose text is no number for the day ["2024-05-03"] and
    whose formatter throws for the day ["2024-05-04"]. *)
Definition hour_but_one (ts : string) : outcome js_error (option nat) :=
  if String.eqb ts "2024-05-03T10:00:00Z" then Returns None
  else if String.eqb ts "2024-05-04T10:00:00Z" then Throws RangeError
  else Returns (Some 12).

(** * Properties *)

(** ** Facts about the comparisons *)

Lemma SFltb_trans a b c :
  SFltb a b = true -> SFltb b c = true -> SFltb a c = true.
Proof.
  unfold SFltb, SFcompare.
  destruct a as [[]|[]| |[] ma ea], b as [[]|[]| |[] mb eb], c as [[]|[]| |[] mc ec];
    simpl; try congruence.
  all: rewrite ?Pos.compare_cont_spec; simpl;
    destruct (Z.compare_spec ea eb), (Z.compare_spec eb ec), (Z.compare_spec ea ec);
    simpl; try congruence; try lia; subst;
    destruct (Pos.compare_spec ma mb), (Pos.compare_spec mb mc), (Pos.compare_spec ma mc);
    simpl; try congruence; try lia.
Qed.

(** [a < b] and [b <= c] (stated as: [c < b] fails and [c] is a number). *)
Lemma SFltb_nlt_trans a b c :
  SFltb a b = true -> SFltb c b = false -> SFnan c = false -> SFltb a c = true.
Proof.
  unfold SFltb, SFcompare, SFnan.
  destruct a as [[]|[]| |[] ma ea], b as [[]|[]| |[] mb eb], c as [[]|[]| |[] mc ec];
    simpl; try congruence.
  all: rewrite ?Pos.compare_cont_spec; simpl;
    destruct (Z.compare_spec ea eb), (Z.compare_spec ec eb), (Z.compare_spec ea ec);
    simpl; try congruence; try lia; subst;
    destruct (Pos.compare_spec ma mb), (Pos.compare_spec mc mb), (Pos.compare_spec ma mc);
    simpl; try congruence; try lia.
Qed.

Lemma SFltb_asym a b : SFltb a b = true -> SFltb b a = false.
Proof.
  unfold SFltb, SFcompare.
  destruct a as [[]|[]| |[] ma ea], b as [[]|[]| |[] mb eb]; simpl; try congruence.
  all: rewrite ?Pos.compare_cont_spec; simpl;
    destruct (Z.compare_spec ea eb), (Z.compare_spec eb ea);
    simpl; try congruence; try lia; subst;
    destruct (Pos.compare_spec ma mb), (Pos.compare_spec mb ma);
    simpl; try congruence; try lia.
Qed.

Lemma SFltb_neq a b : SFltb a b = true -> SFeqb a b = false.
Proof.
  unfold SFltb, SFeqb. now destruct (SFcompare a b) as [[]|].
Qed.

Lemma SFltb_leb a b : SFltb a b = true -> SFleb a b = true.
Proof.
  unfold SFltb, SFleb. now destruct (SFcompare a b) as [[]|].
Qed.

Lemma SFnlt_leb a b :
  SFnan a = false -> SFnan b = false -> SFltb a b = false -> SFleb b a = true.
Proof.
  unfold SFltb, SFleb, SFcompare, SFnan.
  destruct a as [[]|[]| |[] ma ea], b as [[]|[]| |[] mb eb]; simpl; try congruence.
  all: rewrite ?Pos.compare_cont_spec; simpl;
    destruct (Z.compare_spec ea eb), (Z.compare_spec eb ea);
    simpl; try congruence; try lia; subst;
    destruct (Pos.compare_spec ma mb), (Pos.compare_spec mb ma);
    simpl; try congruence; try lia.
Qed.

Lemma SFeqb_refl_nan a : SFeqb a a = negb (SFnan a).
Proof.
  unfold SFeqb, SFcompare, SFnan.
  destruct a as [[]|[]| |[] ma ea]; simpl; try reflexivity.
  all: rewrite Z.compare_refl, Pos.compare_cont_spec, Pos.compare_refl; reflexivity.
Qed.

Lemma SFltb_not_nan a b : SFltb a b = true -> SFnan a = false /\ SFnan b = false.
Proof.
  unfold SFltb, SFcompare, SFnan. destruct a, b; simpl; try congruence; auto.
Qed.

Section FloatOrder.

Local Open Scope float_scope.
Implicit Types a b c : float.

Lemma is_nan_spec a : is_nan a = SFnan (Prim2SF a).
Proof.
  unfold is_nan. rewrite FloatAxioms.eqb_spec, SFeqb_refl_nan. apply negb_involutive.
Qed.

Lemma ltb_trans a b c : (a <? b) = true -> (b <? c) = true -> (a <? c) = true.
Proof. rewrite !FloatAxioms.ltb_spec. apply SFltb_trans. Qed.

Lemma ltb_nlt_trans a b c :
  (a <? b) = true -> (c <? b) = false -> is_nan c = false -> (a <? c) = true.
Proof. rewrite !FloatAxioms.ltb_spec, is_nan_spec. apply SFltb_nlt_trans. Qed.

Lemma ltb_asym a b : (a <? b) = true -> (b <? a) = false.
Proof. rewrite !FloatAxioms.ltb_spec. apply SFltb_asym. Qed.

Lemma ltb_irrefl a : (a <? a) = false.
Proof.
  destruct (a <? a) eqn:H; [|reflexivity].
  pose proof (ltb_asym _ _ H). congruence.
Qed.

Lemma ltb_neq a b : (a <? b) = true -> (a =? b) = false.
Proof. rewrite FloatAxioms.ltb_spec, FloatAxioms.eqb_spec. apply SFltb_neq. Qed.

Lemma ltb_leb a b : (a <? b) = true -> (a <=? b) = true.
Proof. rewrite FloatAxioms.ltb_spec, FloatAxioms.leb_spec. apply SFltb_leb. Qed.

Lemma nlt_leb a b :
  is_nan a = false -> is_nan b = false -> (a <? b) = false -> (b <=? a) = true.
Proof. rewrite FloatAxioms.ltb_spec, FloatAxioms.leb_spec, !is_nan_spec. apply SFnlt_leb. Qed.

Lemma ltb_not_nan a b : (a <? b) = true -> is_nan a = false /\ is_nan b = false.
Proof. rewrite FloatAxioms.ltb_spec, !is_nan_spec. apply SFltb_not_nan. Qed.

Lemma truthy_not_nan a : truthy a = true -> is_nan a = false.
Proof. unfold truthy. intros [_ H]%andb_prop. now apply negb_true_iff. Qed.

Lemma truthy_zero : truthy 0 = false /\ truthy (-0) = false.
Proof. split; reflexivity. Qed.

End FloatOrder.

(** ** Facts about sorting *)

Section SortFacts.

Context {A : Type} (after : A -> A -> bool).

Local Ltac in_list := first [assumption | rewrite ?elem_of_cons in *; tauto].

Lemma sort_insert_perm x l : sort_insert after x l ≡ₚ x :: l.
Proof.
  induction l as [|y l IH]; cbn [sort_insert]; [reflexivity|].
  destruct (after x y); [|reflexivity].
  rewrite IH. apply Permutation_swap.
Qed.

Lemma js_sort_perm l : js_sort after l ≡ₚ l.
Proof.
  induction l as [|x l IH]; cbn; [reflexivity|].
  fold (js_sort after l). now rewrite sort_insert_perm, IH.
Qed.

Lemma length_js_sort l : length (js_sort after l) = length l.
Proof. apply Permutation_length, js_sort_perm. Qed.

Lemma sort_insert_sorted x l :
  consistent_on after (x :: l) ->
  StronglySorted (fun a b => after a b = false) l ->
  StronglySorted (fun a b => after a b = false) (sort_insert after x l).
Proof.
  intros [Hasym Htrans] Hl. induction Hl as [|y l Hl IH Hy]; cbn [sort_insert].
  - repeat constructor.
  - destruct (after x y) eqn:Hxy.
    + constructor.
      * apply IH.
        -- intros a b Ha Hb. apply Hasym; in_list.
        -- intros a b c Ha Hb Hc. apply Htrans; in_list.
      * apply Forall_forall. intros z Hz.
        rewrite sort_insert_perm in Hz. apply elem_of_cons in Hz as [->|Hz].
        -- apply Hasym; [in_list..|exact Hxy].
        -- rewrite Forall_forall in Hy. now apply Hy.
    + constructor; [now constructor|].
      constructor; [exact Hxy|].
      rewrite Forall_forall in Hy |- *. intros z Hz.
      apply (Htrans z y x); [in_list..|now apply Hy|exact Hxy].
Qed.

Lemma js_sort_sorted l :
  consistent_on after l -> StronglySorted (fun a b => after a b = false) (js_sort after l).
Proof.
  induction l as [|x l IH]; intros Hc; cbn; [constructor|].
  fold (js_sort after l). apply sort_insert_sorted.
  - destruct Hc as [Hasym Htrans]. split.
    + intros a b Ha Hb. apply Hasym; rewrite <- (js_sort_perm l); assumption.
    + intros a b c Ha Hb Hc. apply Htrans; rewrite <- (js_sort_perm l); assumption.
  - apply IH. destruct Hc as [Hasym Htrans]. split.
    + intros a b Ha Hb. apply Hasym; in_list.
    + intros a b c Ha Hb Hc. apply Htrans; in_list.
Qed.

End SortFacts.

(** ** Properties of the pagination loop *)

Section PaginationFacts.

Context {Row : Type}.
Implicit Types (table allRows : list Row) (fetch : service Row).

Lemma PAGE_SIZE_pos : 0 < PAGE_SIZE.
Proof. unfold PAGE_SIZE. lia. Qed.

Local Opaque PAGE_SIZE.

Lemma page_requests_S q ps o n :
  page_requests q ps o (S n) =
  Request q PAGE_SIZE o ps :: page_requests q ps (o + PAGE_SIZE) n.
Proof.
  unfold page_requests. cbn [seq fmap list_fmap].
  rewrite Nat.mul_0_l, Nat.add_0_r. f_equal.
  rewrite <- seq_shift, <- list_fmap_compose.
  apply list_fmap_ext. intros _ i _. unfold compose. f_equal. lia.
Qed.

Lemma length_page_requests q ps o n : length (page_requests q ps o n) = n.
Proof. unfold page_requests. now rewrite length_fmap, length_seq. Qed.

Lemma page_of_table table url :
  page_of (table_service table) url = take (req_limit url) (drop (req_offset url) table).
Proof. reflexivity. Qed.

(** Against a table of [N] rows the loop started at [offset] asks for
    [(N - offset) / PAGE_SIZE + 1] pages and appends the rest of the table. *)
Lemma fetchLoop_table table q ps fuel : forall allRows offset log,
  offset <= length table ->
  (length table - offset) / PAGE_SIZE < fuel ->
  fetchLoop (table_service table) q ps fuel allRows offset log =
  Some (log ++ page_requests q ps offset ((length table - offset) / PAGE_SIZE + 1),
        Returns (allRows ++ drop offset table)).
Proof.
  pose proof PAGE_SIZE_pos as HP.
  induction fuel as [|fuel IH]; intros allRows offset log Hoff Hfuel; [lia|].
  cbn [fetchLoop table_service req_limit req_offset negb].
  set (page := take PAGE_SIZE (drop offset table)).
  assert (Hlen : length page = PAGE_SIZE `min` (length table - offset)).
  { unfold page. now rewrite length_take, length_drop. }
  unfold default. cbn [from_option id].
  destruct (Nat.ltb_spec (length page) PAGE_SIZE) as [Hshort|Hfull].
  - (* a short page: the loop ends *)
    assert (Hrest : length table - offset < PAGE_SIZE) by lia.
    rewrite (Nat.div_small _ _ Hrest). cbn [Nat.add].
    rewrite page_requests_S. unfold page_requests at 1. cbn [seq fmap list_fmap].
    assert (Hpage : page = drop offset table).
    { unfold page. apply take_ge. rewrite length_drop. lia. }
    do 2 f_equal.
    destruct (Nat.ltb_spec 0 (length page)) as [_|Hempty].
    + now rewrite Hpage.
    + rewrite <- Hpage. assert (page = []) as -> by (apply length_zero_iff_nil; lia).
      now rewrite app_nil_r.
  - (* a full page: one more round *)
    assert (Hrest : PAGE_SIZE <= length table - offset) by lia.
    assert (Hdiv : (length table - offset) / PAGE_SIZE =
                   (length table - (offset + PAGE_SIZE)) / PAGE_SIZE + 1).
    { replace (length table - offset)
        with ((length table - (offset + PAGE_SIZE)) + 1 * PAGE_SIZE) by lia.
      rewrite Nat.div_add by lia. reflexivity. }
    destruct (Nat.ltb_spec 0 (length page)) as [_|Hempty]; [|lia].
    rewrite IH by lia.
    rewrite Hdiv, (Nat.add_1_r (_ + 1)), page_requests_S.
    rewrite <- !app_assoc. cbn [app]. do 3 f_equal.
    unfold page. rewrite <- drop_drop. now rewrite take_drop.
Qed.

(** Whatever the service answers, a run that returns has asked for
    consecutive pages, every page but the last had at least [PAGE_SIZE]
    rows, the last one had fewer, and the result is the concatenation of
    the pages in the order they were asked for. *)
Lemma fetchLoop_returns fetch q ps fuel : forall allRows offset log log' result,
  fetchLoop fetch q ps fuel allRows offset log = Some (log', Returns result) ->
  exists n,
    log' = log ++ page_requests q ps offset (S n) /\
    (forall i url, i < n -> page_requests q ps offset (S n) !! i = Some url ->
       PAGE_SIZE <= length (page_of fetch url)) /\
    (forall url, page_requests q ps offset (S n) !! n = Some url ->
       length (page_of fetch url) < PAGE_SIZE) /\
    result = allRows ++ mjoin (page_of fetch <$> page_requests q ps offset (S n)).
Proof.
  induction fuel as [|fuel IH]; intros allRows offset log log' result Hrun; [discriminate|].
  cbn [fetchLoop] in Hrun.
  set (url := Request q PAGE_SIZE offset ps) in *.
  destruct (fetch url) as [|ok status rows] eqn:Hfetch; [discriminate|].
  destruct ok; cbn [negb] in Hrun; [|discriminate].
  assert (Hpage : page_of fetch url = default [] rows).
  { unfold page_of. rewrite Hfetch. now destruct rows. }
  assert (Hacc : (if 0 <? length (default [] rows)
                  then allRows ++ default [] rows else allRows)
                 = allRows ++ page_of fetch url).
  { rewrite Hpage. destruct (Nat.ltb_spec 0 (length (default [] rows))) as [|Hempty]; [done|].
    assert (default [] rows = []) as -> by (apply length_zero_iff_nil; lia).
    now rewrite app_nil_r. }
  rewrite Hacc in Hrun. clear Hacc.
  destruct (Nat.ltb_spec (length (default [] rows)) PAGE_SIZE) as [Hshort|Hfull].
  - injection Hrun as <- <-. exists 0.
    rewrite page_requests_S. unfold page_requests. cbn [seq fmap list_fmap mjoin list_join].
    fold url. repeat split.
    + intros i u Hi. lia.
    + intros u [= <-]. now rewrite Hpage.
    + now rewrite app_nil_r.
  - apply IH in Hrun as (n & Hlog & Hfullpages & Hlast & Hres).
    exists (S n). rewrite (page_requests_S _ _ _ (S n)). fold url. repeat split.
    + rewrite Hlog, <- app_assoc. reflexivity.
    + intros [|i] u Hi Hu.
      * injection Hu as <-. now rewrite Hpage.
      * apply (Hfullpages i); [lia|exact Hu].
    + intros u Hu. now apply Hlast.
    + rewrite Hres, <- app_assoc. reflexivity.
Qed.

(** The request counts of the specification agree with [N / PAGE_SIZE + 1]. *)
Lemma request_count_formula N :
  N / PAGE_SIZE + 1 =
  if N mod PAGE_SIZE =? 0 then ceil_div (N + 1) PAGE_SIZE else ceil_div N PAGE_SIZE.
Proof.
  pose proof PAGE_SIZE_pos as HP. unfold ceil_div.
  pose proof (Nat.div_mod_eq N PAGE_SIZE) as Hdm.
  pose proof (Nat.mod_upper_bound N PAGE_SIZE ltac:(lia)) as Hub.
  destruct (Nat.eqb_spec (N mod PAGE_SIZE) 0) as [Hz|Hnz].
  - apply (Nat.div_unique _ _ _ 0); [lia|].
    rewrite Nat.mul_add_distr_l. lia.
  - apply (Nat.div_unique _ _ _ (N mod PAGE_SIZE - 1)); [lia|].
    rewrite Nat.mul_add_distr_l. lia.
Qed.

(** C1. Against a query that yields exactly the [N] rows of [table], with
    enough fuel for the loop to finish, [fetchPaginatedData] returns the
    table itself (all [N] rows, in order); it issues [ceil((N+1)/P)]
    requests when [N] is a multiple of [P = PAGE_SIZE = 1000] and
    [ceil(N/P)] otherwise, at offsets [0, P, 2P, ...]; every page before
    the last one has exactly [P] rows and the last one has fewer than [P]
    rows (it is empty exactly when [N] is a multiple of [P]), so the loop
    stops at the first short page and not at the first empty one. *)
Theorem fetchPaginatedData_pagination table q ps fuel :
  let N := length table in
  let n := if N mod PAGE_SIZE =? 0 then ceil_div (N + 1) PAGE_SIZE
           else ceil_div N PAGE_SIZE in
  N / PAGE_SIZE < fuel ->
  PAGE_SIZE = 1000 /\
  fetchPaginatedData (table_service table) fuel q ps =
    Some (page_requests q ps 0 n, Returns table) /\
  length (page_requests q ps 0 n) = n /\
  (forall i url, page_requests q ps 0 n !! i = Some url ->
     req_offset url = i * PAGE_SIZE /\ req_limit url = PAGE_SIZE /\
     let page := page_of (table_service table) url in
     (S i < n -> length page = PAGE_SIZE) /\
     (S i = n -> length page < PAGE_SIZE /\
                 (page = [] <-> N mod PAGE_SIZE = 0))) /\
  table = mjoin (page_of (table_service table) <$> page_requests q ps 0 n).
Proof.
  intros N n Hfuel. pose proof PAGE_SIZE_pos as HP.
  assert (Hn : n = N / PAGE_SIZE + 1) by (symmetry; apply request_count_formula).
  clearbody n. subst n.
  assert (Hrun : fetchPaginatedData (table_service table) fuel q ps =
    Some (page_requests q ps 0 (N / PAGE_SIZE + 1), Returns table)).
  { unfold fetchPaginatedData.
    rewrite fetchLoop_table; rewrite ?Nat.sub_0_r; [reflexivity|lia|exact Hfuel]. }
  split; [reflexivity|]. split; [exact Hrun|]. split; [apply length_page_requests|].
  pose proof (Nat.div_mod_eq N PAGE_SIZE) as Hdm.
  pose proof (Nat.mod_upper_bound N PAGE_SIZE ltac:(lia)) as Hub.
  split.
  - intros i url Hurl. unfold page_requests in Hurl.
    rewrite list_lookup_fmap in Hurl.
    destruct (seq 0 (N `div` PAGE_SIZE + 1) !! i) as [j|] eqn:Hj; [|discriminate].
    apply lookup_seq in Hj as [-> Hi]. injection Hurl as <-.
    cbn [req_offset req_limit Nat.add]. split; [reflexivity|]. split; [reflexivity|].
    rewrite page_of_table. cbn [req_offset req_limit].
    rewrite length_take, length_drop. fold N. split.
    + intros Hlt. assert (S i * PAGE_SIZE <= N) by nia. nia.
    + intros Hlast. assert (i = N / PAGE_SIZE) as -> by lia.
      split; [nia|]. rewrite <- length_zero_iff_nil, length_take, length_drop. fold N. nia.
  - unfold fetchPaginatedData in Hrun.
    apply fetchLoop_returns in Hrun as (m & Hlog & _ & _ & Hres).
    cbn [app] in Hlog, Hres. now rewrite Hlog.
Qed.

(** A failed page discards the pages fetched before it: the call throws. *)
Lemma fetchLoop_http_error fetch q ps fuel allRows offset log status rows :
  fetch (Request q PAGE_SIZE offset ps) = Response false status rows ->
  fetchLoop fetch q ps (S fuel) allRows offset log =
  Some (log ++ [Request q PAGE_SIZE offset ps],
        Throws (HttpError status (Request q PAGE_SIZE offset ps))).
Proof. intros H. cbn [fetchLoop]. now rewrite H. Qed.

End PaginationFacts.

(** A run of C1 on 2000 rows: three requests, the last page empty. *)
Lemma fetchPaginatedData_pagination_witness :
  fetchPaginatedData (table_service (seq 0 2000)) 3 "select 1" [] =
    Some (page_requests "select 1" [] 0 3, Returns (seq 0 2000)).
Proof.
  pose proof (fetchPaginatedData_pagination (seq 0 2000) "select 1" [] 3) as H.
  cbv zeta in H.
  assert (Hfuel : length (seq 0 2000) / PAGE_SIZE < 3) by (vm_compute; lia).
  specialize (H Hfuel). destruct H as (_ & Hrun & _).
  exact Hrun.
Defined.

(** ** Properties of the selection *)

Lemma set_selectedStations_id st : set_selectedStations (selectedStations st) st = st.
Proof. now destruct st. Qed.

Lemma find_station_None (s : Station) (l : list Station) :
  List.find (fun s' => String.eqb (station_id s') (station_id s)) l = None <->
  station_id s ∉ station_id <$> l.
Proof.
  induction l as [|x l IH]; cbn [List.find fmap list_fmap].
  - split; [intros _; apply not_elem_of_nil|reflexivity].
  - rewrite not_elem_of_cons. destruct (String.eqb_spec (station_id x) (station_id s)) as [E|E].
    + split; [discriminate|]. intros [H _]. now destruct H.
    + rewrite IH. split; [intros H; split; [congruence|exact H]|tauto].
Qed.

Lemma filter_other_id_elem (stationId : string) (l : list Station) (s : Station) :
  s ∈ List.filter (fun s => negb (String.eqb (station_id s) stationId)) l <->
  s ∈ l /\ station_id s <> stationId.
Proof.
  rewrite !list_elem_of_In, List.filter_In, negb_true_iff, String.eqb_neq. reflexivity.
Qed.

Lemma filter_other_id_sublist (stationId : string) (l : list Station) :
  sublist (List.filter (fun s => negb (String.eqb (station_id s) stationId)) l) l.
Proof.
  induction l as [|x l IH]; cbn [List.filter]; [constructor|].
  destruct (negb _); now constructor.
Qed.

Lemma filter_other_id_absent (stationId : string) (l : list Station) :
  stationId ∉ station_id <$> l ->
  List.filter (fun s => negb (String.eqb (station_id s) stationId)) l = l.
Proof.
  induction l as [|x l IH]; cbn [List.filter fmap list_fmap]; [reflexivity|].
  rewrite not_elem_of_cons. intros [Hx Hl].
  destruct (String.eqb_spec (station_id x) stationId) as [E|E]; [congruence|].
  cbn [negb]. now rewrite IH.
Qed.

Lemma filter_other_id_length (stationId : string) (l : list Station) :
  NoDup (station_id <$> l) ->
  length (List.filter (fun s => negb (String.eqb (station_id s) stationId)) l) =
  length l - (if bool_decide (stationId ∈ station_id <$> l) then 1 else 0).
Proof.
  induction l as [|x l IH]; cbn [List.filter fmap list_fmap]; [reflexivity|].
  rewrite NoDup_cons. intros [Hx Hl].
  destruct (String.eqb_spec (station_id x) stationId) as [E|E]; cbn [negb].
  - subst stationId. rewrite filter_other_id_absent by exact Hx.
    rewrite bool_decide_eq_true_2 by (apply elem_of_cons; now left). cbn [length]. lia.
  - cbn [length]. rewrite IH by exact Hl.
    rewrite (bool_decide_ext (stationId ∈ station_id x :: (station_id <$> l))
                             (stationId ∈ station_id <$> l)).
    + case_bool_decide as Hin; [|lia].
      apply list_elem_of_fmap in Hin as (y & _ & Hy%list_elem_of_lookup).
      destruct Hy as [i Hi]. apply lookup_lt_Some in Hi. lia.
    + rewrite elem_of_cons. split; [intros [?|?]; [congruence|assumption]|tauto].
Qed.

Lemma handleResultClick_NoDup s st :
  NoDup (selected_ids st) -> NoDup (selected_ids (handleResultClick s st)).
Proof.
  unfold handleResultClick, selected_ids. intros Hnd.
  destruct (List.find _ _) eqn:Hfind; [exact Hnd|].
  apply find_station_None in Hfind. cbn [selectedStations set_selectedStations].
  rewrite fmap_app. apply NoDup_app. split; [exact Hnd|]. split.
  - intros x Hx [->|[]%elem_of_nil]%elem_of_cons. contradiction.
  - apply NoDup_singleton.
Qed.

Lemma removeStation_NoDup stationId st :
  NoDup (selected_ids st) -> NoDup (selected_ids (removeStation stationId st)).
Proof.
  unfold removeStation, selected_ids. cbn [selectedStations set_selectedStations].
  intros Hnd.
  eapply sublist_NoDup; first [exact Hnd | apply fmap_sublist, filter_other_id_sublist].
Qed.

Lemma mutations_NoDup (ms : list mutation) : forall st,
  NoDup (selected_ids st) -> NoDup (selected_ids (foldl mutate st ms)).
Proof.
  induction ms as [|m ms IH]; intros st Hnd; cbn [foldl]; [exact Hnd|].
  apply IH. destruct m; [now apply handleResultClick_NoDup|now apply removeStation_NoDup].
Qed.

(** C8. On a selection without two stations of the same [station_id]:
    adding a station whose id is already selected changes nothing and
    adding any other station puts it at the end; removing by id keeps
    exactly the stations with another id, in their order, removes at most
    one station and changes nothing when the id is not selected; and after
    each of the two operations, hence after every sequence of them, the
    selection still has no two stations with the same id. *)
Theorem selection_keeps_ids_distinct (st : State) (s : Station) (stationId : string)
    (ms : list mutation) :
  NoDup (selected_ids st) ->
  (station_id s ∈ selected_ids st -> handleResultClick s st = st) /\
  (station_id s ∉ selected_ids st ->
     selectedStations (handleResultClick s st) = selectedStations st ++ [s]) /\
  NoDup (selected_ids (handleResultClick s st)) /\
  (forall s', s' ∈ selectedStations (removeStation stationId st) <->
              s' ∈ selectedStations st /\ station_id s' <> stationId) /\
  sublist (selectedStations (removeStation stationId st)) (selectedStations st) /\
  length (selectedStations (removeStation stationId st)) =
    length (selectedStations st) - (if bool_decide (stationId ∈ selected_ids st) then 1 else 0) /\
  (stationId ∉ selected_ids st -> removeStation stationId st = st) /\
  NoDup (selected_ids (removeStation stationId st)) /\
  NoDup (selected_ids (foldl mutate st ms)).
Proof.
  intros Hnd. split_and!.
  - intros Hin. unfold handleResultClick.
    destruct (List.find _ _) eqn:Hfind; [reflexivity|].
    apply find_station_None in Hfind. contradiction.
  - intros Hnin. unfold handleResultClick.
    apply find_station_None in Hnin. now rewrite Hnin.
  - now apply handleResultClick_NoDup.
  - intros s'. apply filter_other_id_elem.
  - apply filter_other_id_sublist.
  - now apply filter_other_id_length.
  - intros Hnin. unfold removeStation.
    rewrite filter_other_id_absent by exact Hnin. apply set_selectedStations_id.
  - now apply removeStation_NoDup.
  - now apply mutations_NoDup.
Qed.

Lemma selection_keeps_ids_distinct_witness :
  NoDup (selected_ids (foldl mutate state_AB
           [RemoveStation "a1"; AddStation station_B; AddStation station_A])).
Proof.
  assert (Hnd : NoDup (selected_ids state_AB)).
  { apply (bool_decide_unpack _). vm_compute. exact I. }
  apply (selection_keeps_ids_distinct state_AB station_A "b2"
           [RemoveStation "a1"; AddStation station_B; AddStation station_A] Hnd).
Defined.

(** ** Properties of the history fetch *)

Lemma fetchPriceHistory_history_of fetch fuel since s rows :
  fetchPriceHistory fetch fuel since (station_id s) = Some rows <->
  history_of fetch fuel since s rows.
Proof.
  unfold fetchPriceHistory, history_of.
  destruct (fetchPaginatedData _ _ _ _) as [[log [fetched|e]]|];
    split; intros H; try congruence; try contradiction; now inversion H.
Qed.

(** A station whose first request is answered with a non-2xx status, or
    is not answered at all, gets the empty history. *)
Lemma fetchPriceHistory_failure fetch fuel since stationId :
  let url := Request price_history_query PAGE_SIZE 0
               (price_history_params since stationId) in
  (fetch url = Rejected \/ exists status rows, fetch url = Response false status rows) ->
  fetchPriceHistory fetch (S fuel) since stationId = Some [].
Proof.
  intros url Hfail. unfold fetchPriceHistory, fetchPaginatedData. cbn [fetchLoop].
  fold url. destruct Hfail as [->|(status & rows & ->)]; reflexivity.
Qed.

Lemma zip_with_StationData_lookup (l : list Station) (rs : list (list PriceRow)) i s r :
  l !! i = Some s -> rs !! i = Some r ->
  zip_with (fun s r => {| station := s; data := r |}) l rs !! i =
  Some {| station := s; data := r |}.
Proof.
  intros Hs Hr. rewrite lookup_zip_with, Hs. cbn. now rewrite Hr.
Qed.

(** C6. When every selected station's fetch comes to an end (returning or
    throwing, within the fuel), the refresh completes with one entry per
    selected station, in selection order; the entry of a station whose
    fetch threw (a non-2xx response or a rejected request on any page) has
    the empty series, and every other entry has exactly the rows that
    station's fetch returned: one station's failure changes no other
    station's series and never aborts the refresh. *)
Theorem refresh_isolates_station_failures (fetch : service PriceRow) (fuel : nat)
    (since : string) (st : State) :
  (forall s, s ∈ selectedStations st ->
     is_Some (fetchPriceHistory fetch fuel since (station_id s))) ->
  exists sda,
    stationDataArray fetch fuel since st = Some sda /\
    station <$> sda = selectedStations st /\
    (forall i sd, sda !! i = Some sd ->
       selectedStations st !! i = Some (station sd) /\
       match fetchPaginatedData fetch fuel price_history_query
               (price_history_params since (station_id (station sd))) with
       | Some (_, Throws _) => data sd = []
       | Some (_, Returns rows) => data sd = rows
       | None => False
       end).
Proof.
  intros Hends. unfold stationDataArray.
  destruct (mapM _ (selectedStations st)) as [results|] eqn:Hmap.
  - apply mapM_Some in Hmap. cbn [mbind option_bind].
    pose proof (Forall2_length _ _ _ Hmap) as Hlen.
    eexists. split; [reflexivity|]. split.
    + apply list_eq. intros i. rewrite list_lookup_fmap, lookup_zip_with.
      destruct (selectedStations st !! i) as [s|] eqn:Hs; [|reflexivity]. cbn.
      destruct (results !! i) as [r|] eqn:Hr; [reflexivity|].
      apply lookup_lt_Some in Hs. apply lookup_ge_None in Hr. lia.
    + intros i sd Hsd. rewrite lookup_zip_with in Hsd.
      destruct (selectedStations st !! i) as [s|] eqn:Hs; [|discriminate]. cbn in Hsd.
      destruct (results !! i) as [r|] eqn:Hr; [|discriminate]. injection Hsd as <-.
      cbn [station data]. split; [reflexivity|].
      pose proof (Forall2_lookup_lr _ _ _ _ _ _ Hmap Hs Hr) as Hfetch. cbn in Hfetch.
      now apply fetchPriceHistory_history_of in Hfetch.
  - exfalso. apply mapM_None in Hmap. apply Exists_exists in Hmap as (s & Hin & Hnone).
    destruct (Hends s Hin) as [rows Hrows]. congruence.
Qed.

Example stationDataArray_flaky :
  stationDataArray flaky_service 1 "2024-04-01T12:00:00.000Z" state_AB =
  Some [ {| station := station_A; data := [] |};
         {| station := station_B; data := [row_noon] |} ].
Proof. vm_compute. reflexivity. Qed.

Lemma refresh_isolates_station_failures_witness :
  exists sda,
    stationDataArray flaky_service 1 "2024-04-01T12:00:00.000Z" state_AB = Some sda /\
    station <$> sda = selectedStations state_AB /\
    (forall i sd, sda !! i = Some sd ->
       selectedStations state_AB !! i = Some (station sd) /\
       match fetchPaginatedData flaky_service 1 price_history_query
               (price_history_params "2024-04-01T12:00:00.000Z" (station_id (station sd))) with
       | Some (_, Throws _) => data sd = []
       | Some (_, Returns rows) => data sd = rows
       | None => False
       end).
Proof.
  apply refresh_isolates_station_failures.
  intros s Hs. cbn [selectedStations state_AB] in Hs.
  rewrite !elem_of_cons, elem_of_nil in Hs.
  destruct Hs as [->|[->|[]]]; vm_compute; eauto.
Defined.

(** ** The order on strings *)








(** ** Properties of the alignment *)







Lemma priceMap_snoc (rows : list PriceRow) (r : PriceRow) (key : string) :
  priceMap (rows ++ [r]) key = <[last_transmission r := row_get r key]> (priceMap rows key).
Proof. unfold priceMap. now rewrite foldl_snoc. Qed.

Lemma priceMap_lookup (rows : list PriceRow) (key ts : string) :
  priceMap rows key !! ts =
  (fun row => row_get row key) <$>
    last (List.filter (fun row => String.eqb (last_transmission row) ts) rows).
Proof.
  induction rows as [|r rows IH] using rev_ind; [reflexivity|].
  rewrite priceMap_snoc, List.filter_app. cbn [List.filter].
  destruct (String.eqb_spec (last_transmission r) ts) as [E|E].
  - rewrite last_snoc, E. cbn. apply lookup_insert_eq.
  - rewrite app_nil_r, lookup_insert_ne by exact E. exact IH.
Qed.

Lemma priceMap_reported (rows : list PriceRow) (key ts : string) :
  default None (priceMap rows key !! ts) = reported_price rows key ts.
Proof.
  rewrite priceMap_lookup. unfold reported_price. now destruct (last _).
Qed.




Lemma truthy_nonzero (p : float) : truthy p = true -> PrimFloat.eqb p 0 = false.
Proof. unfold truthy. intros [H _]%andb_prop. now apply negb_true_iff. Qed.


(** ** Properties of [findCheapest] *)

Section FindCheapestFacts.

Local Open Scope float_scope.

Lemma SFltb_neq_sym a b : SFltb a b = true -> SFeqb b a = false.
Proof.
  intros H. pose proof (SFltb_asym _ _ H) as Hba. pose proof (SFltb_neq _ _ H) as Hab.
  unfold SFltb, SFeqb, SFcompare in *.
  destruct a as [[]|[]| |[] ma ea], b as [[]|[]| |[] mb eb]; simpl in *; try congruence.
  all: rewrite ?Pos.compare_cont_spec in *; simpl in *;
    destruct (Z.compare_spec ea eb), (Z.compare_spec eb ea);
    simpl in *; try congruence; try lia; subst;
    destruct (Pos.compare_spec ma mb), (Pos.compare_spec mb ma);
    simpl in *; try congruence; try lia.
Qed.

Lemma positive_truthy (p : float) : (0 <? p) = true -> truthy p = true.
Proof.
  intros Hpos. unfold truthy.
  destruct (ltb_not_nan _ _ Hpos) as [_ ->].
  rewrite FloatAxioms.ltb_spec in Hpos. apply SFltb_neq_sym in Hpos.
  now rewrite FloatAxioms.eqb_spec, Hpos.
Qed.

Lemma latestPrice_empty sd fuelKey : data sd = [] -> latestPrice sd fuelKey = None.
Proof. unfold latestPrice. now intros ->. Qed.

Lemma findCheapest_step_spec fuelKey cheapest sd :
  findCheapest_step fuelKey cheapest sd =
  match latestPrice sd fuelKey with
  | Some price =>
      if truthy price && (price <? cheapest_price cheapest)
      then {| cheapest_station := Some (station sd); cheapest_price := price |}
      else cheapest
  | None => cheapest
  end.
Proof.
  unfold findCheapest_step. destruct (Nat.ltb_spec 0 (length (data sd))) as [|Hlen]; [reflexivity|].
  rewrite latestPrice_empty; [reflexivity|]. apply length_zero_iff_nil. lia.
Qed.

Lemma findCheapest_scan (sda : list StationData) (fuelKey : string) :
  scan_result sda fuelKey
    (foldl (findCheapest_step fuelKey)
           {| cheapest_station := None; cheapest_price := infinity |} sda).
Proof.
  induction sda as [|sd sda IH] using rev_ind.
  - left. split; [reflexivity|]. intros sd p []%elem_of_nil.
  - rewrite foldl_snoc, findCheapest_step_spec.
    set (c := foldl _ _ sda) in *.
    destruct (latestPrice sd fuelKey) as [price|] eqn:Hlatest.
    2:{ (* no latest price: nothing changes *)
      destruct IH as [[Hc Hnone]|(i & sd0 & p & Hi & Hcand & Hc & Hmin & Hfirst)].
      - left. split; [exact Hc|]. intros sd' q [Hin| ->%list_elem_of_singleton]%elem_of_app.
        + now apply Hnone.
        + intros [Hq _]. congruence.
      - right. exists i, sd0, p. split_and!; try assumption.
        + now apply lookup_app_l_Some.
        + intros j sd' q Hj Hq. apply lookup_app_Some in Hj as [Hj|[_ Hj]].
          * now apply (Hmin j sd').
          * apply list_lookup_singleton_Some in Hj as [_ <-].
            destruct Hq as [Hq _]. congruence.
        + intros j sd' q Hlt Hj Hq. apply lookup_app_Some in Hj as [Hj|[Hge _]].
          * now apply (Hfirst j sd').
          * apply lookup_lt_Some in Hi. lia. }
    destruct (truthy price) eqn:Htruthy; cbn [andb].
    2:{ (* a falsy latest price: nothing changes *)
      destruct IH as [[Hc Hnone]|(i & sd0 & p & Hi & Hcand & Hc & Hmin & Hfirst)].
      - left. split; [exact Hc|]. intros sd' q [Hin| ->%list_elem_of_singleton]%elem_of_app.
        + now apply Hnone.
        + intros (Hq & Ht & _). congruence.
      - right. exists i, sd0, p. split_and!; try assumption.
        + now apply lookup_app_l_Some.
        + intros j sd' q Hj Hq. apply lookup_app_Some in Hj as [Hj|[_ Hj]].
          * now apply (Hmin j sd').
          * apply list_lookup_singleton_Some in Hj as [_ <-].
            destruct Hq as (Hq & Ht & _). congruence.
        + intros j sd' q Hlt Hj Hq. apply lookup_app_Some in Hj as [Hj|[Hge _]].
          * now apply (Hfirst j sd').
          * apply lookup_lt_Some in Hi. lia. }
    pose proof (truthy_not_nan _ Htruthy) as Hnan.
    destruct IH as [[Hc Hnone]|(i & sd0 & p & Hi & Hcand & Hc & Hmin & Hfirst)].
    + (* no candidate so far *)
      rewrite Hc. cbn [cheapest_price].
      destruct (price <? infinity) eqn:Hfin.
      * right. exists (length sda), sd, price. split_and!.
        -- now rewrite lookup_app_r, Nat.sub_diag by lia.
        -- now split.
        -- reflexivity.
        -- intros j sd' q Hj Hq. apply lookup_app_Some in Hj as [Hj|[_ Hj]].
           ++ exfalso. eapply Hnone; [|exact Hq]. eapply list_elem_of_lookup_2, Hj.
           ++ apply list_lookup_singleton_Some in Hj as [_ <-].
              destruct Hq as [Hq _]. rewrite Hlatest in Hq. injection Hq as <-.
              apply ltb_irrefl.
        -- intros j sd' q Hlt Hj Hq. apply lookup_app_Some in Hj as [Hj|[Hge _]]; [|lia].
           exfalso. eapply Hnone; [|exact Hq]. eapply list_elem_of_lookup_2, Hj.
      * left. split; [reflexivity|].
        intros sd' q [Hin| ->%list_elem_of_singleton]%elem_of_app.
        -- now apply Hnone.
        -- intros (Hq & _ & Hlt). congruence.
    + (* a candidate at [i] holds the minimum so far *)
      rewrite Hc. cbn [cheapest_price]. destruct Hcand as (Hp & Htp & Hpfin).
      destruct (price <? p) eqn:Hlt.
      * right. exists (length sda), sd, price. split_and!.
        -- now rewrite lookup_app_r, Nat.sub_diag by lia.
        -- split; [exact Hlatest|]. split; [exact Htruthy|]. exact (ltb_trans _ _ _ Hlt Hpfin).
        -- reflexivity.
        -- intros j sd' q Hj Hq. apply lookup_app_Some in Hj as [Hj|[_ Hj]].
           ++ destruct (q <? price) eqn:Hqp; [|reflexivity].
              pose proof (ltb_trans _ _ _ Hqp Hlt) as Hqlt.
              rewrite (Hmin j sd' q Hj Hq) in Hqlt. discriminate.
           ++ apply list_lookup_singleton_Some in Hj as [_ <-].
              destruct Hq as [Hq _]. rewrite Hlatest in Hq. injection Hq as <-.
              apply ltb_irrefl.
        -- intros j sd' q Hj' Hj Hq. apply lookup_app_Some in Hj as [Hj|[Hge _]]; [|lia].
           apply (ltb_nlt_trans price p q Hlt (Hmin j sd' q Hj Hq)).
           apply truthy_not_nan. apply Hq.
      * right. exists i, sd0, p. split_and!; try assumption; try reflexivity.
        -- now apply lookup_app_l_Some.
        -- now split.
        -- intros j sd' q Hj Hq. apply lookup_app_Some in Hj as [Hj|[_ Hj]].
           ++ now apply (Hmin j sd').
           ++ apply list_lookup_singleton_Some in Hj as [_ <-].
              destruct Hq as [Hq _]. rewrite Hlatest in Hq. now injection Hq as <-.
        -- intros j sd' q Hj' Hj Hq. apply lookup_app_Some in Hj as [Hj|[Hge _]].
           ++ now apply (Hfirst j sd').
           ++ apply lookup_lt_Some in Hi. lia.
Qed.

End FindCheapestFacts.

Lemma findCheapest_None_iff (sda : list StationData) (fuelKey : string) :
  findCheapest sda fuelKey = None <->
  forall sd p, sd ∈ sda -> ~ candidate sd fuelKey p.
Proof.
  unfold findCheapest.
  destruct (findCheapest_scan sda fuelKey)
    as [[-> Hnone]|(i & sd & p & Hi & Hcand & -> & _)]; cbn [cheapest_price].
  - split; [intros _; exact Hnone|reflexivity].
  - destruct Hcand as (Hp & Ht & Hfin). rewrite (ltb_neq _ _ Hfin). split; [discriminate|].
    intros Hnone. exfalso. eapply Hnone; [eapply list_elem_of_lookup_2, Hi|].
    split; [exact Hp|]. now split.
Qed.

(** C4. [findCheapest] returns [null] when every station has no points or
    a [null] most-recent value for the fuel.  Otherwise, with every
    most-recent value a positive finite number as the data model has it,
    it returns the station whose last point has the minimum value,
    together with that value, and among several stations with the minimum
    the first one in the order of the array.  In particular, with [X] at
    1.899 and [Y] at 1.879 as most-recent diesel prices it returns [Y] at
    1.879, whichever of the two was selected first. *)
Theorem findCheapest_latest_minimum (sda : list StationData) (fuelKey : string) :
  ((forall sd, sd ∈ sda -> data sd = [] \/ latestPrice sd fuelKey = None) ->
   findCheapest sda fuelKey = None) /\
  ((forall sd p, sd ∈ sda -> latestPrice sd fuelKey = Some p ->
      PrimFloat.ltb 0 p = true /\ PrimFloat.ltb p infinity = true) ->
   (exists sd, sd ∈ sda /\ latestPrice sd fuelKey <> None) ->
   exists i sd p,
     sda !! i = Some sd /\ latestPrice sd fuelKey = Some p /\
     findCheapest sda fuelKey =
       Some {| cheapest_station := Some (station sd); cheapest_price := p |} /\
     (forall j sd' q, sda !! j = Some sd' -> latestPrice sd' fuelKey = Some q ->
        PrimFloat.leb p q = true) /\
     (forall j sd' q, j < i -> sda !! j = Some sd' -> latestPrice sd' fuelKey = Some q ->
        PrimFloat.ltb p q = true)) /\
  (forall X Y,
     latestPrice X "price_diesel" = Some 1.899%float ->
     latestPrice Y "price_diesel" = Some 1.879%float ->
     findCheapest [X; Y] "price_diesel" =
       Some {| cheapest_station := Some (station Y); cheapest_price := 1.879%float |} /\
     findCheapest [Y; X] "price_diesel" =
       Some {| cheapest_station := Some (station Y); cheapest_price := 1.879%float |}).
Proof.
  split_and!.
  - intros Hnull. apply findCheapest_None_iff. intros sd p Hin [Hp _].
    destruct (Hnull sd Hin) as [Hempty|Hnone]; [|congruence].
    rewrite (latestPrice_empty sd fuelKey Hempty) in Hp. discriminate.
  - intros Hpos (sd0 & Hin0 & Hsome).
    assert (Hcand : forall sd q, sd ∈ sda -> latestPrice sd fuelKey = Some q ->
                                 candidate sd fuelKey q).
    { intros sd q Hin Hq. destruct (Hpos sd q Hin Hq) as [H0 Hfin].
      split; [exact Hq|]. split; [now apply positive_truthy|exact Hfin]. }
    unfold findCheapest.
    destruct (findCheapest_scan sda fuelKey)
      as [[_ Hnone]|(i & sd & p & Hi & Hc & -> & Hmin & Hfirst)].
    + exfalso. destruct (latestPrice sd0 fuelKey) as [q|] eqn:Hq; [|congruence].
      exact (Hnone sd0 q Hin0 (Hcand sd0 q Hin0 Hq)).
    + cbn [cheapest_price]. destruct Hc as (Hp & Htp & Hfin).
      rewrite (ltb_neq _ _ Hfin). exists i, sd, p. split_and!; try done.
      * intros j sd' q Hj Hq.
        pose proof (Hcand sd' q (list_elem_of_lookup_2 _ _ _ Hj) Hq) as Hcq.
        apply nlt_leb; [apply truthy_not_nan, Hcq|now apply truthy_not_nan|].
        exact (Hmin j sd' q Hj Hcq).
      * intros j sd' q Hlt Hj Hq.
        exact (Hfirst j sd' q Hlt Hj (Hcand sd' q (list_elem_of_lookup_2 _ _ _ Hj) Hq)).
  - intros X Y HX HY. unfold findCheapest. cbn [foldl].
    rewrite !findCheapest_step_spec, ?HX, ?HY. cbn [cheapest_price].
    split; vm_compute; reflexivity.
Qed.

Lemma findCheapest_latest_minimum_witness :
  findCheapest [station_X; station_Y] "price_diesel" =
    Some {| cheapest_station := Some station_B; cheapest_price := 1.879%float |} /\
  exists i sd p,
    [station_X; station_Y] !! i = Some sd /\ latestPrice sd "price_diesel" = Some p /\
    findCheapest [station_X; station_Y] "price_diesel" =
      Some {| cheapest_station := Some (station sd); cheapest_price := p |} /\
    (forall j sd' q, [station_X; station_Y] !! j = Some sd' ->
       latestPrice sd' "price_diesel" = Some q -> PrimFloat.leb p q = true) /\
    (forall j sd' q, j < i -> [station_X; station_Y] !! j = Some sd' ->
       latestPrice sd' "price_diesel" = Some q -> PrimFloat.ltb p q = true).
Proof.
  destruct (findCheapest_latest_minimum [station_X; station_Y] "price_diesel")
    as (_ & Hmin & Hxy).
  split.
  - apply (Hxy station_X station_Y); reflexivity.
  - apply Hmin.
    + intros sd p Hin Hp. rewrite !elem_of_cons, elem_of_nil in Hin.
      destruct Hin as [->|[->|[]]]; vm_compute in Hp; injection Hp as <-;
        split; vm_compute; reflexivity.
    + exists station_X. split; [apply elem_of_cons; now left|discriminate].
Defined.

(** ** Properties of the minimum and maximum searches *)

Section ExtremesFacts.

Local Open Scope float_scope.

Lemma extremes_step_better acc entry :
  extremes_step acc entry = (better PrimFloat.ltb acc.1 entry, better gtb acc.2 entry).
Proof.
  destruct acc as [cheapest dearest], entry as [index [price|]]; reflexivity.
Qed.

Lemma foldl_extremes_step entries : forall acc,
  foldl extremes_step acc entries =
  (foldl (better PrimFloat.ltb) acc.1 entries, foldl (better gtb) acc.2 entries).
Proof.
  induction entries as [|e entries IH]; intros acc; cbn [foldl].
  - now destruct acc.
  - now rewrite IH, extremes_step_better.
Qed.

Lemma imap_pair_snoc {A} (l : list A) (x : A) :
  imap pair (l ++ [x]) = imap pair l ++ [(length l, x)].
Proof. rewrite imap_app. cbn. now rewrite Nat.add_0_r. Qed.

Lemma search_spec (lt : float -> float -> bool) (top : float) (averages : list (option float)) :
  (forall a b c, lt a b = true -> lt b c = true -> lt a c = true) ->
  (forall a, lt a a = false) ->
  search_result lt top averages
    (foldl (better lt) {| ext_index := -1; ext_price := top |} (imap pair averages)).
Proof.
  intros Htrans Hirrefl. induction averages as [|a averages IH] using rev_ind.
  - left. split; [reflexivity|]. intros j q [=].
  - rewrite imap_pair_snoc, foldl_snoc. set (best := foldl _ _ _) in *.
    unfold better at 1. cbn [fst snd].
    assert (Hold : forall j q, (averages ++ [a]) !! j = Some (Some q) ->
              averages !! j = Some (Some q) \/ a = Some q).
    { intros j q Hj. apply lookup_app_Some in Hj as [Hj|[_ Hj]]; [now left|].
      apply list_lookup_singleton_Some in Hj as [_ ->]. now right. }
    destruct a as [price|].
    2:{ destruct IH as [[Hb Hnone]|(i & p & Hi & Hb & Htop & Hmin)].
        - left. split; [exact Hb|]. intros j q [Hj|[=]]%Hold. now apply (Hnone j).
        - right. exists i, p. split_and!; try assumption.
          + now apply lookup_app_l_Some.
          + intros j q [Hj|[=]]%Hold. now apply (Hmin j). }
    destruct IH as [[Hb Hnone]|(i & p & Hi & Hb & Htop & Hmin)]; rewrite Hb; cbn [ext_price].
    + destruct (lt price top) eqn:Hlt.
      * right. exists (length averages), price. split_and!; try reflexivity.
        -- now rewrite lookup_app_r, Nat.sub_diag by lia.
        -- exact Hlt.
        -- intros j q [Hj|[= <-]]%Hold; [|apply Hirrefl].
           destruct (lt q price) eqn:Hq; [|reflexivity].
           rewrite <- (Hnone j q Hj). symmetry. exact (Htrans _ _ _ Hq Hlt).
      * left. split; [reflexivity|]. intros j q [Hj|[= <-]]%Hold; [now apply (Hnone j)|exact Hlt].
    + destruct (lt price p) eqn:Hlt.
      * right. exists (length averages), price. split_and!; try reflexivity.
        -- now rewrite lookup_app_r, Nat.sub_diag by lia.
        -- exact (Htrans _ _ _ Hlt Htop).
        -- intros j q [Hj|[= <-]]%Hold; [|apply Hirrefl].
           destruct (lt q price) eqn:Hq; [|reflexivity].
           rewrite <- (Hmin j q Hj). symmetry. exact (Htrans _ _ _ Hq Hlt).
      * right. exists i, p. split_and!; try assumption; try reflexivity.
        -- now apply lookup_app_l_Some.
        -- intros j q [Hj|[= <-]]%Hold; [now apply (Hmin j)|exact Hlt].
Qed.

Lemma extremes_spec (averages : list (option float)) :
  search_result PrimFloat.ltb infinity averages (extremes averages).1 /\
  search_result gtb neg_infinity averages (extremes averages).2.
Proof.
  unfold extremes. rewrite foldl_extremes_step. cbn [fst snd]. split.
  - apply search_spec; [apply ltb_trans|apply ltb_irrefl].
  - apply search_spec; unfold gtb.
    + intros a b c Hab Hbc. exact (ltb_trans _ _ _ Hbc Hab).
    + apply ltb_irrefl.
Qed.

End ExtremesFacts.

(** ** Properties of [analyzePricePatterns] *)

Section PricePatternsFacts.

Local Open Scope float_scope.

Variables getDay getHours : string -> option nat.

Lemma filled_sum_count prices : forall stat,
  filled prices stat =
  {| sum := foldl PrimFloat.add (sum stat) prices; count := count stat + length prices |}.
Proof.
  induction prices as [|p prices IH]; intros stat; cbn [filled foldl length].
  - destruct stat. cbn. now rewrite Nat.add_0_r.
  - fold (filled prices (add_price p stat)). rewrite IH. cbn [add_price sum count]. f_equal. lia.
Qed.

Lemma average_filled prices :
  average (filled prices {| sum := 0; count := 0 |}) = bucket_mean prices.
Proof.
  rewrite filled_sum_count. unfold average, bucket_mean. cbn [sum count Nat.add].
  now destruct prices.
Qed.

Lemma bucket_prices_cons slot fuelKey b row rows :
  bucket_prices slot fuelKey b (row :: rows) =
  match row_get row fuelKey with
  | Some price =>
      if truthy price && bool_decide (slot (last_transmission row) = Some b)
      then price :: bucket_prices slot fuelKey b rows
      else bucket_prices slot fuelKey b rows
  | None => bucket_prices slot fuelKey b rows
  end.
Proof.
  unfold bucket_prices. cbn [omap list_omap].
  destruct (row_get row fuelKey) as [price|]; [|reflexivity].
  now destruct (truthy price && _).
Qed.

Lemma bucket_prices_unpriced slot fuelKey b rows :
  (forall row, row ∈ rows -> truthy_cell (row_get row fuelKey) = false) ->
  bucket_prices slot fuelKey b rows = [].
Proof.
  induction rows as [|row rows IH]; intros Hnone; [reflexivity|].
  rewrite bucket_prices_cons, IH.
  - pose proof (Hnone row ltac:(apply elem_of_cons; now left)) as Hrow.
    destruct (row_get row fuelKey) as [price|]; [|reflexivity].
    cbn [truthy_cell] in Hrow. now rewrite Hrow.
  - intros r Hr. apply Hnone, elem_of_cons. now right.
Qed.

(** The loop adds every priced row to the bucket of its day and to the
    bucket of its hour, and to no other. *)
Lemma forEach_row_buckets fuelKey rows : forall dailyStats hourlyStats,
  dated getDay getHours fuelKey rows (length dailyStats) (length hourlyStats) ->
  forEach_row getDay getHours fuelKey (dailyStats, hourlyStats) rows =
  Returns
    (imap (fun d => filled (bucket_prices getDay fuelKey d rows)) dailyStats,
     imap (fun h => filled (bucket_prices getHours fuelKey h rows)) hourlyStats).
Proof.
  induction rows as [|row rows IH]; intros dailyStats hourlyStats Hdated.
  - cbn [forEach_row]. f_equal. f_equal; apply list_eq; intros i;
      rewrite list_lookup_imap; now destruct (_ !! i).
  - assert (Hrest : forall ds hs : list Stat, length ds = length dailyStats ->
              length hs = length hourlyStats -> dated getDay getHours fuelKey rows (length ds) (length hs)).
    { intros ds hs -> -> r p Hr. apply Hdated, elem_of_cons. now right. }
    cbn [forEach_row analyze_row].
    pose proof (Hdated row) as Hrow.
    destruct (row_get row fuelKey) as [price|] eqn:Hprice.
    2:{ cbn [bind_outcome]. rewrite IH by now apply Hrest.
        f_equal. f_equal; apply imap_ext; intros i st _;
          now rewrite bucket_prices_cons, Hprice. }
    destruct (truthy price) eqn:Htruthy.
    2:{ cbn [bind_outcome]. rewrite IH by now apply Hrest.
        f_equal. f_equal; apply imap_ext; intros i st _;
          now rewrite bucket_prices_cons, Hprice, Htruthy. }
    destruct (Hrow price ltac:(apply elem_of_cons; now left) eq_refl Htruthy)
      as (d & h & Hday & Hd & Hhour & Hh).
    rewrite Hday, Hhour, (proj2 (Nat.ltb_lt _ _) Hd), (proj2 (Nat.ltb_lt _ _) Hh).
    cbn [andb bind_outcome].
    rewrite IH by (apply Hrest; apply length_alter).
    f_equal. f_equal; apply list_eq; intros i; rewrite !list_lookup_imap;
      rewrite bucket_prices_cons, Hprice, Htruthy, ?Hday, ?Hhour; cbn [andb].
    + destruct (decide (d = i)) as [->|Hne].
      * rewrite list_lookup_alter_eq, bool_decide_eq_true_2 by reflexivity.
        now destruct (dailyStats !! i).
      * rewrite list_lookup_alter_ne by exact Hne.
        rewrite bool_decide_eq_false_2 by congruence. reflexivity.
    + destruct (decide (h = i)) as [->|Hne].
      * rewrite list_lookup_alter_eq, bool_decide_eq_true_2 by reflexivity.
        now destruct (hourlyStats !! i).
      * rewrite list_lookup_alter_ne by exact Hne.
        rewrite bool_decide_eq_false_2 by congruence. reflexivity.
Qed.

Lemma averages_of_buckets slot fuelKey rows n :
  average <$> imap (fun b => filled (bucket_prices slot fuelKey b rows))
                   (replicate n {| sum := 0; count := 0 |}) =
  bucket_means slot fuelKey rows n.
Proof.
  unfold bucket_means. apply list_eq. intros i.
  rewrite !list_lookup_fmap, list_lookup_imap.
  destruct (decide (i < n)) as [Hlt|Hge].
  - rewrite lookup_replicate_2, lookup_seq_lt by exact Hlt. cbn.
    now rewrite average_filled.
  - rewrite (proj1 (lookup_replicate_None _ _ _)) by lia.
    rewrite lookup_seq_ge by lia. reflexivity.
Qed.

Lemma bucket_means_lookup slot fuelKey rows n b m :
  bucket_means slot fuelKey rows n !! b = Some (Some m) ->
  b < n /\ bucket_prices slot fuelKey b rows <> [] /\
  bucket_mean (bucket_prices slot fuelKey b rows) = Some m.
Proof.
  unfold bucket_means. rewrite list_lookup_fmap.
  destruct (seq 0 n !! b) as [b'|] eqn:Hb; [|discriminate].
  apply lookup_seq in Hb as [-> Hlt]. cbn. intros [= Hm].
  split; [exact Hlt|]. split; [|exact Hm]. intros Hnil. rewrite Hnil in Hm. discriminate.
Qed.

(** What [analyzePricePatterns] computes from the two lists of means. *)
Lemma analyzePricePatterns_means priceData fuelKey :
  dated getDay getHours fuelKey priceData 7 24 ->
  analyzePricePatterns getDay getHours priceData fuelKey =
  let days := extremes (bucket_means getDay fuelKey priceData 7) in
  let hours := extremes (bucket_means getHours fuelKey priceData 24) in
  if (ext_index days.1 =? -1)%Z || (ext_index hours.1 =? -1)%Z
  then Returns None
  else Returns (Some
    {| cheapestDay := {| day := array_get dayNames (ext_index days.1);
                         day_price := ext_price days.1 |};
       dearestDay := {| day := array_get dayNames (ext_index days.2);
                        day_price := ext_price days.2 |};
       cheapestHour := {| hour := ext_index hours.1; hour_price := ext_price hours.1 |};
       dearestHour := {| hour := ext_index hours.2; hour_price := ext_price hours.2 |} |}).
Proof.
  intros Hdated. unfold analyzePricePatterns.
  rewrite forEach_row_buckets by exact Hdated. cbn [bind_outcome].
  rewrite !averages_of_buckets. cbv zeta.
  destruct (extremes (bucket_means getDay fuelKey priceData 7)) as [cd dd].
  destruct (extremes (bucket_means getHours fuelKey priceData 24)) as [ch dh].
  reflexivity.
Qed.

End PricePatternsFacts.

Section PricePatternsTheorem.

Local Open Scope float_scope.

Variables getDay getHours : string -> option nat.

Lemma array_get_of_nat {A} (arr : list A) (i : nat) :
  array_get arr (Z.of_nat i) = arr !! i.
Proof.
  unfold array_get. destruct (Z.ltb_spec (Z.of_nat i) 0) as [?|_]; [lia|].
  now rewrite Nat2Z.id.
Qed.

Lemma priced_row_bucket (slot : string -> option nat) fuelKey rows row b :
  row ∈ rows -> truthy_cell (row_get row fuelKey) = true ->
  slot (last_transmission row) = Some b ->
  bucket_prices slot fuelKey b rows <> [].
Proof.
  intros Hin Htruthy Hslot. induction rows as [|r rows IH]; [now apply elem_of_nil in Hin|].
  rewrite bucket_prices_cons. apply elem_of_cons in Hin as [<-|Hin].
  - destruct (row_get row fuelKey) as [price|]; [|discriminate].
    cbn [truthy_cell] in Htruthy. now rewrite Htruthy, bool_decide_eq_true_2.
  - destruct (row_get r fuelKey) as [price|]; [|now apply IH].
    destruct (truthy price && _); [discriminate|now apply IH].
Qed.

Lemma bucket_means_nonempty slot fuelKey rows n b :
  b < n -> bucket_prices slot fuelKey b rows <> [] ->
  exists m, bucket_means slot fuelKey rows n !! b = Some (Some m).
Proof.
  intros Hlt Hne. unfold bucket_means. rewrite list_lookup_fmap, lookup_seq_lt by exact Hlt.
  cbn. unfold bucket_mean. destruct (bucket_prices slot fuelKey b rows); [contradiction|].
  eauto.
Qed.

(** With finite means and at least one bucket filled, both searches find
    their bucket. *)
Lemma extremes_found slot fuelKey rows n b0 :
  finite_means (bucket_means slot fuelKey rows n) ->
  b0 < n -> bucket_prices slot fuelKey b0 rows <> [] ->
  exists c mc d md,
    extremes (bucket_means slot fuelKey rows n) =
      ({| ext_index := Z.of_nat c; ext_price := mc |},
       {| ext_index := Z.of_nat d; ext_price := md |}) /\
    min_bucket slot fuelKey rows n c mc /\ max_bucket slot fuelKey rows n d md.
Proof.
  intros Hfin Hb0 Hne0.
  destruct (bucket_means_nonempty slot fuelKey rows n b0 Hb0 Hne0) as [m0 Hm0].
  destruct (Hfin b0 m0 Hm0) as [Hlo0 Hhi0].
  destruct (extremes_spec (bucket_means slot fuelKey rows n)) as [Hmin Hmax].
  destruct (extremes (bucket_means slot fuelKey rows n)) as [cheapest dearest].
  cbn [fst snd] in Hmin, Hmax.
  destruct Hmin as [[_ Hnone]|(c & mc & Hc & -> & _ & Hcmin)].
  { rewrite (Hnone b0 m0 Hm0) in Hhi0. discriminate. }
  destruct Hmax as [[_ Hnone]|(d & md & Hd & -> & _ & Hdmax)].
  { unfold gtb in Hnone. rewrite (Hnone b0 m0 Hm0) in Hlo0. discriminate. }
  exists c, mc, d, md. split; [reflexivity|].
  destruct (bucket_means_lookup _ _ _ _ _ _ Hc) as (Hcn & Hcne & Hcm).
  destruct (bucket_means_lookup _ _ _ _ _ _ Hd) as (Hdn & Hdne & Hdm).
  destruct (Hfin c mc Hc) as [_ Hcfin]. destruct (Hfin d md Hd) as [_ Hdfin].
  split; (split; [assumption|]; split; [assumption|]; split; [assumption|]).
  - intros j q Hq. destruct (Hfin j q Hq) as [_ Hqfin].
    apply nlt_leb; [apply (ltb_not_nan _ _ Hqfin)|apply (ltb_not_nan _ _ Hcfin)|].
    exact (Hcmin j q Hq).
  - intros j q Hq. destruct (Hfin j q Hq) as [_ Hqfin].
    apply nlt_leb; [apply (ltb_not_nan _ _ Hdfin)|apply (ltb_not_nan _ _ Hqfin)|].
    exact (Hdmax j q Hq).
Qed.

(** C7. On a series whose priced rows carry readable dates, the analysis
    puts every priced (non-null, truthy) point into the bucket of its
    weekday (7 buckets) and of its hour (24 buckets) and takes the
    arithmetic mean of each bucket.  Without any priced point it returns
    [null].  With at least one, and all bucket means finite, it returns the
    weekday and the hour of minimum mean and those of maximum mean, each
    with that mean, where only buckets that received a point are compared:
    the reported buckets are never empty ones, and an empty bucket never
    counts as mean zero. *)
Theorem analyzePricePatterns_extremes (priceData : list PriceRow) (fuelKey : string) :
  dated getDay getHours fuelKey priceData 7 24 ->
  ((forall row, row ∈ priceData -> truthy_cell (row_get row fuelKey) = false) ->
   analyzePricePatterns getDay getHours priceData fuelKey = Returns None) /\
  ((exists row, row ∈ priceData /\ truthy_cell (row_get row fuelKey) = true) ->
   finite_means (bucket_means getDay fuelKey priceData 7) ->
   finite_means (bucket_means getHours fuelKey priceData 24) ->
   exists cd mcd dd mdd ch mch dh mdh,
     analyzePricePatterns getDay getHours priceData fuelKey =
       Returns (Some
         {| cheapestDay := {| day := dayNames !! cd; day_price := mcd |};
            dearestDay := {| day := dayNames !! dd; day_price := mdd |};
            cheapestHour := {| hour := Z.of_nat ch; hour_price := mch |};
            dearestHour := {| hour := Z.of_nat dh; hour_price := mdh |} |}) /\
     min_bucket getDay fuelKey priceData 7 cd mcd /\
     max_bucket getDay fuelKey priceData 7 dd mdd /\
     min_bucket getHours fuelKey priceData 24 ch mch /\
     max_bucket getHours fuelKey priceData 24 dh mdh).
Proof.
  intros Hdated. rewrite analyzePricePatterns_means by exact Hdated. cbv zeta. split.
  - intros Hnone.
    assert (Hdays : bucket_means getDay fuelKey priceData 7 = replicate 7 None).
    { unfold bucket_means. cbn [seq fmap list_fmap].
      now rewrite !bucket_prices_unpriced by exact Hnone. }
    rewrite Hdays. reflexivity.
  - intros (row & Hin & Htruthy) Hfd Hfh.
    destruct (row_get row fuelKey) as [price|] eqn:Hprice; [|discriminate].
    destruct (Hdated row price Hin Hprice Htruthy) as (d & h & Hd & Hdlt & Hh & Hhlt).
    assert (Hcell : truthy_cell (row_get row fuelKey) = true) by now rewrite Hprice.
    destruct (extremes_found getDay fuelKey priceData 7 d Hfd Hdlt
                (priced_row_bucket getDay _ _ _ _ Hin Hcell Hd))
      as (cd & mcd & dd & mdd & -> & Hcd & Hdd).
    destruct (extremes_found getHours fuelKey priceData 24 h Hfh Hhlt
                (priced_row_bucket getHours _ _ _ _ Hin Hcell Hh))
      as (ch & mch & dh & mdh & -> & Hch & Hdh).
    exists cd, mcd, dd, mdd, ch, mch, dh, mdh. cbn [fst snd ext_index ext_price].
    rewrite !array_get_of_nat.
    replace (Z.of_nat cd =? -1)%Z with false by (symmetry; apply Z.eqb_neq; lia).
    replace (Z.of_nat ch =? -1)%Z with false by (symmetry; apply Z.eqb_neq; lia).
    cbn [orb]. split_and!; try assumption. reflexivity.
Qed.

(** A row whose date cannot be read makes the analysis throw. *)
Lemma analyzePricePatterns_invalid_date (row : PriceRow) (rest : list PriceRow)
    (fuelKey : string) :
  truthy_cell (row_get row fuelKey) = true ->
  getDay (last_transmission row) = None ->
  analyzePricePatterns getDay getHours (row :: rest) fuelKey = Throws TypeError.
Proof.
  intros Htruthy Hday. unfold analyzePricePatterns. cbn [forEach_row analyze_row].
  destruct (row_get row fuelKey) as [price|]; [|discriminate].
  cbn [truthy_cell] in Htruthy. now rewrite Htruthy, Hday.
Qed.

End PricePatternsTheorem.

Lemma dated_check_sound getDay getHours fuelKey rows days hours :
  dated_check getDay getHours fuelKey rows days hours = true ->
  dated getDay getHours fuelKey rows days hours.
Proof.
  unfold dated_check. rewrite forallb_forall. intros Hall row price Hin Hprice Htruthy.
  specialize (Hall row (proj1 (list_elem_of_In _ _) Hin)).
  rewrite Hprice in Hall. cbn [truthy_cell] in Hall. rewrite Htruthy in Hall. cbn in Hall.
  destruct (getDay _) as [d|]; [|discriminate]. destruct (getHours _) as [h|]; [|discriminate].
  apply andb_prop in Hall as [Hd%Nat.ltb_lt Hh%Nat.ltb_lt]. now exists d, h.
Qed.

Lemma finite_means_check_sound means :
  finite_means_check means = true -> finite_means means.
Proof.
  unfold finite_means_check. rewrite forallb_forall. intros Hall b m Hb.
  apply list_elem_of_lookup_2, list_elem_of_In, Hall in Hb. now apply andb_prop in Hb.
Qed.

Example analyzePricePatterns_example_week :
  analyzePricePatterns example_getDay example_getHours example_week "price_diesel" =
  Returns (Some
    {| cheapestDay := {| day := Some "Dienstag"; day_price := 1.55%float |};
       dearestDay := {| day := Some "Montag";
                        day_price := PrimFloat.div (1.60 + 1.70)%float 2%float |};
       cheapestHour := {| hour := 10;
                          hour_price := PrimFloat.div (1.60 + 1.55)%float 2%float |};
       dearestHour := {| hour := 18; hour_price := 1.70%float |} |}).
Proof. vm_compute. reflexivity. Qed.

Lemma analyzePricePatterns_extremes_witness :
  exists cd mcd dd mdd ch mch dh mdh,
    analyzePricePatterns example_getDay example_getHours example_week "price_diesel" =
      Returns (Some
        {| cheapestDay := {| day := dayNames !! cd; day_price := mcd |};
           dearestDay := {| day := dayNames !! dd; day_price := mdd |};
           cheapestHour := {| hour := Z.of_nat ch; hour_price := mch |};
           dearestHour := {| hour := Z.of_nat dh; hour_price := mdh |} |}) /\
    min_bucket example_getDay "price_diesel" example_week 7 cd mcd /\
    max_bucket example_getDay "price_diesel" example_week 7 dd mdd /\
    min_bucket example_getHours "price_diesel" example_week 24 ch mch /\
    max_bucket example_getHours "price_diesel" example_week 24 dh mdh.
Proof.
  assert (Hdated : dated example_getDay example_getHours "price_diesel" example_week 7 24).
  { apply dated_check_sound. vm_compute. reflexivity. }
  apply (analyzePricePatterns_extremes example_getDay example_getHours
           example_week "price_diesel" Hdated).
  - exists (diesel_row "2024-04-29T10:15:00+02:00" (Some 1.60%float)).
    split; [apply elem_of_cons; now left|vm_compute; reflexivity].
  - apply finite_means_check_sound. vm_compute. reflexivity.
  - apply finite_means_check_sound. vm_compute. reflexivity.
Defined.

(** ** A price of zero *)

Lemma zero_price_falsy (c : option float) : zero_price c = true -> truthy_cell c = false.
Proof.
  destruct c as [p|]; [|reflexivity]. cbn [zero_price truthy_cell]. unfold truthy.
  now intros ->.
Qed.

Lemma findCheapest_step_zero fuelKey cheapest sd :
  zero_price (latestPrice sd fuelKey) = true ->
  findCheapest_step fuelKey cheapest sd = cheapest.
Proof.
  intros Hzero. rewrite findCheapest_step_spec.
  apply zero_price_falsy in Hzero.
  destruct (latestPrice sd fuelKey) as [p|]; [|reflexivity].
  cbn [truthy_cell] in Hzero. now rewrite Hzero.
Qed.

Lemma forEach_row_zero getDay getHours fuelKey rows : forall stats,
  forEach_row getDay getHours fuelKey stats rows =
  forEach_row getDay getHours fuelKey stats
    (List.filter (fun row => negb (zero_price (row_get row fuelKey))) rows).
Proof.
  induction rows as [|row rows IH]; intros stats; [reflexivity|].
  cbn [List.filter]. destruct (zero_price (row_get row fuelKey)) eqn:Hzero; cbn [negb].
  - cbn [forEach_row]. unfold analyze_row. destruct stats as [dailyStats hourlyStats].
    apply zero_price_falsy in Hzero.
    destruct (row_get row fuelKey) as [p|]; cbn [truthy_cell] in Hzero;
      rewrite ?Hzero; cbn [bind_outcome]; apply IH.
  - cbn [forEach_row]. destruct (analyze_row _ _ _ _ _) as [stats'|e]; cbn [bind_outcome];
      [apply IH|reflexivity].
Qed.

(** C9. A price of exactly [0] counts as absent in all three places:
    [findCheapest] passes over a station whose most recent value is [0], so
    the result is the one without that station; [analyzePricePatterns]
    gives the same result as on the series without its [0]-priced rows,
    and no bucket contains a [0]; and the chart shows the gap marker where
    the reported price is [0]. *)
Theorem zero_price_is_absent :
  (forall before sd after fuelKey,
     zero_price (latestPrice sd fuelKey) = true ->
     findCheapest (before ++ sd :: after) fuelKey = findCheapest (before ++ after) fuelKey) /\
  (forall getDay getHours priceData fuelKey,
     analyzePricePatterns getDay getHours priceData fuelKey =
     analyzePricePatterns getDay getHours
       (List.filter (fun row => negb (zero_price (row_get row fuelKey))) priceData) fuelKey) /\
  (forall slot fuelKey b priceData p,
     p ∈ bucket_prices slot fuelKey b priceData -> PrimFloat.eqb p 0 = false) /\
  (forall labels index sd fuel j ts,
     labels !! j = Some ts ->
     zero_price (reported_price (data sd) (fuel_key fuel) ts) = true ->
     points (dataset_of labels index sd fuel) !! j = Some None).
Proof.
  split_and!.
  - intros before sd after fuelKey Hzero. unfold findCheapest.
    rewrite !foldl_app. cbn [foldl]. now rewrite findCheapest_step_zero.
  - intros getDay getHours priceData fuelKey. unfold analyzePricePatterns.
    now rewrite forEach_row_zero.
  - intros slot fuelKey b priceData p Hin. unfold bucket_prices in Hin.
    apply list_elem_of_omap in Hin as (row & _ & Hrow).
    destruct (row_get row fuelKey) as [price|]; [|discriminate].
    destruct (truthy price) eqn:Htruthy; cbn [andb] in Hrow; [|discriminate].
    destruct (bool_decide _); [|discriminate]. injection Hrow as <-.
    now apply truthy_nonzero.
  - intros labels index sd fuel j ts Hj Hzero. cbn [points dataset_of]. unfold dataPoints.
    rewrite list_lookup_fmap, Hj. cbn [fmap option_fmap option_map].
    rewrite priceMap_reported. unfold or_null. now rewrite (zero_price_falsy _ Hzero).
Qed.

(** Station [Y] reports Super at [0]: it is no candidate for Super, its
    Super line shows a gap, and the Wednesday row of the example week adds
    to no bucket. *)
Example zero_price_examples :
  findCheapest [station_X; station_Y] "price_super" =
    Some {| cheapest_station := Some station_A; cheapest_price := 1.999%float |} /\
  findCheapest [station_Y] "price_super" = None /\
  bucket_prices example_getDay "price_diesel" 3 example_week = [] /\
  dataPoints ["2024-05-01T11:00:00+00:00"] (priceMap (data station_Y) "price_super") = [None].
Proof. vm_compute. repeat split. Qed.

(** ** The format round trip *)

(** Parsing what [iso_toISOString] wrote gives the time value back, for
    every time value a [Date] can hold. *)

Example iso_toISOString_examples :
  iso_toISOString 1709294400000 = "2024-03-01T12:00:00.000Z" /\
  iso_toISOString 0 = "1970-01-01T00:00:00.000Z" /\
  iso_toISOString (-1) = "1969-12-31T23:59:59.999Z" /\
  iso_toISOString 951782400123 = "2000-02-29T00:00:00.123Z" /\
  iso_toISOString 253402300800000 = "+010000-01-01T00:00:00.000Z".
Proof. vm_compute. repeat split. Qed.

Example iso_Date_new_examples :
  iso_Date_new "2024-03-01T12:00:00.000Z" = DateValue 1709294400000 /\
  iso_Date_new "1969-12-31T23:59:59.999Z" = DateValue (-1) /\
  iso_Date_new "+010000-01-01T00:00:00.000Z" = DateValue 253402300800000 /\
  iso_Date_new "" = InvalidDate /\
  iso_Date_new "x" = InvalidDate.
Proof. vm_compute. repeat split. Qed.

Section DateTimeFormat.

Local Open Scope Z_scope.

Local Ltac split_ifs :=
  repeat match goal with
  | |- context [if ?b then _ else _] => let H := fresh in destruct b eqn:H
  end;
  rewrite ?andb_true_iff, ?andb_false_iff, ?orb_true_iff, ?orb_false_iff,
          ?negb_true_iff, ?negb_false_iff,
          ?Z.leb_le, ?Z.leb_gt, ?Z.ltb_lt, ?Z.ltb_ge, ?Z.eqb_eq, ?Z.eqb_neq in *.

Lemma civil_from_days_era z k :
  civil_from_days (z + 146097 * k) =
  let '(y, m, d) := civil_from_days z in (y + 400 * k, m, d).
Proof.
  unfold civil_from_days. cbv zeta.
  replace ((z + 146097 * k + 719468) / 146097) with ((z + 719468) / 146097 + k).
  2:{ replace (z + 146097 * k + 719468) with (z + 719468 + k * 146097) by lia.
      now rewrite Z.div_add by lia. }
  replace (z + 146097 * k + 719468 - ((z + 719468) / 146097 + k) * 146097)
    with (z + 719468 - (z + 719468) / 146097 * 146097) by lia.
  set (doe := z + 719468 - (z + 719468) / 146097 * 146097).
  set (yoe := (doe - doe / 1460 + doe / 36524 - doe / 146096) / 365).
  set (doy := doe - (365 * yoe + yoe / 4 - yoe / 100)).
  set (mp := (5 * doy + 2) / 153).
  destruct (mp <? 10); destruct (_ <=? 2); f_equal; f_equal; lia.
Qed.

Lemma check_range_sound f count : forall start z,
  check_range f start count = true ->
  (start <= z < start + Z.of_nat count)%Z -> f z = true.
Proof.
  induction count as [|count IH]; intros start z Hc Hz; [lia|].
  cbn [check_range] in Hc. apply andb_prop in Hc as [Hs Hrest].
  destruct (decide (z = start)) as [->|Hne]; [exact Hs|].
  apply (IH (start + 1)%Z); [exact Hrest|lia].
Qed.

Lemma leap_day_cycle : check_range leap_day_ok 0 400 = true.
Proof. vm_compute. reflexivity. Qed.

Lemma leap_era y k : leap (y + 400 * k) = leap y.
Proof.
  unfold leap.
  replace ((y + 400 * k) mod 4) with (y mod 4).
  2:{ replace (y + 400 * k) with (y + (100 * k) * 4) by lia. now rewrite Z.mod_add by lia. }
  replace ((y + 400 * k) mod 100) with (y mod 100).
  2:{ replace (y + 400 * k) with (y + (4 * k) * 100) by lia. now rewrite Z.mod_add by lia. }
  replace ((y + 400 * k) mod 400) with (y mod 400).
  2:{ replace (y + 400 * k) with (y + k * 400) by lia. now rewrite Z.mod_add by lia. }
  reflexivity.
Qed.

Lemma civil_round_trip z :
  let '(y, m, d) := civil_from_days z in days_from_civil y m d = z.
Proof.
  unfold civil_from_days, days_from_civil. cbv zeta. split_ifs.
  all: Z.div_mod_to_equations; lia.
Qed.

Lemma civil_month_day z :
  let '(y, m, d) := civil_from_days z in
  1 <= m <= 12 /\ 1 <= d /\
  (m <> 2 -> d <= days_in_month y m) /\ (m = 2 -> d <= 29).
Proof.
  unfold civil_from_days, days_in_month. cbv zeta. split_ifs.
  all: Z.div_mod_to_equations; lia.
Qed.

Lemma days_from_civil_era y m d k :
  days_from_civil (y + 400 * k) m d = days_from_civil y m d + 146097 * k.
Proof.
  unfold days_from_civil. cbv zeta. split_ifs.
  all: Z.div_mod_to_equations; lia.
Qed.

Lemma days_in_february y : days_in_month y 2 = if leap y then 29 else 28.
Proof. reflexivity. Qed.

Lemma leap_day_is_in_leap_year z y :
  civil_from_days z = (y, 2, 29) -> leap y = true.
Proof.
  intros Hz. pose proof (civil_round_trip z) as Hrt. rewrite Hz in Hrt.
  pose proof (Z.div_mod y 400 ltac:(lia)) as Hy.
  pose proof (Z.mod_pos_bound y 400 ltac:(lia)) as Hy0.
  set (y0 := y mod 400) in *. set (k := y / 400) in *.
  assert (Hyk : y = y0 + 400 * k) by lia.
  rewrite Hyk, days_from_civil_era in Hrt.
  pose proof (civil_from_days_era (days_from_civil y0 2 29) k) as Hera.
  rewrite Hrt, Hz in Hera.
  pose proof (check_range_sound leap_day_ok 400 0 y0 leap_day_cycle ltac:(lia)) as Hok.
  unfold leap_day_ok in Hok.
  destruct (civil_from_days (days_from_civil y0 2 29)) as [[y' m'] d'].
  injection Hera as Hy' Hm' Hd'. subst m' d'. cbn in Hok.
  rewrite Hyk, leap_era. exact Hok.
Qed.

Lemma civil_valid z y m d :
  civil_from_days z = (y, m, d) ->
  1 <= m <= 12 /\ 1 <= d <= days_in_month y m /\ days_from_civil y m d = z.
Proof.
  intros Hz. pose proof (civil_round_trip z) as Hrt. pose proof (civil_month_day z) as Hmd.
  rewrite Hz in Hrt, Hmd. destruct Hmd as (Hm & Hd & Hother & Hfeb).
  split; [exact Hm|]. split; [|exact Hrt]. split; [exact Hd|].
  destruct (decide (m = 2)) as [->|Hne]; [|now apply Hother].
  specialize (Hfeb eq_refl). rewrite days_in_february.
  destruct (decide (d = 29)) as [->|Hd29].
  - now rewrite (leap_day_is_in_leap_year z y Hz).
  - destruct (leap y); lia.
Qed.

Lemma civil_year_bound z y m d :
  -100000000 <= z <= 100000000 -> civil_from_days z = (y, m, d) ->
  -999999 <= y <= 999999.
Proof.
  intros Hz. unfold civil_from_days. cbv zeta. split_ifs; intros [= <- _ _].
  all: Z.div_mod_to_equations; lia.
Qed.

Lemma digit_cases (P : ascii -> Prop) :
  (forall k : nat, (k < 10)%nat -> P (ascii_of_nat (48 + k))) -> forall n, P (digit n).
Proof.
  intros HP n. unfold digit. apply HP.
  pose proof (Z.mod_pos_bound n 10 ltac:(lia)). lia.
Qed.

Lemma digit_value_digit (n : Z) : digit_value (digit n) = Some (n mod 10).
Proof.
  unfold digit. pose proof (Z.mod_pos_bound n 10 ltac:(lia)) as Hb.
  rewrite <- (Z2Nat.id (n mod 10)) at 2 by lia.
  assert (Hlt : (Z.to_nat (n mod 10) < 10)%nat) by lia.
  revert Hlt. generalize (Z.to_nat (n mod 10)). intros k Hk.
  do 10 (destruct k as [|k]; [reflexivity|]). lia.
Qed.

Lemma digit_not_sep (n : Z) : Ascii.eqb (digit n) ";" = false.
Proof.
  apply digit_cases. intros k Hk. do 10 (destruct k as [|k]; [reflexivity|]). lia.
Qed.

Lemma append_cons (x : ascii) (a b : string) :
  (String x a ++ b)%string = String x (a ++ b)%string.
Proof. reflexivity. Qed.

Lemma append_empty (b : string) : (EmptyString ++ b)%string = b.
Proof. reflexivity. Qed.

Lemma string_app_assoc (a b c : string) : ((a ++ b) ++ c = a ++ (b ++ c))%string.
Proof.
  induction a as [|x a IH]; [reflexivity|]. rewrite !append_cons. f_equal. exact IH.
Qed.

Lemma read_digits_pad (w : nat) : forall k acc n s,
  0 <= n < 10 ^ Z.of_nat w ->
  read_digits (w + k) acc (pad w n ++ s)%string = read_digits k (acc * 10 ^ Z.of_nat w + n) s.
Proof.
  induction w as [|w IH]; intros k acc n s Hn.
  - cbn [pad Nat.add]. rewrite append_empty. f_equal. change (10 ^ Z.of_nat 0) with 1 in *. lia.
  - cbn [pad]. rewrite string_app_assoc, append_cons, append_empty.
    replace (S w + k)%nat with (w + S k)%nat by lia.
    rewrite Nat2Z.inj_succ, Z.pow_succ_r in Hn |- * by lia.
    rewrite IH by (Z.div_mod_to_equations; lia).
    cbn [read_digits]. rewrite digit_value_digit. cbn [mbind option_bind].
    f_equal. Z.div_mod_to_equations. lia.
Qed.

Lemma read_digits_pad_all (w : nat) (n : Z) (s : string) :
  0 <= n < 10 ^ Z.of_nat w ->
  read_digits w 0 (pad w n ++ s)%string = Some (n, s).
Proof.
  intros Hn. rewrite <- (Nat.add_0_r w) at 1. rewrite read_digits_pad by exact Hn.
  cbn [read_digits]. do 2 f_equal; lia.
Qed.

Lemma includes_app (c : ascii) (a b : string) :
  includes c (a ++ b)%string = includes c a || includes c b.
Proof.
  induction a as [|x a IH]; [reflexivity|].
  rewrite append_cons. cbn [includes]. now rewrite IH, orb_assoc.
Qed.

Lemma pad_no_sep (w : nat) : forall n, includes ";" (pad w n) = false.
Proof.
  induction w as [|w IH]; intros n; cbn [pad]; [reflexivity|].
  rewrite includes_app, IH. cbn [includes orb]. now rewrite digit_not_sep.
Qed.

(** A string of digits does not start with a sign. *)
Lemma read_year_digits (w : nat) (n : Z) (s : string) :
  read_year (pad (S w) n ++ s)%string = read_digits 4 0 (pad (S w) n ++ s)%string.
Proof.
  assert (Hhead : exists k rest, (k < 10)%nat /\
            (pad (S w) n ++ s)%string = String (ascii_of_nat (48 + k)) rest).
  { revert n s. induction w as [|w IH]; intros n s.
    - cbn [pad]. rewrite append_empty, append_cons, append_empty.
      exists (Z.to_nat (n mod 10)), s. split; [|reflexivity].
      pose proof (Z.mod_pos_bound n 10 ltac:(lia)). lia.
    - change (pad (S (S w)) n) with (pad (S w) (n / 10) ++ String (digit n) EmptyString)%string.
      rewrite string_app_assoc. apply IH. }
  destruct Hhead as (k & rest & Hk & ->).
  do 10 (destruct k as [|k]; [reflexivity|]). lia.
Qed.

Lemma expect_head (c : ascii) (s : string) : expect c (String c s) = Some s.
Proof. cbn [expect]. now rewrite Ascii.eqb_refl. Qed.

Lemma read_year_string (y : Z) (rest : string) :
  -999999 <= y <= 999999 ->
  read_year (year_string y ++ rest)%string = Some (y, rest).
Proof.
  intros Hy. unfold year_string.
  destruct ((0 <=? y) && (y <=? 9999)) eqn:Hsmall.
  - apply andb_prop in Hsmall as [H0%Z.leb_le H1%Z.leb_le].
    rewrite read_year_digits. apply read_digits_pad_all.
    change (10 ^ Z.of_nat 4) with 10000. lia.
  - destruct (Z.ltb_spec y 0) as [Hneg|Hpos].
    + rewrite string_app_assoc, append_cons, append_empty. cbn [read_year].
      rewrite read_digits_pad_all by (change (10 ^ Z.of_nat 6) with 1000000; lia).
      cbn [mbind option_bind]. destruct (Z.eqb_spec (- y) 0) as [?|_]; [lia|].
      do 2 f_equal. lia.
    + rewrite string_app_assoc, append_cons, append_empty. cbn [read_year].
      apply read_digits_pad_all. change (10 ^ Z.of_nat 6) with 1000000. lia.
Qed.

Lemma year_string_no_sep (y : Z) : includes ";" (year_string y) = false.
Proof.
  unfold year_string. destruct (_ && _); [apply pad_no_sep|].
  destruct (y <? 0); rewrite includes_app, pad_no_sep; reflexivity.
Qed.

Lemma iso_toISOString_no_sep (t : Z) : includes ";" (iso_toISOString t) = false.
Proof.
  unfold iso_toISOString. destruct (civil_from_days _) as [[y m] d].
  rewrite !includes_app, year_string_no_sep, !pad_no_sep. reflexivity.
Qed.

Lemma iso_parse_toISOString (t : Z) :
  Z.abs t <= 8640000000000000 -> iso_parse (iso_toISOString t) = Some t.
Proof.
  intros Ht. unfold iso_toISOString, msPerDay.
  pose proof (Z.div_mod t 86400000 ltac:(lia)) as Hdm.
  pose proof (Z.mod_pos_bound t 86400000 ltac:(lia)) as Hms.
  set (ms := t mod 86400000) in *. set (days := t / 86400000) in *.
  destruct (civil_from_days days) as [[y m] d] eqn:Hcivil.
  destruct (civil_valid days y m d Hcivil) as (Hm & Hd & Hrt).
  assert (Hdim : days_in_month y m <= 31).
  { unfold days_in_month. repeat destruct (_ : bool); lia. }
  pose proof (civil_year_bound days y m d ltac:(lia) Hcivil) as Hy.
  unfold iso_parse.
  rewrite read_year_string by exact Hy. cbn [mbind option_bind].
  rewrite !append_cons, !append_empty.
  rewrite expect_head. cbn [mbind option_bind].
  rewrite read_digits_pad_all by (change (10 ^ Z.of_nat 2) with 100; lia).
  cbn [mbind option_bind]. rewrite expect_head. cbn [mbind option_bind].
  rewrite read_digits_pad_all by (change (10 ^ Z.of_nat 2) with 100; lia).
  cbn [mbind option_bind]. rewrite expect_head. cbn [mbind option_bind].
  rewrite read_digits_pad_all
    by (change (10 ^ Z.of_nat 2) with 100; Z.div_mod_to_equations; lia).
  cbn [mbind option_bind]. rewrite expect_head. cbn [mbind option_bind].
  rewrite read_digits_pad_all
    by (change (10 ^ Z.of_nat 2) with 100; Z.div_mod_to_equations; lia).
  cbn [mbind option_bind]. rewrite expect_head. cbn [mbind option_bind].
  rewrite read_digits_pad_all
    by (change (10 ^ Z.of_nat 2) with 100; Z.div_mod_to_equations; lia).
  cbn [mbind option_bind]. rewrite expect_head. cbn [mbind option_bind].
  rewrite read_digits_pad_all
    by (change (10 ^ Z.of_nat 3) with 1000; Z.div_mod_to_equations; lia).
  cbn [mbind option_bind]. rewrite expect_head. cbn [mbind option_bind].
  cbv zeta. unfold msPerDay. rewrite Hrt.
  assert (Hsum : days * 86400000 + ms / 3600000 * 3600000 + ms / 60000 mod 60 * 60000
                 + ms / 1000 mod 60 * 1000 + ms mod 1000 = t).
  { Z.div_mod_to_equations. lia. }
  rewrite Hsum.
  replace (1 <=? m) with true by (symmetry; apply Z.leb_le; lia).
  replace (m <=? 12) with true by (symmetry; apply Z.leb_le; lia).
  replace (1 <=? d) with true by (symmetry; apply Z.leb_le; lia).
  replace (d <=? days_in_month y m) with true by (symmetry; apply Z.leb_le; lia).
  replace (ms / 3600000 <=? 23) with true
    by (symmetry; apply Z.leb_le; Z.div_mod_to_equations; lia).
  replace (ms / 60000 mod 60 <=? 59) with true
    by (symmetry; apply Z.leb_le; Z.div_mod_to_equations; lia).
  replace (ms / 1000 mod 60 <=? 59) with true
    by (symmetry; apply Z.leb_le; Z.div_mod_to_equations; lia).
  replace (Z.abs t <=? 8640000000000000) with true by (symmetry; apply Z.leb_le; lia).
  reflexivity.
Qed.

End DateTimeFormat.

(** ** Properties of the time-range encoding *)

Lemma includes_app_sep (c : ascii) (a b : string) :
  includes c (a ++ String c b) = true.
Proof.
  induction a as [|x a IH]; simpl.
  - now rewrite Ascii.eqb_refl.
  - rewrite IH. apply orb_true_r.
Qed.

Lemma split_nonempty (c : ascii) (s : string) : split c s <> [].
Proof.
  induction s as [|x s IH]; cbn [split]; [discriminate|].
  destruct (Ascii.eqb x c); [discriminate|]. now destruct (split c s).
Qed.

Lemma split_no_sep (c : ascii) (s : string) : includes c s = false -> split c s = [s].
Proof.
  induction s as [|x s IH]; cbn [includes split]; [reflexivity|].
  intros [Hx Hs]%orb_false_elim. rewrite Hx, IH by exact Hs. reflexivity.
Qed.

Lemma split_app_sep (c : ascii) (a b : string) :
  includes c a = false -> split c (a ++ String c b) = a :: split c b.
Proof.
  induction a as [|x a IH]; simpl.
  - now rewrite Ascii.eqb_refl.
  - intros [Hx Ha]%orb_false_elim. rewrite Hx, IH by exact Ha. reflexivity.
Qed.

Lemma includes_truthy (c : ascii) (s : string) : includes c s = true -> truthy_string s = true.
Proof. now destruct s. Qed.

Lemma includes_not_all (s : string) : includes ";" s = true -> s <> "all"%string.
Proof. intros H ->. vm_compute in H. discriminate. Qed.

Section TimeRangeFacts.

Variable Date_new : string -> Date.
Variable toISOString : Z -> string.
Variable daysBeforeNow : nat -> Date.

Lemma filterDataByTimeRange_unknown (data : list PriceRow) (saved : string) :
  includes ";" saved = true ->
  filterDataByTimeRange Date_new daysBeforeNow data (RangeName saved) = data.
Proof.
  intros Hsep. unfold filterDataByTimeRange.
  destruct (String.eqb_spec saved "all") as [->|_]; [reflexivity|].
  destruct (String.eqb_spec saved "1d") as [->|_]; [vm_compute in Hsep; discriminate|].
  destruct (String.eqb_spec saved "7d") as [->|_]; [vm_compute in Hsep; discriminate|].
  destruct (String.eqb_spec saved "14d") as [->|_]; [vm_compute in Hsep; discriminate|].
  reflexivity.
Qed.

Lemma decode_encoded_range (t0 t1 : Z) :
  Date_new (toISOString t0) = DateValue t0 ->
  Date_new (toISOString t1) = DateValue t1 ->
  includes ";" (toISOString t0) = false ->
  includes ";" (toISOString t1) = false ->
  decode_range Date_new (toISOString t0 ++ ";" ++ toISOString t1) =
  RangeObject (DateValue t0) (DateValue t1).
Proof.
  intros H0 H1 Hsep0 Hsep1. unfold decode_range.
  change (";" ++ toISOString t1)%string with (String ";" (toISOString t1)).
  rewrite includes_app_sep, split_app_sep, split_no_sep by assumption.
  cbn [lookup list_lookup Date_of]. now rewrite H0, H1.
Qed.

Lemma decode_invalid_range (saved : string) :
  Date_of Date_new (split ";" saved !! 0) = InvalidDate \/
  Date_of Date_new (split ";" saved !! 1) = InvalidDate ->
  decode_range Date_new saved = RangeName saved.
Proof.
  intros Hinvalid. unfold decode_range. destruct (includes ";" saved); [|reflexivity].
  destruct Hinvalid as [-> | ->]; cbn [isNaN_Date negb andb]; [reflexivity|].
  now rewrite andb_false_r.
Qed.

(** C3 (as the code has it).  Saving a range of two valid dates and
    loading it again gives back the same two instants, to the millisecond,
    both through localStorage and through the URL; this rests on the
    platform reading back what [toISOString] wrote for the two dates, and
    on ISO strings having no [';'].  A stored or URL-encoded pair of which
    a side does not parse as a date never makes the loading fail: the
    loaded time range is then the stored string itself, unchanged, and not
    the preset ['all'] (the display filter lets every row through for such
    a string, as it does for ['all']). *)
Theorem time_range_round_trip (st : State) (localStorage : gmap string string) :
  (forall t0 t1,
     selectedTimeRange st = RangeObject (DateValue t0) (DateValue t1) ->
     Date_new (toISOString t0) = DateValue t0 ->
     Date_new (toISOString t1) = DateValue t1 ->
     includes ";" (toISOString t0) = false ->
     includes ";" (toISOString t1) = false ->
     let encoded := (toISOString t0 ++ ";" ++ toISOString t1)%string in
     (exists localStorage',
        saveSelectedTimeRange toISOString st localStorage = Returns localStorage' /\
        localStorage' !! "selectedTimeRange" = Some encoded /\
        loadSelectedTimeRange Date_new localStorage' =
          RangeObject (DateValue t0) (DateValue t1)) /\
     (exists params urlState,
        updateUrlWithState toISOString st = Returns params /\
        params !! "time" = Some encoded /\
        loadStateFromUrl Date_new params = Some urlState /\
        restored_timeRange urlState = RangeObject (DateValue t0) (DateValue t1))) /\
  (forall saved,
     includes ";" saved = true ->
     Date_of Date_new (split ";" saved !! 0) = InvalidDate \/
     Date_of Date_new (split ";" saved !! 1) = InvalidDate ->
     loadSelectedTimeRange Date_new (<["selectedTimeRange" := saved]> localStorage) =
       RangeName saved /\
     (forall params, params !! "time" = Some saved ->
        exists urlState,
          loadStateFromUrl Date_new params = Some urlState /\
          restored_timeRange urlState = RangeName saved) /\
     RangeName saved <> RangeName "all" /\
     (forall data,
        filterDataByTimeRange Date_new daysBeforeNow data (RangeName saved) = data)).
Proof.
  split.
  - intros t0 t1 Hrange H0 H1 Hsep0 Hsep1 encoded.
    assert (Hsep : includes ";" encoded = true).
    { unfold encoded. change (";" ++ toISOString t1)%string with (String ";" (toISOString t1)).
      apply includes_app_sep. }
    pose proof (includes_truthy _ _ Hsep) as Htruthy.
    pose proof (decode_encoded_range t0 t1 H0 H1 Hsep0 Hsep1) as Hdecode.
    fold encoded in Hdecode. split.
    + exists (<["selectedTimeRange" := encoded]> localStorage).
      unfold saveSelectedTimeRange, loadSelectedTimeRange. rewrite Hrange.
      cbn [encode_range Date_toISOString bind_outcome]. fold encoded.
      rewrite lookup_insert_eq, Htruthy. auto.
    + unfold updateUrlWithState. rewrite Hrange.
      cbn [encode_range Date_toISOString bind_outcome]. fold encoded.
      eexists. eexists. split; [reflexivity|]. split; [apply lookup_insert_eq|].
      unfold loadStateFromUrl. rewrite lookup_insert_eq. cbn [from_option].
      rewrite Htruthy, !andb_false_r. split; [reflexivity|].
      unfold restored_timeRange. cbn [url_timeRange]. now rewrite Hdecode.
  - intros saved Hsep Hinvalid.
    pose proof (includes_truthy _ _ Hsep) as Htruthy.
    pose proof (decode_invalid_range saved Hinvalid) as Hdecode. split_and!.
    + unfold loadSelectedTimeRange. now rewrite lookup_insert_eq, Htruthy.
    + intros params Htime. unfold loadStateFromUrl. rewrite Htime. cbn [from_option].
      rewrite Htruthy, !andb_false_r. eexists. split; [reflexivity|].
      unfold restored_timeRange. cbn [url_timeRange]. now rewrite Hdecode, Htruthy.
    + intros [= ->]. vm_compute in Hsep. discriminate.
    + intros data. now apply filterDataByTimeRange_unknown.
Qed.

End TimeRangeFacts.

(** With the date-time format above, every range of two time values that
    a [Date] can hold survives the encoding. *)
Lemma iso_decode_encoded_range (t0 t1 : Z) :
  (Z.abs t0 <= 8640000000000000)%Z -> (Z.abs t1 <= 8640000000000000)%Z ->
  decode_range iso_Date_new (iso_toISOString t0 ++ ";" ++ iso_toISOString t1) =
  RangeObject (DateValue t0) (DateValue t1).
Proof.
  intros H0 H1. apply decode_encoded_range.
  - unfold iso_Date_new. now rewrite iso_parse_toISOString.
  - unfold iso_Date_new. now rewrite iso_parse_toISOString.
  - apply iso_toISOString_no_sep.
  - apply iso_toISOString_no_sep.
Qed.

Lemma time_range_round_trip_witness :
  (exists localStorage',
     saveSelectedTimeRange iso_toISOString state_zoomed ∅ = Returns localStorage' /\
     localStorage' !! "selectedTimeRange" =
       Some "2024-03-01T12:00:00.000Z;2024-03-02T12:00:00.000Z" /\
     loadSelectedTimeRange iso_Date_new localStorage' =
       RangeObject (DateValue 1709294400000) (DateValue 1709380800000)) /\
  (exists params urlState,
     updateUrlWithState iso_toISOString state_zoomed = Returns params /\
     params !! "time" = Some "2024-03-01T12:00:00.000Z;2024-03-02T12:00:00.000Z" /\
     loadStateFromUrl iso_Date_new params = Some urlState /\
     restored_timeRange urlState =
       RangeObject (DateValue 1709294400000) (DateValue 1709380800000)).
Proof.
  apply (proj1 (time_range_round_trip iso_Date_new iso_toISOString
                  (fun n => DateValue (1709380800000 - Z.of_nat n * msPerDay))
                  state_zoomed ∅)
           1709294400000 1709380800000)%Z; vm_compute; reflexivity.
Defined.

(** The claim as the specification words it fails: a stored pair whose
    second side is no date loads as that very string, not as ['all']. *)
Lemma invalid_pair_is_not_reset_to_all :
  let stored : gmap string string :=
    {[ "selectedTimeRange" := "2024-03-01T12:00:00.000Z;x" ]} in
  iso_Date_new "x" = InvalidDate /\
  loadSelectedTimeRange iso_Date_new stored = RangeName "2024-03-01T12:00:00.000Z;x" /\
  loadSelectedTimeRange iso_Date_new stored <> RangeName "all".
Proof.
  cbv zeta. split; [vm_compute; reflexivity|].
  assert (H : loadSelectedTimeRange iso_Date_new
                {[ "selectedTimeRange" := "2024-03-01T12:00:00.000Z;x" ]} =
              RangeName "2024-03-01T12:00:00.000Z;x") by (vm_compute; reflexivity).
  split; [exact H|]. rewrite H. discriminate.
Qed.

(** ** Properties of [computeAdvice] *)

Lemma SFltb_cotrans a b c :
  SFltb a c = true -> SFnan b = false -> SFltb a b = true \/ SFltb b c = true.
Proof.
  unfold SFltb, SFcompare, SFnan.
  destruct a as [[]|[]| |[] ma ea], b as [[]|[]| |[] mb eb], c as [[]|[]| |[] mc ec];
    simpl; try congruence; auto.
  all: rewrite ?Pos.compare_cont_spec; simpl;
    destruct (Z.compare_spec ea eb), (Z.compare_spec eb ec), (Z.compare_spec ea ec);
    simpl; try congruence; auto; try lia; subst;
    destruct (Pos.compare_spec ma mb), (Pos.compare_spec mb mc), (Pos.compare_spec ma mc);
    simpl; try congruence; auto; try lia.
Qed.

Lemma ltb_cotrans (a b c : float) :
  PrimFloat.ltb a c = true -> is_nan b = false ->
  PrimFloat.ltb a b = true \/ PrimFloat.ltb b c = true.
Proof. rewrite !FloatAxioms.ltb_spec, is_nan_spec. apply SFltb_cotrans. Qed.

Lemma comparator_agrees_check_sound l :
  comparator_agrees_check l = true -> comparator_agrees l.
Proof.
  unfold comparator_agrees_check. rewrite forallb_forall. intros Hall x y Hx Hy.
  apply list_elem_of_In in Hx, Hy. specialize (Hall x Hx). rewrite forallb_forall in Hall.
  specialize (Hall y Hy). apply andb_prop in Hall as [Hnan Heq].
  split; [now apply negb_true_iff|now apply Bool.eqb_prop].
Qed.

Lemma sort_numbers_perm (l : list float) : sort_numbers l ≡ₚ l.
Proof. apply js_sort_perm. Qed.

Lemma length_sort_numbers (l : list float) : length (sort_numbers l) = length l.
Proof. apply length_js_sort. Qed.

(** Where the comparator agrees with [<], the sorted numbers ascend. *)
Lemma sort_numbers_ascending (l : list float) :
  comparator_agrees l ->
  StronglySorted (fun a b => PrimFloat.leb a b = true) (sort_numbers l).
Proof.
  intros Hagree.
  assert (Hsorted : StronglySorted
            (fun a b => PrimFloat.ltb 0 (PrimFloat.sub a b) = false) (sort_numbers l)).
  { apply (js_sort_sorted (fun a b => PrimFloat.ltb 0 (PrimFloat.sub a b))). split.
    - intros x y Hx Hy. rewrite (proj2 (Hagree x y Hx Hy)), (proj2 (Hagree y x Hy Hx)).
      apply ltb_asym.
    - intros x y z Hx Hy Hz.
      rewrite (proj2 (Hagree y x Hy Hx)), (proj2 (Hagree z y Hz Hy)),
              (proj2 (Hagree z x Hz Hx)).
      intros Hxy Hyz. destruct (PrimFloat.ltb x z) eqn:Hxz; [|reflexivity].
      destruct (ltb_cotrans x y z Hxz (proj1 (Hagree y y Hy Hy))); congruence. }
  assert (Hin : forall x, x ∈ sort_numbers l -> x ∈ l).
  { intros x. now rewrite sort_numbers_perm. }
  induction Hsorted as [|a s Hs IH Ha]; [constructor|].
  constructor.
  - apply IH. intros x Hx. apply Hin, elem_of_cons. now right.
  - rewrite Forall_forall in Ha |- *. intros b Hb.
    assert (Hal : a ∈ l) by (apply Hin, elem_of_cons; now left).
    assert (Hbl : b ∈ l) by (apply Hin, elem_of_cons; now right).
    specialize (Ha b Hb). rewrite (proj2 (Hagree a b Hal Hbl)) in Ha.
    apply nlt_leb; [exact (proj1 (Hagree b b Hbl Hbl))|exact (proj1 (Hagree a a Hal Hal))|exact Ha].
Qed.

Section AdviceFacts.

Variable hourOf : string -> outcome js_error (option nat).

Lemma hour_prices_cons hr x values :
  hour_prices hourOf hr (x :: values) =
  match hourOf (date x) with
  | Returns (Some hr') =>
      if hr' =? hr then v x :: hour_prices hourOf hr values
      else hour_prices hourOf hr values
  | _ => hour_prices hourOf hr values
  end.
Proof.
  unfold hour_prices. cbn [omap list_omap].
  destruct (hourOf (date x)) as [[hr'|]|]; [destruct (hr' =? hr)|..]; reflexivity.
Qed.

Lemma perHour_fill_buckets values : forall perHour,
  hours_readable hourOf values (length perHour) ->
  perHour_fill hourOf perHour values =
  Returns (imap (fun hr => filled (hour_prices hourOf hr values)) perHour).
Proof.
  induction values as [|x values IH]; intros perHour Hread.
  - cbn [perHour_fill]. f_equal. apply list_eq. intros i.
    rewrite list_lookup_imap. now destruct (perHour !! i).
  - cbn [perHour_fill].
    destruct (Hread x ltac:(apply elem_of_cons; now left)) as (hr & Hhr & Hlt).
    rewrite Hhr, (proj2 (Nat.ltb_lt _ _) Hlt).
    rewrite IH.
    2:{ rewrite length_alter. intros y Hy. apply Hread, elem_of_cons. now right. }
    f_equal. apply list_eq. intros i. rewrite !list_lookup_imap, hour_prices_cons, Hhr.
    destruct (decide (hr = i)) as [->|Hne].
    + rewrite list_lookup_alter_eq, Nat.eqb_refl.
      now destruct (perHour !! i).
    + rewrite list_lookup_alter_ne by exact Hne.
      rewrite (proj2 (Nat.eqb_neq _ _) Hne). reflexivity.
Qed.

Lemma perHour_fill_unreadable x values perHour :
  hourOf (date x) = Returns None ->
  perHour_fill hourOf perHour (x :: values) = Throws TypeError.
Proof. intros H. cbn [perHour_fill]. now rewrite H. Qed.

End AdviceFacts.

(** The search for the best hour over the averages [avgs], hour by hour:
    it stays at [{h: 0, avg: Infinity}] when no average is below
    [Infinity], and otherwise ends at an hour that no other undercuts. *)
Lemma bestHour_scan (avgs : list float) :
  let best := foldl bestHour_step {| h := 0; hour_avg := infinity |}
                (imap (fun i a => {| h := i; hour_avg := a |}) avgs) in
  (best = {| h := 0; hour_avg := infinity |} /\
   forall j q, avgs !! j = Some q -> PrimFloat.ltb q infinity = false) \/
  (exists i a,
     avgs !! i = Some a /\ best = {| h := i; hour_avg := a |} /\
     PrimFloat.ltb a infinity = true /\
     forall j q, avgs !! j = Some q -> PrimFloat.ltb q a = false).
Proof.
  induction avgs as [|x avgs IH] using rev_ind; cbv zeta in *.
  - left. split; [reflexivity|]. intros j q [=].
  - rewrite imap_app, foldl_app. cbn [imap foldl]. rewrite Nat.add_0_r.
    set (best := foldl _ _ _) in *.
    assert (Hsplit : forall j q, (avgs ++ [x]) !! j = Some q -> avgs !! j = Some q \/ q = x).
    { intros j q Hj. apply lookup_app_Some in Hj as [Hj|[_ Hj]]; [now left|].
      apply list_lookup_singleton_Some in Hj as [_ ->]. now right. }
    destruct IH as [[Hb Hnone]|(i & a & Hi & Hb & Hfin & Hmin)]; rewrite Hb;
      unfold bestHour_step; cbn [hour_avg].
    + destruct (PrimFloat.ltb x infinity) eqn:Hx.
      * right. exists (length avgs), x. split_and!; try reflexivity.
        -- now rewrite lookup_app_r, Nat.sub_diag by lia.
        -- exact Hx.
        -- intros j q [Hj| ->]%Hsplit; [|apply ltb_irrefl].
           destruct (PrimFloat.ltb q x) eqn:Hq; [|reflexivity].
           rewrite <- (Hnone j q Hj). symmetry. exact (ltb_trans _ _ _ Hq Hx).
      * left. split; [reflexivity|]. intros j q [Hj| ->]%Hsplit; [now apply (Hnone j)|exact Hx].
    + destruct (PrimFloat.ltb x a) eqn:Hx.
      * right. exists (length avgs), x. split_and!; try reflexivity.
        -- now rewrite lookup_app_r, Nat.sub_diag by lia.
        -- exact (ltb_trans _ _ _ Hx Hfin).
        -- intros j q [Hj| ->]%Hsplit; [|apply ltb_irrefl].
           destruct (PrimFloat.ltb q x) eqn:Hq; [|reflexivity].
           rewrite <- (Hmin j q Hj). symmetry. exact (ltb_trans _ _ _ Hq Hx).
      * right. exists i, a. split_and!; try assumption; try reflexivity.
        -- now apply lookup_app_l_Some.
        -- intros j q [Hj| ->]%Hsplit; [now apply (Hmin j)|exact Hx].
Qed.

Section AdviceTheorems.

Local Open Scope float_scope.

Variable hourOf : string -> outcome js_error (option nat).

Lemma foldl_fmap_float (f : float -> float) (l : list float) : forall acc,
  foldl (fun acc x => acc + f x) acc l = foldl PrimFloat.add acc (f <$> l).
Proof. induction l as [|x l IH]; intros acc; cbn; [reflexivity|apply IH]. Qed.

Lemma advice_of_bestWindow values last curHour :
  best_window hourOf values
    (bestWindow (advice_of values last
       (imap (fun hr => filled (hour_prices hourOf hr values))
             (replicate 24 {| sum := 0; count := 0 |})) curHour)).
Proof.
  unfold advice_of. cbn [bestWindow].
  set (perHour := imap _ (replicate 24 _)).
  set (avg_of := fun x : Stat =>
         if (0 <? count x)%nat then sum x / float_of_nat (count x) else infinity).
  assert (Himap : imap (fun hr x => {| h := hr; hour_avg := avg_of x |}) perHour =
                  imap (fun i a => {| h := i; hour_avg := a |}) (avg_of <$> perHour)).
  { now rewrite imap_fmap. }
  assert (Havg : forall j q, (avg_of <$> perHour) !! j = Some q ->
            (j < 24)%nat /\ q = default infinity (hour_mean hourOf j values)).
  { intros j q. unfold perHour. rewrite list_lookup_fmap, list_lookup_imap.
    destruct (decide (j < 24)%nat) as [Hlt|Hge].
    - rewrite lookup_replicate_2 by exact Hlt. cbn. intros [= <-]. split; [exact Hlt|].
      unfold avg_of, hour_mean. rewrite filled_sum_count. cbn [sum count Nat.add].
      now destruct (hour_prices hourOf j values).
    - rewrite (proj1 (lookup_replicate_None _ _ _)) by lia. discriminate. }
  assert (Hmean : forall hr m, (hr < 24)%nat -> hour_mean hourOf hr values = Some m ->
            (avg_of <$> perHour) !! hr = Some m).
  { intros hr m Hlt Hm. destruct ((avg_of <$> perHour) !! hr) as [q|] eqn:Hq.
    - destruct (Havg hr q Hq) as [_ ->]. now rewrite Hm.
    - apply lookup_ge_None in Hq. unfold perHour in Hq.
      rewrite length_fmap, length_imap, length_replicate in Hq. lia. }
  change (fun (hr : nat) (x : Stat) =>
            {| h := hr;
               hour_avg := if (0 <? count x)%nat then sum x / float_of_nat (count x) else infinity |})
    with (fun hr x => {| h := hr; hour_avg := avg_of x |}).
  rewrite Himap.
  destruct (bestHour_scan (avg_of <$> perHour))
    as [[-> Hnone]|(i & a & Hi & -> & Hfin & Hmin)]; cbn [h hour_avg];
    (split; [reflexivity|]); cbn [startHour avg]; split.
  - intros hr m Hlt Hm. exact (Hnone hr m (Hmean hr m Hlt Hm)).
  - now left.
  - intros hr m Hlt Hm. exact (Hmin hr m (Hmean hr m Hlt Hm)).
  - right. destruct (Havg i a Hi) as [Hlt Ha]. split; [exact Hlt|].
    destruct (hour_mean hourOf i values) as [m|]; cbn in Ha; [now subst|].
    subst a. rewrite ltb_irrefl in Hfin. discriminate.
Qed.

Lemma advice_values_prices rows fuelKey (prices : list float) :
  (fun r => app_row_get r fuelKey) <$> rows = Some <$> prices ->
  v <$> advice_values rows fuelKey = prices.
Proof.
  revert prices. induction rows as [|r rows IH]; intros [|p prices]; cbn; try discriminate.
  - reflexivity.
  - intros [= Hr Hrows]. unfold advice_values. cbn [omap list_omap]. rewrite Hr. cbn.
    f_equal. now apply IH.
Qed.

(** What [computeAdvice] returns on three or more values with readable
    hours. *)
Lemma computeAdvice_returns curHour rows fuelKey :
  let values := advice_values rows fuelKey in
  (3 <= length values)%nat -> hours_readable hourOf values 24 ->
  exists lastv,
    last values = Some lastv /\
    computeAdvice hourOf curHour rows fuelKey =
    Returns (Some (advice_of values lastv
      (imap (fun hr => filled (hour_prices hourOf hr values))
            (replicate 24 {| sum := 0; count := 0 |})) curHour)).
Proof.
  intros values Hlen Hread. unfold computeAdvice. fold values.
  destruct (Nat.ltb_spec (length values) 3) as [?|_]; [lia|].
  destruct (last values) as [lastv|] eqn:Hlast.
  - exists lastv. split; [reflexivity|].
    rewrite perHour_fill_buckets by (rewrite length_replicate; exact Hread). reflexivity.
  - apply last_None in Hlast. rewrite Hlast in Hlen. cbn in Hlen. lia.
Qed.

Lemma advice_of_median values lastv perHour curHour :
  (0 < length values)%nat ->
  sort_numbers (v <$> values) !! (length values / 2)%nat =
  Some (median (advice_of values lastv perHour curHour)).
Proof.
  intros Hlen. unfold advice_of. cbn [median].
  rewrite length_sort_numbers, length_fmap.
  destruct (sort_numbers (v <$> values) !! (length values / 2)%nat) as [m|] eqn:Hm;
    [reflexivity|].
  apply lookup_ge_None in Hm. rewrite length_sort_numbers, length_fmap in Hm.
  pose proof (Nat.div_lt (length values) 2 Hlen ltac:(lia)). lia.
Qed.

(** The advice with an hour reader that gives an hour of the day for
    every point.  [computeAdvice] returns [null] on fewer than three
    non-null points.  On three or more it returns an advice whose current
    price is the last non-null value, whose median is the
    element at index [floor(n/2)] of the sorted values, whose mean and
    population standard deviation are those of all the values, whose best
    window carries the lowest hourly average, and whose decision is [buy]
    if the current price is at most that average plus 0.02, else [wait] if
    it is at least the median plus [max(0.03, 1.5 * std)], else [neutral].
    For the series 1.80, 1.82, 1.79, 1.85, 1.78 the result is not [null]
    and its median is 1.80. *)
Theorem computeAdvice_decision (curHour : option nat) (rows : list AppPriceRow)
    (fuelKey : FuelKey) :
  let values := advice_values rows fuelKey in
  ((length values < 3)%nat -> computeAdvice hourOf curHour rows fuelKey = Returns None) /\
  ((3 <= length values)%nat -> hours_readable hourOf values 24 ->
   exists a lastv,
     computeAdvice hourOf curHour rows fuelKey = Returns (Some a) /\
     last values = Some lastv /\ last_value a = lastv /\
     let sorted := sort_numbers (v <$> values) in
     sorted ≡ₚ v <$> values /\
     sorted !! (length values / 2)%nat = Some (median a) /\
     mean a = foldl PrimFloat.add 0 sorted / float_of_nat (length values) /\
     std a = population_std sorted (mean a) /\
     best_window hourOf values (bestWindow a) /\
     decision a = decide_advice (v lastv) (avg (bestWindow a)) (median a) (std a)) /\
  ((fun r => app_row_get r fuelKey) <$> rows = Some <$> [1.80; 1.82; 1.79; 1.85; 1.78] ->
   hours_readable hourOf values 24 ->
   exists a, computeAdvice hourOf curHour rows fuelKey = Returns (Some a) /\
             median a = 1.80).
Proof.
  intros values. split_and!.
  - intros Hlen. unfold computeAdvice. fold values.
    now rewrite (proj2 (Nat.ltb_lt _ _) Hlen).
  - intros Hlen Hread.
    destruct (computeAdvice_returns curHour rows fuelKey Hlen Hread) as (lastv & Hlast & Hrun).
    fold values in Hlast, Hrun. eexists. exists lastv.
    split; [exact Hrun|]. split; [exact Hlast|]. split; [reflexivity|]. cbv zeta.
    split; [apply sort_numbers_perm|]. split; [apply advice_of_median; lia|].
    split_and!.
    + unfold advice_of. cbn [mean]. now rewrite length_sort_numbers, length_fmap.
    + unfold advice_of, population_std. cbn [std mean].
      now rewrite foldl_fmap_float.
    + apply advice_of_bestWindow.
    + reflexivity.
  - intros Hprices Hread. apply advice_values_prices in Hprices. fold values in Hprices.
    assert (Hlen : (3 <= length values)%nat).
    { rewrite <- (length_fmap v), Hprices. cbn. lia. }
    destruct (computeAdvice_returns curHour rows fuelKey Hlen Hread) as (lastv & Hlast & Hrun).
    fold values in Hlast, Hrun. eexists. split; [exact Hrun|].
    pose proof (advice_of_median values lastv
      (imap (fun hr => filled (hour_prices hourOf hr values))
            (replicate 24 {| sum := 0; count := 0 |})) curHour ltac:(lia)) as Hmedian.
    assert (Hfive : length values = 5%nat).
    { now rewrite <- (length_fmap v), Hprices. }
    assert (Hsorted : sort_numbers [1.80; 1.82; 1.79; 1.85; 1.78] !! (5 / 2)%nat = Some 1.80).
    { vm_compute. reflexivity. }
    rewrite Hprices, Hfive, Hsorted in Hmedian. injection Hmedian as Hm.
    symmetry. exact Hm.
Qed.

(** C10. The median of the advice is the element at index [floor(n/2)]
    of the values sorted by [(a, b) => a - b] (ascending wherever that
    comparator agrees with [<]): for an even [n = 2k] the sorted values
    are [k - 1] values, then the two middle ones, then [k - 1] values, and
    the median is the upper of the two middle ones, one of the values and
    not their mean; for an odd [n = 2k + 1] it is the middle one, with [k]
    values on either side. *)
Theorem computeAdvice_median_index (curHour : option nat) (rows : list AppPriceRow)
    (fuelKey : FuelKey) :
  let values := advice_values rows fuelKey in
  let n := length values in
  (3 <= n)%nat -> hours_readable hourOf values 24 ->
  exists a,
    computeAdvice hourOf curHour rows fuelKey = Returns (Some a) /\
    let sorted := sort_numbers (v <$> values) in
    sorted ≡ₚ v <$> values /\
    (comparator_agrees (v <$> values) ->
     StronglySorted (fun x y => (x <=? y) = true) sorted) /\
    sorted !! (n / 2)%nat = Some (median a) /\
    (forall k, n = (2 * k)%nat ->
       exists front lower back,
         sorted = front ++ [lower; median a] ++ back /\
         length front = (k - 1)%nat /\ length back = (k - 1)%nat) /\
    (forall k, n = (2 * k + 1)%nat ->
       exists front back,
         sorted = front ++ [median a] ++ back /\
         length front = k /\ length back = k).
Proof.
  intros values n Hlen Hread.
  destruct (computeAdvice_returns curHour rows fuelKey Hlen Hread) as (lastv & Hlast & Hrun).
  fold values in Hlast, Hrun. eexists. split; [exact Hrun|]. cbv zeta.
  set (a := advice_of _ _ _ _). set (sorted := sort_numbers (v <$> values)).
  assert (Hsize : length sorted = n).
  { unfold sorted. now rewrite length_sort_numbers, length_fmap. }
  assert (Hmedian : sorted !! (n / 2)%nat = Some (median a)).
  { apply advice_of_median. unfold n in Hlen. lia. }
  split; [apply sort_numbers_perm|]. split; [apply sort_numbers_ascending|].
  split; [exact Hmedian|]. split.
  - intros k Hk. assert (Hdiv : (n / 2)%nat = k).
    { rewrite Hk, Nat.mul_comm. apply Nat.div_mul. lia. }
    rewrite Hdiv in Hmedian.
    destruct (sorted !! (k - 1)%nat) as [lower|] eqn:Hlower.
    2:{ apply lookup_ge_None in Hlower. lia. }
    exists (take (k - 1) sorted), lower, (drop (S k) sorted). split_and!.
    + rewrite <- (take_drop_middle sorted (k - 1) lower Hlower) at 1.
      replace (S (k - 1)) with k by lia.
      rewrite <- (take_drop_middle sorted k (median a) Hmedian) at 2.
      rewrite drop_app_length'; [reflexivity|]. rewrite length_take. lia.
    + rewrite length_take. lia.
    + rewrite length_drop. lia.
  - intros k Hk. assert (Hdiv : (n / 2)%nat = k).
    { rewrite Hk. symmetry. apply (Nat.div_unique _ _ k 1); lia. }
    rewrite Hdiv in Hmedian.
    exists (take k sorted), (drop (S k) sorted). split_and!.
    + symmetry. exact (take_drop_middle sorted k (median a) Hmedian).
    + rewrite length_take. lia.
    + rewrite length_drop. lia.
Qed.

(** A value whose hour cannot be read makes [computeAdvice] throw. *)
Lemma computeAdvice_unreadable_hour curHour rows fuelKey x rest :
  advice_values rows fuelKey = x :: rest -> (2 <= length rest)%nat ->
  hourOf (date x) = Returns None ->
  computeAdvice hourOf curHour rows fuelKey = Throws TypeError.
Proof.
  intros Hvalues Hlen Hhour. unfold computeAdvice. rewrite Hvalues.
  destruct (Nat.ltb_spec (length (x :: rest)) 3) as [Hlt|_]; [cbn in Hlt; lia|].
  destruct (last (x :: rest)) as [lastv|] eqn:Hlast.
  - now rewrite perHour_fill_unreadable.
  - now apply last_None in Hlast.
Qed.

End AdviceTheorems.

Lemma noon_readable (values : list Value) : hours_readable noon values 24.
Proof. intros x _. exists 12. split; [reflexivity|lia]. Qed.

Example computeAdvice_five_days :
  exists a,
    computeAdvice noon (Some 9) five_days Diesel = Returns (Some a) /\
    v (last_value a) = 1.78%float /\
    median a = 1.80%float /\
    bestWindow a =
      {| startHour := 12; endHour := 14;
         avg := ((1.80 + 1.82 + 1.79 + 1.85 + 1.78) / 5)%float |} /\
    decision a = buy /\
    nextBest a = {| daysOffset := 0; atHour := 12 |}.
Proof. eexists. split; [vm_compute; reflexivity|]. vm_compute. repeat split. Qed.

Example computeAdvice_too_few :
  computeAdvice noon (Some 9) (take 2 five_days) Diesel = Returns None /\
  computeAdvice noon (Some 9) five_days E10 = Returns None.
Proof. vm_compute. split; reflexivity. Qed.

Lemma computeAdvice_decision_witness :
  exists a, computeAdvice noon (Some 9) five_days Diesel = Returns (Some a) /\
            median a = 1.80%float.
Proof.
  apply (proj2 (proj2 (computeAdvice_decision noon (Some 9) five_days Diesel))).
  - vm_compute. reflexivity.
  - apply noon_readable.
Defined.

Example median_of_four_is_upper_middle :
  exists a,
    computeAdvice noon (Some 9) four_days Diesel = Returns (Some a) /\
    median a = 3%float /\
    median a <> ((2 + 3) / 2)%float.
Proof.
  eexists. split; [vm_compute; reflexivity|]. vm_compute. split; [reflexivity|].
  intros H. apply (f_equal (fun x => PrimFloat.eqb x 3)) in H. vm_compute in H. discriminate.
Qed.

Lemma computeAdvice_median_index_witness :
  exists a,
    computeAdvice noon (Some 9) four_days Diesel = Returns (Some a) /\
    let values := advice_values four_days Diesel in
    let sorted := sort_numbers (v <$> values) in
    sorted ≡ₚ v <$> values /\
    (comparator_agrees (v <$> values) ->
     StronglySorted (fun x y => PrimFloat.leb x y = true) sorted) /\
    sorted !! (length values / 2) = Some (median a) /\
    (forall k, length values = 2 * k ->
       exists front lower back,
         sorted = front ++ [lower; median a] ++ back /\
         length front = k - 1 /\ length back = k - 1) /\
    (forall k, length values = 2 * k + 1 ->
       exists front back,
         sorted = front ++ [median a] ++ back /\
         length front = k /\ length back = k).
Proof.
  apply (computeAdvice_median_index noon (Some 9) four_days Diesel).
  - vm_compute. lia.
  - apply noon_readable.
Defined.

Example comparator_agrees_four_days :
  comparator_agrees (v <$> advice_values four_days Diesel) /\
  comparator_agrees (v <$> advice_values five_days Diesel).
Proof. split; apply comparator_agrees_check_sound; vm_compute; reflexivity. Qed.

(** ** The advice with the hour text of the locale de-DE *)

Lemma Number_index_de_DE_hour (hr : Z) : Number_index (de_DE_hour hr) = None.
Proof.
  unfold Number_index, de_DE_hour.
  change (pad 2 hr ++ " Uhr")%string with (String (digit (hr / 10)) (String (digit hr) " Uhr")).
  cbn [decimal_number]. rewrite digit_value_digit. cbn [mbind option_bind decimal_number].
  rewrite digit_value_digit. reflexivity.
Qed.

(** C2.  The claim holds for a reader that gives an hour of the day for
    every point, but not for the reader that [computeAdvice] has: the text
    that the locale de-DE makes of an hour ends in the word Uhr and is no
    number, so that the bucket [perHour[h]] is [undefined] for the first
    point.  With three or more prices the function therefore throws and
    never returns an advice; for the series 1.80, 1.82, 1.79, 1.85, 1.78
    it throws a [TypeError] instead of returning the median 1.80. *)
Theorem computeAdvice_de_DE_hour (Date_new : string -> Date) (offset : Z -> Z)
    (curHour : option nat) :
  (forall rows fuelKey,
     3 <= length (advice_values rows fuelKey) ->
     exists e, computeAdvice (de_DE_hourOf Date_new offset) curHour rows fuelKey = Throws e) /\
  (forall rows fuelKey a,
     computeAdvice (de_DE_hourOf Date_new offset) curHour rows fuelKey <> Returns (Some a)) /\
  computeAdvice (de_DE_hourOf iso_Date_new offset) curHour five_noons Diesel =
    Throws TypeError.
Proof.
  assert (Hthrows : forall rows fuelKey,
            3 <= length (advice_values rows fuelKey) ->
            exists e, computeAdvice (de_DE_hourOf Date_new offset) curHour rows fuelKey =
                      Throws e).
  { intros rows fuelKey Hlen. unfold computeAdvice.
    destruct (Nat.ltb_spec (length (advice_values rows fuelKey)) 3) as [?|_]; [lia|].
    destruct (advice_values rows fuelKey) as [|x values] eqn:Hvalues; [cbn in Hlen; lia|].
    destruct (last (x :: values)) as [lastv|] eqn:Hlast.
    2:{ now apply last_None in Hlast. }
    cbn [perHour_fill]. unfold de_DE_hourOf at 1.
    destruct (Date_new (date x)) as [t|]; [|now exists RangeError].
    rewrite Number_index_de_DE_hour. now exists TypeError. }
  split_and!.
  - exact Hthrows.
  - intros rows fuelKey a Hreturns.
    destruct (Nat.lt_ge_cases (length (advice_values rows fuelKey)) 3) as [Hlt|Hge].
    + unfold computeAdvice in Hreturns.
      rewrite (proj2 (Nat.ltb_lt _ _) Hlt) in Hreturns. discriminate.
    + destruct (Hthrows rows fuelKey Hge) as [e He]. rewrite He in Hreturns. discriminate.
  - unfold computeAdvice. cbn [advice_values five_noons omap list_omap app_row_get diesel ts
                               mbind option_bind length Nat.ltb Nat.leb last].
    cbn [perHour_fill date]. unfold de_DE_hourOf at 1.
    replace (iso_Date_new "2024-05-01T10:00:00.000Z") with (DateValue 1714557600000)
      by (vm_compute; reflexivity).
    now rewrite Number_index_de_DE_hour.
Qed.

(** * Further properties *)

(** Properties of the code around the claims: the pagination loop against
    any service, the composition of the selection handlers, the time
    filter, the chart layout, start-up and the event handlers with
    localStorage and the URL, and the refresh of chart and analysis. *)

Section PaginationRuns.

Context {Row : Type}.

Local Opaque PAGE_SIZE.

Lemma page_of_response (fetch : service Row) url ok status rows :
  fetch url = Response ok status rows ->
  page_of fetch url = if ok then default [] rows else [].
Proof.
  intros H. unfold page_of. rewrite H. destruct ok, rows; reflexivity.
Qed.

Lemma fetchLoop_run (fetch : service Row) q ps n : forall fuel allRows offset log,
  n < fuel ->
  (forall i, i < n ->
     PAGE_SIZE <= length (page_of fetch (Request q PAGE_SIZE (offset + i * PAGE_SIZE) ps))) ->
  length (page_of fetch (Request q PAGE_SIZE (offset + n * PAGE_SIZE) ps)) < PAGE_SIZE ->
  fetchLoop fetch q ps fuel allRows offset log =
  Some (log ++ page_requests q ps offset (S n),
        let url := Request q PAGE_SIZE (offset + n * PAGE_SIZE) ps in
        match fetch url with
        | Rejected => Throws (NetworkError url)
        | Response false status _ => Throws (HttpError status url)
        | Response true _ _ =>
            Returns (allRows ++ mjoin (page_of fetch <$> page_requests q ps offset (S n)))
        end).
Proof.
  pose proof PAGE_SIZE_pos as Hpos.
  induction n as [|n IH]; intros fuel allRows offset log Hfuel Hfull Hshort.
  - destruct fuel as [|fuel]; [lia|]. cbn [fetchLoop].
    rewrite page_requests_S. cbn [fmap list_fmap mjoin list_join].
    replace (offset + 0 * PAGE_SIZE) with offset in * by lia.
    unfold page_requests. cbn [seq fmap list_fmap app mjoin list_join].
    destruct (fetch (Request q PAGE_SIZE offset ps)) as [|ok status rows] eqn:Hfetch;
      [reflexivity|].
    rewrite (page_of_response _ _ _ _ _ Hfetch) in *.
    destruct ok; cbn [negb]; [|reflexivity].
    apply Nat.ltb_lt in Hshort as Hshort'. rewrite Hshort'.
    rewrite app_nil_r.
    destruct (0 <? length (default [] rows)) eqn:Hlen; [reflexivity|].
    apply Nat.ltb_ge in Hlen. destruct (default [] rows); [|cbn in Hlen; lia].
    now rewrite app_nil_r.
  - destruct fuel as [|fuel]; [lia|]. cbn [fetchLoop].
    pose proof (Hfull 0 ltac:(lia)) as Hfirst.
    replace (offset + 0 * PAGE_SIZE) with offset in Hfirst by lia.
    destruct (fetch (Request q PAGE_SIZE offset ps)) as [|ok status rows] eqn:Hfetch.
    { unfold page_of in Hfirst. rewrite Hfetch in Hfirst. cbn in Hfirst. lia. }
    rewrite (page_of_response _ _ _ _ _ Hfetch) in Hfirst.
    destruct ok; [|cbn in Hfirst; lia]. cbn [negb].
    assert (Hge : (length (default [] rows) <? PAGE_SIZE) = false) by (apply Nat.ltb_ge; lia).
    rewrite Hge.
    assert (Hgt : (0 <? length (default [] rows)) = true) by (apply Nat.ltb_lt; lia).
    rewrite Hgt.
    rewrite (IH fuel (allRows ++ default [] rows) (offset + PAGE_SIZE)
               (log ++ [Request q PAGE_SIZE offset ps])).
    + rewrite (page_requests_S q ps offset (S n)).
      replace (offset + PAGE_SIZE + n * PAGE_SIZE) with (offset + S n * PAGE_SIZE) by lia.
      rewrite <- app_assoc. cbn [app]. f_equal. f_equal.
      destruct (fetch (Request q PAGE_SIZE (offset + S n * PAGE_SIZE) ps)) as [|[] ? ?];
        try reflexivity.
      f_equal. rewrite fmap_cons. cbn [mjoin list_join].
      rewrite (page_of_response _ _ _ _ _ Hfetch). now rewrite <- app_assoc.
    + lia.
    + intros i Hi. specialize (Hfull (S i) ltac:(lia)).
      now replace (offset + PAGE_SIZE + i * PAGE_SIZE) with (offset + S i * PAGE_SIZE) by lia.
    + now replace (offset + PAGE_SIZE + n * PAGE_SIZE) with (offset + S n * PAGE_SIZE) by lia.
Qed.

Lemma fetchLoop_endless (fetch : service Row) q ps fuel : forall allRows offset log,
  (forall offset, PAGE_SIZE <= length (page_of fetch (Request q PAGE_SIZE offset ps))) ->
  fetchLoop fetch q ps fuel allRows offset log = None.
Proof.
  pose proof PAGE_SIZE_pos as Hpos.
  induction fuel as [|fuel IH]; intros allRows offset log Hfull; [reflexivity|].
  cbn [fetchLoop].
  pose proof (Hfull offset) as Hfirst.
  destruct (fetch (Request q PAGE_SIZE offset ps)) as [|ok status rows] eqn:Hfetch.
  { unfold page_of in Hfirst. rewrite Hfetch in Hfirst. cbn in Hfirst. lia. }
  rewrite (page_of_response _ _ _ _ _ Hfetch) in Hfirst.
  destruct ok; [|cbn in Hfirst; lia]. cbn [negb].
  assert (Hge : (length (default [] rows) <? PAGE_SIZE) = false) by (apply Nat.ltb_ge; lia).
  rewrite Hge. now apply IH.
Qed.

(** X1.  [fetchPaginatedData] against any service: the loop stops at the
    first request that does not bring a full page.  If the requests at
    offsets 0, 1000, ..., (n-1)*1000 each bring at least 1000 rows and the
    request at offset n*1000 brings fewer (a short or empty page, a body
    without [rows], a response that is not ok, or a rejected fetch), then
    exactly these n+1 requests are issued, in this order.  The call throws
    if that last response is not ok or the fetch rejects, and the rows of
    the earlier pages are lost with it; otherwise it returns all pages
    concatenated in request order. *)
Theorem fetchPaginatedData_first_short_page (fetch : service Row) (q : string)
    (ps : list (string * string)) (n fuel : nat) :
  n < fuel ->
  (forall i, i < n ->
     PAGE_SIZE <= length (page_of fetch (Request q PAGE_SIZE (i * PAGE_SIZE) ps))) ->
  length (page_of fetch (Request q PAGE_SIZE (n * PAGE_SIZE) ps)) < PAGE_SIZE ->
  let url := Request q PAGE_SIZE (n * PAGE_SIZE) ps in
  fetchPaginatedData fetch fuel q ps =
  Some (page_requests q ps 0 (S n),
        match fetch url with
        | Rejected => Throws (NetworkError url)
        | Response false status _ => Throws (HttpError status url)
        | Response true _ _ =>
            Returns (mjoin (page_of fetch <$> page_requests q ps 0 (S n)))
        end).
Proof.
  intros Hfuel Hfull Hshort url. unfold fetchPaginatedData.
  now rewrite (fetchLoop_run fetch q ps n fuel [] 0 []) by assumption.
Qed.

(** X2.  Against a service that answers every request of the loop with a
    full page of at least 1000 rows, whatever the offset,
    [fetchPaginatedData] never returns: after any number of iterations the
    loop is still running. *)
Theorem fetchPaginatedData_endless (fetch : service Row) (q : string)
    (ps : list (string * string)) :
  (forall offset, PAGE_SIZE <= length (page_of fetch (Request q PAGE_SIZE offset ps))) ->
  forall fuel, fetchPaginatedData fetch fuel q ps = None.
Proof.
  intros Hfull fuel. unfold fetchPaginatedData. now apply fetchLoop_endless.
Qed.

End PaginationRuns.

Lemma fetchPaginatedData_first_short_page_witness :
  fetchPaginatedData (failing_second_page (seq 0 1500)) 2 "select 1" [] =
  Some (page_requests "select 1" [] 0 2,
        Throws (HttpError 503 (Request "select 1" PAGE_SIZE (1 * PAGE_SIZE) []))).
Proof.
  apply (fetchPaginatedData_first_short_page
           (failing_second_page (seq 0 1500)) "select 1" [] 1 2).
  - lia.
  - intros i Hi. assert (i = 0) as -> by lia. vm_compute. lia.
  - vm_compute. lia.
Defined.

Lemma fetchPaginatedData_endless_witness :
  fetchPaginatedData endless_service 7 "select 1" [] = None.
Proof.
  apply (fetchPaginatedData_endless endless_service "select 1" []).
  intros offset. vm_compute. lia.
Defined.

(** ** Adding and removing, composed *)

Lemma find_snoc_new {A} (p : A -> bool) (l : list A) (x : A) :
  List.find p l = None -> List.find p (l ++ [x]) = if p x then Some x else None.
Proof.
  induction l as [|y l IH]; cbn [List.find app]; [reflexivity|].
  destruct (p y); [discriminate|]. exact IH.
Qed.

Lemma find_filter_implied {A} (p q : A -> bool) (l : list A) :
  (forall x, p x = true -> q x = true) ->
  List.find p (List.filter q l) = List.find p l.
Proof.
  intros Hpq. induction l as [|y l IH]; cbn [List.find List.filter]; [reflexivity|].
  destruct (q y) eqn:Hq; cbn [List.find].
  - destruct (p y); [reflexivity|exact IH].
  - destruct (p y) eqn:Hp; [|exact IH]. apply Hpq in Hp. congruence.
Qed.

Lemma filter_filter_comm {A} (p q : A -> bool) (l : list A) :
  List.filter p (List.filter q l) = List.filter q (List.filter p l).
Proof.
  induction l as [|y l IH]; cbn [List.filter]; [reflexivity|].
  destruct (p y) eqn:Hp, (q y) eqn:Hq; cbn [List.filter]; rewrite ?Hp, ?Hq, IH; reflexivity.
Qed.

Lemma filter_filter_same {A} (p : A -> bool) (l : list A) :
  List.filter p (List.filter p l) = List.filter p l.
Proof.
  induction l as [|y l IH]; cbn [List.filter]; [reflexivity|].
  destruct (p y) eqn:Hp; cbn [List.filter]; rewrite ?Hp, IH; reflexivity.
Qed.

Lemma string_eqb_neq (a b : string) : a <> b -> String.eqb a b = false.
Proof. intros H. now apply String.eqb_neq. Qed.

(** X3.  How the two mutations of the selection compose.  Clicking a
    result twice is the same as clicking it once, and removing an id twice
    the same as removing it once; removals commute; removing a station
    right after adding it undoes the addition (and gives the former state
    back when the station was not selected before); adding one station and
    removing another commute. *)
Theorem selection_mutations_compose (st : State) (s : Station) (a b : string) :
  handleResultClick s (handleResultClick s st) = handleResultClick s st /\
  removeStation a (removeStation a st) = removeStation a st /\
  removeStation a (removeStation b st) = removeStation b (removeStation a st) /\
  removeStation (station_id s) (handleResultClick s st) = removeStation (station_id s) st /\
  (station_id s ∉ selected_ids st ->
   removeStation (station_id s) (handleResultClick s st) = st) /\
  (a <> station_id s ->
   removeStation a (handleResultClick s st) = handleResultClick s (removeStation a st)).
Proof.
  assert (Hadd_remove :
    removeStation (station_id s) (handleResultClick s st) = removeStation (station_id s) st).
  { unfold handleResultClick.
    destruct (List.find _ (selectedStations st)) eqn:Hfind; [reflexivity|].
    unfold removeStation, set_selectedStations. cbn [selectedStations allStations
      selectedFuelTypes selectedTimeRange]. f_equal.
    rewrite List.filter_app. cbn [List.filter]. rewrite String.eqb_refl. cbn [negb].
    apply app_nil_r. }
  split_and!.
  - destruct (List.find (fun s' => String.eqb (station_id s') (station_id s))
                (selectedStations st)) eqn:Hfind.
    + assert (Hst : handleResultClick s st = st)
        by (unfold handleResultClick; now rewrite Hfind).
      now rewrite !Hst.
    + assert (Hst : handleResultClick s st =
                    set_selectedStations (selectedStations st ++ [s]) st)
        by (unfold handleResultClick; now rewrite Hfind).
      rewrite Hst. unfold handleResultClick. cbn [selectedStations set_selectedStations].
      rewrite (find_snoc_new _ _ s Hfind), String.eqb_refl. reflexivity.
  - unfold removeStation, set_selectedStations. cbn [selectedStations allStations
      selectedFuelTypes selectedTimeRange]. f_equal. apply filter_filter_same.
  - unfold removeStation, set_selectedStations. cbn [selectedStations allStations
      selectedFuelTypes selectedTimeRange]. f_equal. apply filter_filter_comm.
  - exact Hadd_remove.
  - intros Hnew. rewrite Hadd_remove. unfold removeStation.
    rewrite filter_other_id_absent by exact Hnew. apply set_selectedStations_id.
  - intros Hne. unfold handleResultClick.
    assert (Hfind : List.find (fun s' => String.eqb (station_id s') (station_id s))
                      (selectedStations (removeStation a st)) =
                    List.find (fun s' => String.eqb (station_id s') (station_id s))
                      (selectedStations st)).
    { unfold removeStation. cbn [selectedStations set_selectedStations].
      apply find_filter_implied. intros x Hx. apply String.eqb_eq in Hx.
      rewrite Hx. rewrite string_eqb_neq by congruence. reflexivity. }
    rewrite Hfind.
    destruct (List.find _ (selectedStations st)); [reflexivity|].
    unfold removeStation, set_selectedStations. cbn [selectedStations allStations
      selectedFuelTypes selectedTimeRange]. f_equal.
    rewrite List.filter_app. cbn [List.filter].
    rewrite string_eqb_neq by congruence. reflexivity.
Qed.

Lemma selection_mutations_compose_witness :
  removeStation "b2" (handleResultClick station_B
    (set_selectedStations [station_A] state_AB)) = set_selectedStations [station_A] state_AB /\
  removeStation "a1" (handleResultClick station_B (set_selectedStations [station_A] state_AB)) =
  handleResultClick station_B (removeStation "a1" (set_selectedStations [station_A] state_AB)).
Proof.
  pose proof (selection_mutations_compose (set_selectedStations [station_A] state_AB)
                station_B "a1" "a1") as (_ & _ & _ & _ & Hundo & Hcomm).
  split.
  - apply Hundo. vm_compute. intros H. repeat (apply elem_of_cons in H as [H|H]; [discriminate|]).
    now apply elem_of_nil in H.
  - apply Hcomm. discriminate.
Defined.

(** ** The time filter *)

Lemma sublist_filter {A} (p : A -> bool) (l : list A) : sublist (List.filter p l) l.
Proof.
  induction l as [|x l IH]; cbn [List.filter]; [constructor|].
  destruct (p x); now constructor.
Qed.

Lemma sublist_filter_implied {A} (p q : A -> bool) (l : list A) :
  (forall x, p x = true -> q x = true) -> sublist (List.filter p l) (List.filter q l).
Proof.
  intros Hpq. induction l as [|x l IH]; cbn [List.filter]; [constructor|].
  destruct (p x) eqn:Hp.
  - rewrite (Hpq x Hp). now constructor.
  - destruct (q x); [now constructor|exact IH].
Qed.

Lemma filter_filter_implied {A} (p q : A -> bool) (l : list A) :
  (forall x, p x = true -> q x = true) ->
  List.filter p (List.filter q l) = List.filter p l.
Proof.
  intros Hpq. induction l as [|x l IH]; cbn [List.filter]; [reflexivity|].
  destruct (q x) eqn:Hq; cbn [List.filter].
  - destruct (p x); now rewrite IH.
  - destruct (p x) eqn:Hp; [|exact IH]. apply Hpq in Hp. congruence.
Qed.

Lemma filter_true {A} (l : list A) : List.filter (fun _ => true) l = l.
Proof. induction l as [|x l IH]; cbn [List.filter]; now rewrite ?IH. Qed.

Lemma elem_of_List_filter {A} (p : A -> bool) (l : list A) (x : A) :
  x ∈ List.filter p l <-> x ∈ l /\ p x = true.
Proof. rewrite !list_elem_of_In. apply List.filter_In. Qed.

Lemma date_leb_spec (a b : Date) :
  date_leb a b = true <-> exists x y, a = DateValue x /\ b = DateValue y /\ (x <= y)%Z.
Proof.
  destruct a as [x|], b as [y|]; cbn [date_leb].
  - rewrite Z.leb_le. split; [intros H; now exists x, y|].
    intros (x' & y' & [= ->] & [= ->] & H). exact H.
  - split; [discriminate|]. intros (? & ? & _ & [=] & _).
  - split; [discriminate|]. intros (? & ? & [=] & _).
  - split; [discriminate|]. intros (? & ? & [=] & _).
Qed.

Section TimeFilterFacts.

Variable Date_new : string -> Date.
Variable daysBeforeNow : nat -> Date.

Local Notation "'F'" := (filterDataByTimeRange Date_new daysBeforeNow).
Local Notation "'keeps'" := (range_keeps Date_new daysBeforeNow).

Lemma filterDataByTimeRange_filter (data : list PriceRow) (range : TimeRange) :
  F data range = List.filter (keeps range) data.
Proof.
  destruct range as [s|startDate endDate]; cbn [filterDataByTimeRange]; [|reflexivity].
  destruct (String.eqb s "all") eqn:Hall.
  - apply String.eqb_eq in Hall as ->. symmetry. apply filter_true.
  - unfold range_keeps.
    destruct (String.eqb s "1d"); [reflexivity|].
    destruct (String.eqb s "7d"); [reflexivity|].
    destruct (String.eqb s "14d"); [reflexivity|].
    symmetry. apply filter_true.
Qed.

(** X4.  [filterDataByTimeRange] only ever drops rows: the result is a
    sub-list of the data in the same order.  Filtering twice by one range
    is filtering once, and two ranges filter in either order with the same
    result.  For a [{start, end}] range a row is kept exactly if its
    timestamp is a valid date in the closed interval between two valid
    bounds, so a row with an unreadable timestamp, and every row when a
    bound is invalid or the bounds are reversed, is dropped.  The presets
    ['1d'], ['7d'], ['14d'] keep only rows with a valid date, and every
    other range name keeps all rows, whatever their timestamps. *)
Theorem filterDataByTimeRange_window (data : list PriceRow) (range range' : TimeRange) :
  sublist (F data range) data /\
  F (F data range) range = F data range /\
  F (F data range) range' = F (F data range') range /\
  (forall start end_ row,
     row ∈ F data (RangeObject start end_) <->
     row ∈ data /\
     exists s t e, start = DateValue s /\ end_ = DateValue e /\
                   Date_new (last_transmission row) = DateValue t /\ (s <= t <= e)%Z) /\
  (forall name row,
     name ∈ ["1d"; "7d"; "14d"] -> row ∈ F data (RangeName name) ->
     exists t, Date_new (last_transmission row) = DateValue t) /\
  (forall name, name ∉ ["1d"; "7d"; "14d"] -> F data (RangeName name) = data).
Proof.
  split_and!.
  - rewrite filterDataByTimeRange_filter. apply sublist_filter.
  - rewrite !filterDataByTimeRange_filter. apply filter_filter_same.
  - rewrite !filterDataByTimeRange_filter. apply filter_filter_comm.
  - intros start end_ row. rewrite filterDataByTimeRange_filter, elem_of_List_filter.
    cbn [range_keeps]. rewrite andb_true_iff, !date_leb_spec. split.
    + intros (Hin & (s & t & -> & Ht & Hst) & (t' & e & Ht' & -> & Hte)).
      split; [exact Hin|]. exists s, t, e. rewrite Ht in Ht'. injection Ht' as <-.
      split_and!; try reflexivity; try assumption; lia.
    + intros (Hin & s & t & e & -> & -> & Ht & Hs & He).
      split; [exact Hin|]. split; [exists s, t|exists t, e]; now rewrite Ht.
  - intros name row Hname. rewrite filterDataByTimeRange_filter, elem_of_List_filter.
    intros [_ Hkeep]. cbn [range_keeps] in Hkeep.
    assert (Hleb : exists d, date_leb d (Date_new (last_transmission row)) = true).
    { repeat (apply elem_of_cons in Hname as [->|Hname]; [cbn in Hkeep; eauto|]).
      now apply elem_of_nil in Hname. }
    destruct Hleb as [d Hleb]. apply date_leb_spec in Hleb as (_ & t & _ & Ht & _).
    now exists t.
  - intros name Hname. cbn [filterDataByTimeRange].
    destruct (String.eqb name "all"); [reflexivity|].
    destruct (String.eqb name "1d") eqn:H1;
      [apply String.eqb_eq in H1 as ->; exfalso; apply Hname; repeat constructor|].
    destruct (String.eqb name "7d") eqn:H7;
      [apply String.eqb_eq in H7 as ->; exfalso; apply Hname; repeat constructor|].
    destruct (String.eqb name "14d") eqn:H14;
      [apply String.eqb_eq in H14 as ->; exfalso; apply Hname; repeat constructor|].
    reflexivity.
Qed.

(** X5.  When the clock is sane (14 days ago is not after 7 days ago,
    which is not after yesterday), the presets nest: what ['1d'] shows is a
    sub-list of what ['7d'] shows, which is a sub-list of what ['14d']
    shows, and narrowing a ['14d'] view to ['1d'] gives the ['1d'] view.
    The presets have no upper bound: a row dated at or after the start,
    even in the future, is kept. *)
Theorem filterDataByTimeRange_presets_nest (data : list PriceRow) (t1 t7 t14 : Z) :
  daysBeforeNow 1 = DateValue t1 ->
  daysBeforeNow 7 = DateValue t7 ->
  daysBeforeNow 14 = DateValue t14 ->
  (t14 <= t7 <= t1)%Z ->
  sublist (F data (RangeName "1d")) (F data (RangeName "7d")) /\
  sublist (F data (RangeName "7d")) (F data (RangeName "14d")) /\
  F (F data (RangeName "14d")) (RangeName "1d") = F data (RangeName "1d") /\
  (forall row t, row ∈ data -> Date_new (last_transmission row) = DateValue t ->
     (t1 <= t)%Z -> row ∈ F data (RangeName "1d")).
Proof.
  intros H1 H7 H14 Hle.
  assert (Himp : forall a b x, (a <= b)%Z ->
            date_leb (DateValue b) x = true -> date_leb (DateValue a) x = true).
  { intros a b [x|] Hab; cbn [date_leb]; [|discriminate]. rewrite !Z.leb_le. lia. }
  assert (K1 : forall row, keeps (RangeName "1d") row =
                          date_leb (DateValue t1) (Date_new (last_transmission row)))
    by (intros row; rewrite <- H1; reflexivity).
  assert (K7 : forall row, keeps (RangeName "7d") row =
                          date_leb (DateValue t7) (Date_new (last_transmission row)))
    by (intros row; rewrite <- H7; reflexivity).
  assert (K14 : forall row, keeps (RangeName "14d") row =
                           date_leb (DateValue t14) (Date_new (last_transmission row)))
    by (intros row; rewrite <- H14; reflexivity).
  rewrite !filterDataByTimeRange_filter. split_and!.
  - apply sublist_filter_implied. intros row. rewrite K1, K7. apply Himp. lia.
  - apply sublist_filter_implied. intros row. rewrite K7, K14. apply Himp. lia.
  - apply filter_filter_implied. intros row. rewrite K1, K14. apply Himp. lia.
  - intros row t Hin Ht Hle'. apply elem_of_List_filter. split; [exact Hin|].
    rewrite K1, Ht. cbn [date_leb]. now apply Z.leb_le.
Qed.

End TimeFilterFacts.

Lemma filterDataByTimeRange_window_witness :
  diesel_row "2024-04-28T12:00:00.000Z" (Some 1.65%float) ∈
    filterDataByTimeRange iso_Date_new example_daysBeforeNow example_history
      (RangeObject (DateValue 1714000000000) (DateValue 1714500000000)).
Proof.
  apply (filterDataByTimeRange_window iso_Date_new example_daysBeforeNow example_history
           (RangeName "all") (RangeName "all")).
  split.
  - do 1 constructor. constructor.
  - exists 1714000000000%Z, 1714305600000%Z, 1714500000000%Z.
    split_and!; [reflexivity|reflexivity|vm_compute; reflexivity|lia|lia].
Defined.

Lemma filterDataByTimeRange_presets_nest_witness :
  sublist (filterDataByTimeRange iso_Date_new example_daysBeforeNow example_history
             (RangeName "1d"))
          (filterDataByTimeRange iso_Date_new example_daysBeforeNow example_history
             (RangeName "7d")) /\
  sublist (filterDataByTimeRange iso_Date_new example_daysBeforeNow example_history
             (RangeName "7d"))
          (filterDataByTimeRange iso_Date_new example_daysBeforeNow example_history
             (RangeName "14d")).
Proof.
  pose proof (filterDataByTimeRange_presets_nest iso_Date_new example_daysBeforeNow
                example_history 1714478400000 1713960000000 1713355200000
                eq_refl eq_refl eq_refl ltac:(lia)) as (H17 & H714 & _).
  split; assumption.
Defined.

Example filterDataByTimeRange_example_history :
  filterDataByTimeRange iso_Date_new example_daysBeforeNow example_history (RangeName "1d") =
    drop 2 example_history /\
  filterDataByTimeRange iso_Date_new example_daysBeforeNow example_history (RangeName "7d") =
    drop 1 example_history /\
  filterDataByTimeRange iso_Date_new example_daysBeforeNow example_history (RangeName "14d") =
    example_history.
Proof. vm_compute. repeat split. Qed.

(** ** The fuel types shown and the chart's datasets *)

Lemma existsb_eqb_elem (key : string) (l : list string) :
  existsb (String.eqb key) l = true <-> key ∈ l.
Proof.
  rewrite List.existsb_exists. split.
  - intros (x & Hin & Heq). apply String.eqb_eq in Heq as ->. now apply list_elem_of_In.
  - intros Hin. exists key. split; [now apply list_elem_of_In|apply String.eqb_refl].
Qed.

Lemma FUEL_TYPE_CONFIG_keys_NoDup : NoDup (fuel_key <$> FUEL_TYPE_CONFIG).
Proof.
  cbn. repeat constructor; rewrite ?elem_of_cons, ?elem_of_nil; intros H;
    repeat destruct H as [H|H]; try discriminate; exact H.
Qed.

(** X6.  The fuel types that the chart and the recommendation work with
    are the entries of [FUEL_TYPE_CONFIG] whose key is selected, always in
    the order of the configuration (Diesel, Super E5, Super E10) and each
    at most once: the order of the selection, repeated keys and keys that
    the configuration does not know make no difference. *)
Theorem activeFuelTypes_config_order (st st' : State) :
  sublist (activeFuelTypes st) FUEL_TYPE_CONFIG /\
  NoDup (fuel_key <$> activeFuelTypes st) /\
  (forall fuel, fuel ∈ activeFuelTypes st <->
                fuel ∈ FUEL_TYPE_CONFIG /\ fuel_key fuel ∈ selectedFuelTypes st) /\
  ((forall fuel, fuel ∈ FUEL_TYPE_CONFIG ->
      (fuel_key fuel ∈ selectedFuelTypes st <-> fuel_key fuel ∈ selectedFuelTypes st')) ->
   activeFuelTypes st = activeFuelTypes st').
Proof.
  split_and!.
  - apply sublist_filter.
  - eapply sublist_NoDup;
      first [apply FUEL_TYPE_CONFIG_keys_NoDup | apply fmap_sublist, sublist_filter].
  - intros fuel. unfold activeFuelTypes. rewrite elem_of_List_filter.
    now rewrite existsb_eqb_elem.
  - intros Hsame. unfold activeFuelTypes. apply List.filter_ext_in.
    intros fuel Hin. apply list_elem_of_In in Hin. specialize (Hsame fuel Hin).
    destruct (existsb (String.eqb (fuel_key fuel)) (selectedFuelTypes st)) eqn:H1,
             (existsb (String.eqb (fuel_key fuel)) (selectedFuelTypes st')) eqn:H2;
      try reflexivity.
    + apply existsb_eqb_elem, Hsame, existsb_eqb_elem in H1. congruence.
    + apply existsb_eqb_elem, Hsame, existsb_eqb_elem in H2. congruence.
Qed.

Lemma activeFuelTypes_config_order_witness :
  activeFuelTypes (set_selectedStations [] state_AB) = activeFuelTypes state_AB.
Proof.
  apply (activeFuelTypes_config_order (set_selectedStations [] state_AB) state_AB).
  intros fuel _. reflexivity.
Defined.

Lemma length_join_imap {A B} (k : nat) (l : list A) : forall (f : nat -> A -> list B),
  (forall i x, length (f i x) = k) -> length (mjoin (imap f l)) = length l * k.
Proof.
  induction l as [|x l IH]; intros f Hf; [reflexivity|].
  rewrite imap_cons. cbn [mjoin list_join length]. rewrite length_app, Hf.
  change (S (length l) * k) with (k + length l * k). f_equal.
  apply IH. intros i y. apply Hf.
Qed.

Lemma join_imap_lookup {A B} (k : nat) (l : list A) : forall (f : nat -> A -> list B) i j x,
  (forall i x, length (f i x) = k) ->
  l !! i = Some x -> j < k -> mjoin (imap f l) !! (i * k + j) = f i x !! j.
Proof.
  induction l as [|y l IH]; intros f i j x Hf Hi Hj; [discriminate|].
  rewrite imap_cons. cbn [mjoin list_join]. fold (mjoin (imap (f ∘ S) l)).
  destruct i as [|i].
  - injection Hi as ->. cbn [Nat.mul Nat.add]. apply lookup_app_l. now rewrite Hf.
  - cbn [lookup list_lookup] in Hi. rewrite lookup_app_r by (rewrite Hf; lia).
    rewrite Hf. replace (S i * k + j - k) with (i * k + j) by lia.
    apply (IH (f ∘ S) i j x); [intros i' z; apply Hf|exact Hi|exact Hj].
Qed.

(** X7.  The datasets of the chart are laid out station by station: with
    [k] active fuel types there are [k] datasets per station, the dataset
    of station number [i] and active fuel number [j] is at position
    [i * k + j], and all datasets of a station carry the station's colour,
    which is entry [i mod 6] of the palette, so the seventh station repeats
    the colour of the first.  The line style follows the fuel: solid for
    Diesel, dashes [5, 5] for Super E5 and [1, 5] for Super E10. *)
Theorem renderMultiStationChart_layout (st : State) (sda : list StationData) :
  let labels := (renderMultiStationChart st sda).1 in
  let datasets := (renderMultiStationChart st sda).2 in
  let k := length (activeFuelTypes st) in
  length datasets = length sda * k /\
  (forall i j sd fuel,
     sda !! i = Some sd -> activeFuelTypes st !! j = Some fuel ->
     datasets !! (i * k + j) = Some (dataset_of labels i sd fuel)) /\
  (forall i sd fuel,
     CHART_COLORS !! (i mod 6) = Some (borderColor (dataset_of labels i sd fuel)) /\
     borderColor (dataset_of labels (i + 6) sd fuel) =
     borderColor (dataset_of labels i sd fuel)) /\
  (forall i sd fuel,
     fuel ∈ FUEL_TYPE_CONFIG ->
     label (dataset_of labels i sd fuel) =
       (station_name (station sd) ++ " - " ++ fuel_name fuel)%string /\
     borderDash (dataset_of labels i sd fuel) =
       if String.eqb (fuel_key fuel) "price_diesel" then []
       else if String.eqb (fuel_key fuel) "price_super" then [5; 5]
       else [1; 5]).
Proof.
  intros labels datasets k. split_and!.
  - unfold datasets, renderMultiStationChart. cbn [snd].
    apply length_join_imap. intros i x. now rewrite length_fmap.
  - intros i j sd fuel Hi Hj. unfold datasets, renderMultiStationChart. cbn [snd].
    rewrite (join_imap_lookup k sda _ i j sd); [| |exact Hi|].
    + rewrite list_lookup_fmap, Hj. reflexivity.
    + intros i' x. now rewrite length_fmap.
    + apply lookup_lt_Some in Hj. exact Hj.
  - intros i sd fuel. cbn [dataset_of borderColor].
    change (length CHART_COLORS) with 6.
    replace ((i + 6) mod 6) with (i mod 6)
      by (rewrite <- (Nat.Div0.add_mod_idemp_r i 6 6); cbn; now rewrite Nat.add_0_r).
    split; [|reflexivity].
    pose proof (Nat.mod_upper_bound i 6 ltac:(lia)) as Hlt.
    destruct (CHART_COLORS !! (i mod 6)) as [c|] eqn:Hc; [reflexivity|].
    apply lookup_ge_None in Hc. cbn in Hc. lia.
  - intros i sd fuel Hfuel. split; [reflexivity|].
    repeat (apply elem_of_cons in Hfuel as [->|Hfuel]; [reflexivity|]).
    now apply elem_of_nil in Hfuel.
Qed.

Lemma renderMultiStationChart_layout_witness :
  (renderMultiStationChart state_AB [station_X; station_Y]).2 !! (1 * 1 + 0) =
  Some (dataset_of (renderMultiStationChart state_AB [station_X; station_Y]).1 1 station_Y
          {| fuel_key := "price_diesel"; fuel_name := "Diesel"; fuel_style := "solid" |}).
Proof.
  apply (renderMultiStationChart_layout state_AB [station_X; station_Y]); reflexivity.
Defined.

(** ** The state in the URL and in localStorage *)

Lemma join_cons2 (sep x y : string) (l : list string) :
  join sep (x :: y :: l) = (x ++ sep ++ join sep (y :: l))%string.
Proof. reflexivity. Qed.

Lemma split_join (c : ascii) (l : list string) :
  l <> [] -> Forall (fun s => includes c s = false) l ->
  split c (join (String c "") l) = l.
Proof.
  induction l as [|x [|y l] IH]; intros Hne Hall; [done| |].
  - apply Forall_cons in Hall as [Hx _]. cbn [join String.concat]. now apply split_no_sep.
  - apply Forall_cons in Hall as [Hx Hall]. rewrite join_cons2.
    rewrite append_cons, append_empty. rewrite split_app_sep by exact Hx.
    f_equal. now apply IH.
Qed.

Lemma append_nil_inv (a b : string) : (a ++ b)%string = ""%string -> a = ""%string.
Proof. destruct a; [reflexivity|]. rewrite append_cons. discriminate. Qed.

Lemma join_empty (c : ascii) (l : list string) :
  join (String c "") l = ""%string -> l = [] \/ l = [""%string].
Proof.
  destruct l as [|x [|y l]]; [now left| |].
  - cbn [join String.concat]. intros ->. now right.
  - rewrite join_cons2. intros H.
    destruct x; [rewrite append_empty, append_cons in H|rewrite append_cons in H];
      discriminate.
Qed.

Lemma truthy_string_spec (s : string) : truthy_string s = true <-> s <> ""%string.
Proof.
  unfold truthy_string. rewrite negb_true_iff. apply String.eqb_neq.
Qed.

Lemma split_joined (l : list string) :
  separable "," l ->
  (if truthy_string (join "," l) then split "," (join "," l) else []) = l.
Proof.
  intros [Hall Hne]. destruct (truthy_string (join "," l)) eqn:Htruthy.
  - apply split_join; [|exact Hall]. intros ->. discriminate.
  - destruct l as [|x l]; [reflexivity|].
    assert (Hempty : join "," (x :: l) = ""%string).
    { unfold truthy_string in Htruthy. apply negb_false_iff in Htruthy.
      now apply String.eqb_eq. }
    apply join_empty in Hempty as [?|?]; congruence.
Qed.

Lemma find_station_known (allStations : list Station) (s : Station) :
  NoDup (station_id <$> allStations) -> s ∈ allStations ->
  find_station allStations (station_id s) = Some s.
Proof.
  unfold find_station. induction allStations as [|x l IH]; intros Hnd Hin.
  - now apply elem_of_nil in Hin.
  - cbn [List.find]. rewrite fmap_cons in Hnd. apply NoDup_cons in Hnd as [Hx Hnd].
    apply elem_of_cons in Hin as [->|Hin].
    + now rewrite String.eqb_refl.
    + destruct (String.eqb (station_id x) (station_id s)) eqn:Heq.
      * apply String.eqb_eq in Heq. exfalso. apply Hx. rewrite Heq.
        now apply list_elem_of_fmap_2.
      * now apply IH.
Qed.

Lemma find_station_Some (allStations : list Station) (id : string) (s : Station) :
  find_station allStations id = Some s -> s ∈ allStations /\ station_id s = id.
Proof.
  unfold find_station. intros H. apply List.find_some in H as [Hin Heq].
  split; [now apply list_elem_of_In|now apply String.eqb_eq].
Qed.

Lemma find_station_absent (allStations : list Station) (id : string) :
  find_station allStations id = None <-> id ∉ station_id <$> allStations.
Proof.
  unfold find_station. induction allStations as [|x l IH]; cbn [List.find].
  - split; [intros _ H; now apply elem_of_nil in H|reflexivity].
  - rewrite fmap_cons, not_elem_of_cons.
    destruct (String.eqb (station_id x) id) eqn:Heq.
    + apply String.eqb_eq in Heq. split; [discriminate|]. intros [H _]. congruence.
    + apply String.eqb_neq in Heq. rewrite IH. split; [intros H; split; congruence|tauto].
Qed.

Lemma stations_of_ids_known (st : State) :
  selection_known st ->
  stations_of_ids (allStations st) (selected_ids st) = selectedStations st.
Proof.
  intros [Hnd Hsub]. unfold stations_of_ids, selected_ids.
  induction (selectedStations st) as [|s l IH]; [reflexivity|].
  rewrite fmap_cons. cbn [omap list_omap].
  rewrite find_station_known; [|exact Hnd|apply Hsub; constructor].
  f_equal. apply IH. intros s' Hs'. apply Hsub. now constructor.
Qed.

(** The ids of the stations that [ids] names, in the order of [ids]. *)
Lemma stations_of_ids_ids (allStations : list Station) (ids : list string) :
  station_id <$> stations_of_ids allStations ids =
  List.filter (fun id => bool_decide (id ∈ station_id <$> allStations)) ids.
Proof.
  unfold stations_of_ids. induction ids as [|id ids IH]; [reflexivity|].
  cbn [omap list_omap List.filter].
  destruct (find_station allStations id) as [s|] eqn:Hfind.
  - apply find_station_Some in Hfind as [Hin <-].
    rewrite bool_decide_eq_true_2 by now apply list_elem_of_fmap_2.
    rewrite fmap_cons. now f_equal.
  - apply find_station_absent in Hfind. now rewrite bool_decide_eq_false_2.
Qed.

Lemma stations_of_ids_elem (allStations : list Station) (ids : list string) (s : Station) :
  s ∈ stations_of_ids allStations ids ->
  s ∈ allStations /\ station_id s ∈ ids.
Proof.
  unfold stations_of_ids. intros H. apply list_elem_of_omap in H as (id & Hid & Hfind).
  apply find_station_Some in Hfind as [Hin <-]. now split.
Qed.

Section UrlFacts.

Variable Date_new : string -> Date.
Variable toISOString : Z -> string.

(** What [updateUrlWithState] writes. *)
Lemma updateUrlWithState_params (st : State) (params : gmap string string) :
  updateUrlWithState toISOString st = Returns params ->
  params !! "stations" =
    (if 0 <? length (selectedStations st) then Some (join "," (selected_ids st)) else None) /\
  params !! "fuels" = Some (join "," (selectedFuelTypes st)) /\
  exists time,
    params !! "time" = Some time /\
    match selectedTimeRange st with
    | RangeName s => time = s
    | RangeObject start end_ => encode_range toISOString start end_ = Returns time
    end.
Proof.
  unfold updateUrlWithState.
  set (base := <["fuels" := _]> _).
  assert (Hbase : base !! "stations" =
            (if 0 <? length (selectedStations st)
             then Some (join "," (selected_ids st)) else None) /\
          base !! "fuels" = Some (join "," (selectedFuelTypes st))).
  { unfold base. rewrite lookup_insert_eq, lookup_insert_ne by done.
    destruct (0 <? length (selectedStations st)).
    - now rewrite lookup_insert_eq.
    - now rewrite lookup_empty. }
  destruct Hbase as [Hstations Hfuels].
  destruct (selectedTimeRange st) as [s|start end_].
  - intros [= <-]. rewrite !lookup_insert_ne by done. split_and!; try assumption.
    exists s. now rewrite lookup_insert_eq.
  - destruct (encode_range toISOString start end_) as [time|e]; [|discriminate].
    cbn [bind_outcome]. intros [= <-]. rewrite !lookup_insert_ne by done.
    split_and!; try assumption. exists time. now rewrite lookup_insert_eq.
Qed.

Lemma encode_range_valid (t0 t1 : Z) :
  encode_range toISOString (DateValue t0) (DateValue t1) =
  Returns (toISOString t0 ++ ";" ++ toISOString t1)%string.
Proof. reflexivity. Qed.

Lemma range_encodable_valid (range : TimeRange) :
  range_encodable Date_new toISOString range -> range_valid range.
Proof. destruct range as [s|[t0|] [t1|]]; cbn; tauto. Qed.

(** A valid range can always be written. *)
Lemma range_valid_text (range : TimeRange) :
  range_valid range ->
  exists time,
    match range with
    | RangeName s => time = s
    | RangeObject start end_ => encode_range toISOString start end_ = Returns time
    end.
Proof.
  destruct range as [s|[t0|] [t1|]]; cbn [range_valid]; try tauto; intros _.
  - now exists s.
  - eexists. apply encode_range_valid.
Qed.

Lemma updateUrlWithState_returns (st : State) :
  range_valid (selectedTimeRange st) ->
  exists params, updateUrlWithState toISOString st = Returns params.
Proof.
  intros Hvalid. unfold updateUrlWithState.
  destruct (selectedTimeRange st) as [s|[t0|] [t1|]]; cbn [range_valid] in Hvalid;
    try tauto; eexists; reflexivity.
Qed.

(** Decoding the text of an encodable range. *)
Lemma decode_range_encodable (range : TimeRange) (time : string) :
  range_encodable Date_new toISOString range ->
  match range with
  | RangeName s => time = s
  | RangeObject start end_ => encode_range toISOString start end_ = Returns time
  end ->
  time <> ""%string /\ decode_range Date_new time = range.
Proof.
  destruct range as [s|[t0|] [t1|]]; cbn [range_encodable]; try tauto.
  - intros [Hne Hsep] ->. split; [exact Hne|]. unfold decode_range. now rewrite Hsep.
  - intros (H0 & H1 & Hs0 & Hs1). rewrite encode_range_valid. intros [= <-]. split.
    + apply truthy_string_spec, (includes_truthy ";").
      change (";" ++ toISOString t1)%string with (String ";" (toISOString t1)).
      apply includes_app_sep.
    + now apply decode_encoded_range.
Qed.

Lemma loadStateFromUrl_written (st : State) (params : gmap string string) :
  separable "," (selected_ids st) ->
  separable "," (selectedFuelTypes st) ->
  range_encodable Date_new toISOString (selectedTimeRange st) ->
  updateUrlWithState toISOString st = Returns params ->
  loadStateFromUrl Date_new params =
  Some {| url_stationIds := selected_ids st;
          url_fuelTypes := Some (selectedFuelTypes st);
          url_timeRange := Some (selectedTimeRange st) |}.
Proof.
  intros Hids Hfuels Hrange Hparams.
  apply updateUrlWithState_params in Hparams as (Hs & Hf & time & Ht & Htime).
  destruct (decode_range_encodable _ _ Hrange Htime) as [Hne Hdecode].
  apply truthy_string_spec in Hne.
  unfold loadStateFromUrl. rewrite Hs, Hf, Ht. cbn [from_option]. rewrite Hne.
  rewrite !andb_false_r. f_equal. f_equal.
  - destruct (0 <? length (selectedStations st)) eqn:Hlen.
    + now apply split_joined.
    + apply Nat.ltb_ge in Hlen. unfold selected_ids.
      destruct (selectedStations st); [reflexivity|cbn in Hlen; lia].
  - f_equal. now apply split_joined.
  - now rewrite Hdecode.
Qed.

Lemma restored_timeRange_encodable (urlState : UrlState) (range : TimeRange) :
  range_encodable Date_new toISOString range ->
  url_timeRange urlState = Some range ->
  restored_timeRange urlState = range.
Proof.
  intros Hrange Hurl. unfold restored_timeRange. rewrite Hurl.
  destruct range as [s|start end_]; [|reflexivity].
  destruct Hrange as [Hne _]. apply truthy_string_spec in Hne. now rewrite Hne.
Qed.

End UrlFacts.

Section ReloadFacts.

Variable Date_new : string -> Date.
Variable toISOString : Z -> string.
Variable JSON_stringify : list string -> string.
Variable JSON_parse : string -> option json.
Variable greater_than_zero : json -> bool.
Variable querySelector : string -> outcome exception bool.

Lemma showState_accepted (st : State) :
  radio_selector_accepted querySelector (selectedTimeRange st) ->
  showState querySelector st = Started st (0 <? length (selectedStations st)).
Proof.
  unfold showState, updateTimeRangeRadios, radio_selector_accepted.
  destruct (selectedTimeRange st) as [name|start end_]; [|reflexivity].
  now intros [found ->].
Qed.

Lemma showState_rejected (st : State) (e : exception) :
  radio_selector_rejected querySelector (selectedTimeRange st) e ->
  showState querySelector st = Failed st e.
Proof.
  unfold showState, updateTimeRangeRadios, radio_selector_rejected.
  destruct (selectedTimeRange st) as [name|start end_]; [|intros []].
  now intros ->.
Qed.

Lemma restoreState_written_url (st before : State) (localStorage params : gmap string string) :
  selection_known st ->
  separable "," (selected_ids st) ->
  separable "," (selectedFuelTypes st) ->
  range_encodable Date_new toISOString (selectedTimeRange st) ->
  updateUrlWithState toISOString st = Returns params ->
  restoreState JSON_parse greater_than_zero Date_new querySelector (allStations st) before
    localStorage params =
  showState querySelector st.
Proof.
  intros Hknown Hids Hfuels Hrange Hparams. unfold restoreState.
  rewrite (loadStateFromUrl_written Date_new toISOString st params) by assumption.
  rewrite (restored_timeRange_encodable Date_new toISOString _ (selectedTimeRange st))
    by (assumption || reflexivity).
  cbn [url_stationIds url_fuelTypes default from_option id
       set_allStations set_selectedStations set_selectedFuelTypes set_selectedTimeRange
       allStations selectedStations selectedFuelTypes selectedTimeRange].
  rewrite (stations_of_ids_known st) by exact Hknown.
  f_equal. now destruct st.
Qed.

(** X8.  Reloading the page restores the state from the URL.  Let the
    selected stations be stations of the fetched list, which has one
    station per id, let no station id and no fuel key contain a comma, and
    let the time range be a non-empty name or a pair of dates that the
    platform reads back from their ISO strings.  Then a start-up that
    fetches the same station list and finds the parameters that
    [updateUrlWithState] wrote restores exactly this state, whatever the
    state was before and whatever localStorage holds.  If the platform can
    parse the selector made from the name of the range, the start-up ends
    with this state and refreshes the chart if a station is selected; if
    [querySelector] throws for it, the start-up ends in the [catch], with
    this state and without a refresh. *)
Theorem reload_restores_state_from_url (fetch : service Station) (fuel : nat)
    (log : list request) (st before : State) (localStorage params : gmap string string) :
  selection_known st ->
  separable "," (selected_ids st) ->
  separable "," (selectedFuelTypes st) ->
  range_encodable Date_new toISOString (selectedTimeRange st) ->
  updateUrlWithState toISOString st = Returns params ->
  fetchStations fetch fuel = Some (log, Returns (allStations st)) ->
  let startup := initializeApp JSON_parse greater_than_zero Date_new querySelector
                   fetch fuel before localStorage params in
  (radio_selector_accepted querySelector (selectedTimeRange st) ->
   startup = Some (Started st (0 <? length (selectedStations st)))) /\
  (forall e, radio_selector_rejected querySelector (selectedTimeRange st) e ->
   startup = Some (Failed st e)).
Proof.
  intros Hknown Hids Hfuels Hrange Hparams Hfetch startup.
  assert (Hstartup : startup = Some (showState querySelector st)).
  { unfold startup, initializeApp. rewrite Hfetch. f_equal.
    now apply restoreState_written_url. }
  rewrite Hstartup. split.
  - intros Haccepted. now rewrite showState_accepted.
  - intros e Hrejected. now rewrite (showState_rejected st e).
Qed.

Lemma insert_fixed (k v : string) (m : gmap string string) :
  <[k := v]> m = m -> m !! k = Some v.
Proof. intros <-. apply lookup_insert_eq. Qed.

Lemma strings_of_json_of_strings (l : list string) :
  strings_of_json (json_of_strings l) = Some l.
Proof.
  unfold strings_of_json, json_of_strings. apply mapM_Some.
  induction l as [|x l IH]; constructor; [reflexivity|exact IH].
Qed.

Lemma stations_of_json_ids (allStations : list Station) (ids : list string) :
  omap (fun id => match id with
                  | JString id => find_station allStations id
                  | _ => None
                  end) (JString <$> ids) =
  stations_of_ids allStations ids.
Proof.
  unfold stations_of_ids. induction ids as [|id ids IH]; [reflexivity|].
  rewrite fmap_cons. cbn [omap list_omap]. now rewrite IH.
Qed.

Lemma loadSelectedStations_saved (p : Page) :
  selection_known (page_state p) ->
  json_round_trip JSON_stringify JSON_parse (selected_ids (page_state p)) ->
  saveSelectedStations JSON_stringify (page_state p) (page_localStorage p) =
    page_localStorage p ->
  loadSelectedStations JSON_parse greater_than_zero (allStations (page_state p))
    (page_localStorage p) = Returns (selectedStations (page_state p)).
Proof.
  intros Hknown [Hne Hparse] Hsaved. apply insert_fixed in Hsaved.
  unfold loadSelectedStations. rewrite Hsaved.
  apply truthy_string_spec in Hne. unfold selected_ids in Hne, Hparse. rewrite Hne, Hparse.
  unfold json_of_strings. rewrite stations_of_json_ids, length_fmap.
  fold (selected_ids (page_state p)). rewrite (stations_of_ids_known _ Hknown).
  destruct (selectedStations (page_state p)) as [|s l] eqn:Hsel; [now destruct (_ && _)|].
  destruct Hknown as [_ Hsub]. specialize (Hsub s). rewrite Hsel in Hsub.
  specialize (Hsub ltac:(constructor)).
  destruct (allStations (page_state p)); [now apply elem_of_nil in Hsub|].
  unfold selected_ids. now rewrite Hsel.
Qed.

Lemma loadSelectedFuelTypes_saved (p : Page) :
  json_round_trip JSON_stringify JSON_parse (selectedFuelTypes (page_state p)) ->
  saveSelectedFuelTypes JSON_stringify (page_state p) (page_localStorage p) =
    page_localStorage p ->
  loadSelectedFuelTypes JSON_parse (page_localStorage p) =
  Returns (json_of_strings (selectedFuelTypes (page_state p))).
Proof.
  intros [_ Hparse] Hsaved. apply insert_fixed in Hsaved.
  unfold loadSelectedFuelTypes. rewrite Hsaved. cbn [default from_option id].
  now rewrite Hparse.
Qed.

Lemma loadSelectedTimeRange_saved (p : Page) :
  range_encodable Date_new toISOString (selectedTimeRange (page_state p)) ->
  saveSelectedTimeRange toISOString (page_state p) (page_localStorage p) =
    Returns (page_localStorage p) ->
  loadSelectedTimeRange Date_new (page_localStorage p) = selectedTimeRange (page_state p).
Proof.
  intros Hrange Hsaved. unfold saveSelectedTimeRange in Hsaved.
  assert (Htime : exists time,
            page_localStorage p !! "selectedTimeRange" = Some time /\
            match selectedTimeRange (page_state p) with
            | RangeName s => time = s
            | RangeObject start end_ => encode_range toISOString start end_ = Returns time
            end).
  { destruct (selectedTimeRange (page_state p)) as [s|start end_].
    - injection Hsaved as Hsaved. apply insert_fixed in Hsaved. now exists s.
    - destruct (encode_range toISOString start end_) as [time|e]; [|discriminate].
      cbn [bind_outcome] in Hsaved. injection Hsaved as Hsaved.
      apply insert_fixed in Hsaved. now exists time. }
  destruct Htime as (time & Hlookup & Htime).
  destruct (decode_range_encodable Date_new toISOString _ _ Hrange Htime) as [Hne Hdecode].
  apply truthy_string_spec in Hne.
  unfold loadSelectedTimeRange. now rewrite Hlookup, Hne.
Qed.

(** X9.  Reloading the page restores the state from localStorage when the
    URL carries none of the three parameters.  Let localStorage hold what
    the three save functions write for the state, let the selected stations
    be stations of the fetched list, which has one station per id, let the
    platform read back the JSON texts of the station ids and of the fuel
    keys, and let the time range be a non-empty name or a pair of dates
    that the platform reads back.  Then a start-up that fetches the same
    station list restores exactly this state: it ends with it, and with a
    refresh if a station is selected, when the platform can parse the
    selector made from the name of the range, and it ends in the [catch],
    with this state and without a refresh, when [querySelector] throws for
    that selector. *)
Theorem reload_restores_state_from_storage (fetch : service Station) (fuel : nat)
    (log : list request) (p : Page) (before : State) (params : gmap string string) :
  selection_known (page_state p) ->
  json_round_trip JSON_stringify JSON_parse (selected_ids (page_state p)) ->
  json_round_trip JSON_stringify JSON_parse (selectedFuelTypes (page_state p)) ->
  range_encodable Date_new toISOString (selectedTimeRange (page_state p)) ->
  storage_in_sync toISOString JSON_stringify p ->
  loadStateFromUrl Date_new params = None ->
  fetchStations fetch fuel = Some (log, Returns (allStations (page_state p))) ->
  let startup := initializeApp JSON_parse greater_than_zero Date_new querySelector
                   fetch fuel before (page_localStorage p) params in
  (radio_selector_accepted querySelector (selectedTimeRange (page_state p)) ->
   startup = Some (Started (page_state p) (0 <? length (selectedStations (page_state p))))) /\
  (forall e, radio_selector_rejected querySelector (selectedTimeRange (page_state p)) e ->
   startup = Some (Failed (page_state p) e)).
Proof.
  intros Hknown Hids Hfuels Hrange (Hs & Hf & Ht) Hurl Hfetch startup.
  assert (Hstartup : startup = Some (showState querySelector (page_state p))).
  { unfold startup, initializeApp. rewrite Hfetch. unfold restoreState. rewrite Hurl.
    cbn [allStations set_allStations].
    rewrite (loadSelectedStations_saved p Hknown Hids Hs).
    rewrite (loadSelectedFuelTypes_saved p Hfuels Hf).
    rewrite strings_of_json_of_strings.
    rewrite (loadSelectedTimeRange_saved p Hrange Ht).
    cbn [set_allStations set_selectedStations set_selectedFuelTypes set_selectedTimeRange
         allStations selectedStations selectedFuelTypes selectedTimeRange].
    do 2 f_equal. now destruct (page_state p). }
  rewrite Hstartup. split.
  - intros Haccepted. now rewrite showState_accepted.
  - intros e Hrejected. now rewrite (showState_rejected _ e).
Qed.

(** X10.  A URL that carries a non-empty [stations], [fuels] or [time]
    parameter decides the start-up alone: localStorage is not read, so
    nothing stored can change the outcome.  The state is restored from the
    parameters, and the start-up ends with it when the platform can parse
    the selector made from the name of the range; when [querySelector]
    throws for that selector, it ends in the [catch] without a refresh.
    The selection are the stations that the ids of [stations] name in the
    fetched list, in the order of the ids, with unknown ids left out and
    repeated ids repeated; without a [fuels] parameter all configured fuel
    types are selected, and with an empty one none; without a [time]
    parameter, or with an empty one, the range is ['all']. *)
Theorem initializeApp_prefers_url (fetch : service Station) (fuel : nat)
    (log : list request) (fetched : list Station) (before : State)
    (localStorage localStorage' params : gmap string string) :
  fetchStations fetch fuel = Some (log, Returns fetched) ->
  (exists key value, key ∈ ["stations"; "fuels"; "time"] /\
                     params !! key = Some value /\ value <> "") ->
  let startup := initializeApp JSON_parse greater_than_zero Date_new querySelector
                   fetch fuel before in
  startup localStorage' params = startup localStorage params /\
  exists st,
    (radio_selector_accepted querySelector (selectedTimeRange st) ->
     startup localStorage params = Some (Started st (0 <? length (selectedStations st)))) /\
    (forall e, radio_selector_rejected querySelector (selectedTimeRange st) e ->
     startup localStorage params = Some (Failed st e)) /\
    allStations st = fetched /\
    (let ids := match params !! "stations" with
                | Some text => if truthy_string text then split "," text else []
                | None => []
                end in
     selected_ids st =
       List.filter (fun id => bool_decide (id ∈ station_id <$> fetched)) ids /\
     forall s, s ∈ selectedStations st -> s ∈ fetched /\ station_id s ∈ ids) /\
    (params !! "fuels" = None -> selectedFuelTypes st = fuel_key <$> FUEL_TYPE_CONFIG) /\
    (params !! "fuels" = Some "" -> selectedFuelTypes st = []) /\
    (params !! "time" = None \/ params !! "time" = Some "" ->
     selectedTimeRange st = RangeName "all").
Proof.
  intros Hfetch (key & value & Hkey & Hlookup & Hvalue).
  apply truthy_string_spec in Hvalue.
  assert (Hurl : exists urlState,
            loadStateFromUrl Date_new params = Some urlState /\
            url_stationIds urlState =
              match params !! "stations" with
              | Some text => if truthy_string text then split "," text else []
              | None => []
              end /\
            (params !! "fuels" = None -> url_fuelTypes urlState = None) /\
            (params !! "fuels" = Some "" -> url_fuelTypes urlState = Some []) /\
            (params !! "time" = None \/ params !! "time" = Some "" ->
             restored_timeRange urlState = RangeName "all")).
  { unfold loadStateFromUrl.
    assert (Hpresent :
      negb (from_option truthy_string false (params !! "stations")) &&
      negb (from_option truthy_string false (params !! "fuels")) &&
      negb (from_option truthy_string false (params !! "time")) = false).
    { repeat (apply elem_of_cons in Hkey as [->|Hkey]);
        [..|now apply elem_of_nil in Hkey]; rewrite Hlookup; cbn [from_option];
        rewrite Hvalue; cbn [negb andb]; rewrite ?andb_false_r; reflexivity. }
    rewrite Hpresent. eexists. split; [reflexivity|]. cbn [url_stationIds url_fuelTypes].
    split_and!; [reflexivity|now intros ->|now intros ->|].
    unfold restored_timeRange. cbn [url_timeRange]. now intros [->| ->]. }
  destruct Hurl as (urlState & Hurl & Hids & Hnofuels & Hemptyfuels & Htime).
  cbv zeta. unfold initializeApp. rewrite Hfetch. unfold restoreState. rewrite Hurl.
  split; [reflexivity|]. eexists.
  split; [intros Haccepted; now rewrite showState_accepted|].
  split; [intros e Hrejected; now rewrite (showState_rejected _ e)|].
  unfold selected_ids, set_selectedTimeRange, set_selectedFuelTypes, set_selectedStations,
    set_allStations.
  cbn [allStations selectedStations selectedFuelTypes selectedTimeRange].
  cbn zeta. rewrite <- Hids. split_and!.
  - reflexivity.
  - apply stations_of_ids_ids.
  - intros s. apply stations_of_ids_elem.
  - intros H. now rewrite (Hnofuels H).
  - intros H. now rewrite (Hemptyfuels H).
  - exact Htime.
Qed.

(** X11.  Start-up without state in the URL.  On a first visit, with
    nothing stored, no station is selected, all configured fuel types are,
    the range is ['all'], and no refresh is started; only a platform whose
    [querySelector] throws for the selector of that range would end this
    start-up in the [catch], with the same state.  If the fetch of the
    stations throws, the state stays as it was.  If the stored station ids
    are not JSON, the start-up fails after the station list has arrived:
    the selection, the fuel types and the time range stay as they were; if
    the stored fuel types are not JSON, it fails after the selection has
    been restored. *)
Theorem initializeApp_without_url (fetch : service Station) (fuel : nat)
    (log : list request) (before : State) (localStorage params : gmap string string) :
  loadStateFromUrl Date_new params = None ->
  let startup := initializeApp JSON_parse greater_than_zero Date_new querySelector
                   fetch fuel before localStorage params in
  (forall e, fetchStations fetch fuel = Some (log, Throws e) ->
     startup = Some (Failed before (FetchError e))) /\
  (forall fetched, fetchStations fetch fuel = Some (log, Returns fetched) ->
     (localStorage !! "selectedStationIds" = None ->
      localStorage !! "selectedFuelTypes" = None ->
      localStorage !! "selectedTimeRange" = None ->
      JSON_parse "[]" = Some (JArray []) -> JSON_parse "null" = Some JNull ->
      let st := {| allStations := fetched; selectedStations := [];
                   selectedFuelTypes := fuel_key <$> FUEL_TYPE_CONFIG;
                   selectedTimeRange := RangeName "all" |} in
      startup =
      Some (match querySelector (radio_selector "all") with
            | Returns _ => Started st false
            | Throws e => Failed st e
            end)) /\
     (forall text, localStorage !! "selectedStationIds" = Some text -> text <> "" ->
      JSON_parse text = None ->
      startup = Some (Failed (set_allStations fetched before) SyntaxError)) /\
     (forall stations text,
      loadSelectedStations JSON_parse greater_than_zero fetched localStorage =
        Returns stations ->
      localStorage !! "selectedFuelTypes" = Some text -> JSON_parse text = None ->
      startup =
      Some (Failed (set_selectedStations stations (set_allStations fetched before))
                   SyntaxError))).
Proof.
  intros Hurl startup. unfold startup. split.
  - intros e Hfetch. unfold initializeApp. now rewrite Hfetch.
  - intros fetched Hfetch. unfold initializeApp. rewrite Hfetch. unfold restoreState.
    rewrite Hurl. cbn [allStations set_allStations]. split_and!.
    + intros Hs Hf Ht Hempty Hnull.
      unfold loadSelectedStations. rewrite Hs, Hempty. cbn [length Nat.ltb Nat.leb andb].
      unfold loadSelectedFuelTypes. rewrite Hf. cbn [default from_option id]. rewrite Hnull.
      rewrite strings_of_json_of_strings.
      unfold loadSelectedTimeRange. rewrite Ht. cbn [default from_option id].
      unfold showState, updateTimeRangeRadios.
      cbn [set_selectedStations set_selectedFuelTypes set_selectedTimeRange
           allStations selectedStations selectedFuelTypes selectedTimeRange].
      change (decode_range Date_new "all") with (RangeName "all"). cbv iota beta.
      destruct (querySelector (radio_selector "all")); reflexivity.
    + intros text Hs Hne Hparse. apply truthy_string_spec in Hne.
      unfold loadSelectedStations. now rewrite Hs, Hne, Hparse.
    + intros stations text Hstations Hf Hparse. rewrite Hstations.
      unfold loadSelectedFuelTypes. rewrite Hf. cbn [default from_option id].
      now rewrite Hparse.
Qed.

End ReloadFacts.

(** ** The handlers keep the URL and localStorage up to date *)

Section HandlerFacts.

Variable toISOString : Z -> string.
Variable Date_new : string -> Date.
Variable JSON_stringify : list string -> string.

Lemma saveSelectedTimeRange_text (st : State) (localStorage : gmap string string) :
  saveSelectedTimeRange toISOString st localStorage =
  bind_outcome (range_text toISOString (selectedTimeRange st))
    (fun text => Returns (<["selectedTimeRange" := text]> localStorage)).
Proof. unfold saveSelectedTimeRange. now destruct (selectedTimeRange st). Qed.

Lemma range_valid_range_text (range : TimeRange) :
  range_valid range -> exists text, range_text toISOString range = Returns text.
Proof.
  destruct range as [s|[t0|] [t1|]]; cbn [range_valid]; try tauto; intros _;
    eexists; reflexivity.
Qed.

Lemma storage_in_sync_lookup (p : Page) :
  storage_in_sync toISOString JSON_stringify p <->
  page_localStorage p !! "selectedStationIds" =
    Some (JSON_stringify (selected_ids (page_state p))) /\
  page_localStorage p !! "selectedFuelTypes" =
    Some (JSON_stringify (selectedFuelTypes (page_state p))) /\
  exists text,
    range_text toISOString (selectedTimeRange (page_state p)) = Returns text /\
    page_localStorage p !! "selectedTimeRange" = Some text.
Proof.
  unfold storage_in_sync, saveSelectedStations, saveSelectedFuelTypes.
  rewrite saveSelectedTimeRange_text. split.
  - intros (Hs & Hf & Ht). split_and!; [now apply insert_fixed in Hs|now apply insert_fixed in Hf|].
    destruct (range_text toISOString _) as [text|e]; [|discriminate].
    cbn [bind_outcome] in Ht. injection Ht as Ht. apply insert_fixed in Ht. now exists text.
  - intros (Hs & Hf & text & Htext & Ht). split_and!; [now apply insert_id..|].
    rewrite Htext. cbn [bind_outcome]. f_equal. now apply insert_id.
Qed.

(** The page after a handler of the shape: assign, save, update the URL. *)
Lemma steps_assign_save_url (f : State -> State)
    (sv : State -> gmap string string -> gmap string string) (b : bool) (p : Page) :
  range_valid (selectedTimeRange (f (page_state p))) ->
  exists params,
    updateUrlWithState toISOString (f (page_state p)) = Returns params /\
    Handlers.steps [assign f; save sv; Handlers.updateUrlWithState toISOString] b p =
    ({| page_state := f (page_state p);
        page_localStorage := sv (f (page_state p)) (page_localStorage p);
        page_url := params |}, Returns b).
Proof.
  intros Hvalid. destruct (updateUrlWithState_returns toISOString _ Hvalid) as [params Hparams].
  exists params. split; [exact Hparams|].
  unfold Handlers.steps, handler_bind, assign, save, Handlers.updateUrlWithState.
  cbn [foldr set_page_state set_page_localStorage page_state page_localStorage page_url].
  now rewrite Hparams.
Qed.

Lemma steps_assign_save_range_url (f : State -> State) (b : bool) (p : Page) :
  range_valid (selectedTimeRange (f (page_state p))) ->
  exists text params,
    range_text toISOString (selectedTimeRange (f (page_state p))) = Returns text /\
    updateUrlWithState toISOString (f (page_state p)) = Returns params /\
    Handlers.steps [assign f; save_or_throw (saveSelectedTimeRange toISOString);
                    Handlers.updateUrlWithState toISOString] b p =
    ({| page_state := f (page_state p);
        page_localStorage := <["selectedTimeRange" := text]> (page_localStorage p);
        page_url := params |}, Returns b).
Proof.
  intros Hvalid. destruct (updateUrlWithState_returns toISOString _ Hvalid) as [params Hparams].
  destruct (range_valid_range_text _ Hvalid) as [text Htext].
  exists text, params. split; [exact Htext|]. split; [exact Hparams|].
  unfold Handlers.steps, handler_bind, assign, save_or_throw, Handlers.updateUrlWithState.
  cbn [foldr set_page_state set_page_localStorage page_state page_localStorage page_url].
  rewrite saveSelectedTimeRange_text, Htext. cbn [bind_outcome].
  cbn [set_page_state set_page_localStorage page_state page_localStorage page_url].
  now rewrite Hparams.
Qed.

Local Ltac storage_lookups :=
  cbn [page_state page_localStorage page_url selected_ids
       set_selectedStations set_selectedFuelTypes set_selectedTimeRange removeStation
       allStations selectedStations selectedFuelTypes selectedTimeRange];
  unfold saveSelectedStations, saveSelectedFuelTypes;
  cbn [set_selectedStations set_selectedFuelTypes set_selectedTimeRange removeStation
       allStations selectedStations selectedFuelTypes selectedTimeRange];
  rewrite ?lookup_insert_eq, ?lookup_insert_ne by done.

Lemma handleZoom_page (startDate endDate : option string) (q : Page) :
  isNaN_Date (Date_of Date_new startDate) = false ->
  isNaN_Date (Date_of Date_new endDate) = false ->
  let range := RangeObject (Date_of Date_new startDate) (Date_of Date_new endDate) in
  range_valid range /\
  exists text params,
    range_text toISOString range = Returns text /\
    updateUrlWithState toISOString (set_selectedTimeRange range (page_state q)) =
      Returns params /\
    Handlers.handleZoom toISOString Date_new startDate endDate q =
    ({| page_state := set_selectedTimeRange range (page_state q);
        page_localStorage := <["selectedTimeRange" := text]> (page_localStorage q);
        page_url := params |}, Returns false).
Proof.
  intros Hstart Hend range.
  assert (Hvalid : range_valid range).
  { unfold range. destruct (Date_of Date_new startDate), (Date_of Date_new endDate);
      cbn in Hstart, Hend; try discriminate; exact I. }
  split; [exact Hvalid|].
  destruct (steps_assign_save_range_url (set_selectedTimeRange range) false q Hvalid)
    as (text & params & Htext & Hparams & Hsteps).
  now exists text, params.
Qed.

(** The step that resets the zoom is the call that the event makes. *)
Lemma reset_step_radio (value : string) (priceChart : option Chart) :
  match priceChart with
  | Some chart =>
      if default false (isZoomedOrPanned chart)
      then Handlers.resetZoom_none toISOString Date_new chart
      else handler_ret tt
  | None => handler_ret tt
  end =
  Handlers.onZoomComplete toISOString Date_new (zoom_call (TimeRangeChange value priceChart)).
Proof. destruct priceChart as [[[[]|] call]|]; reflexivity. Qed.

Lemma reset_step_button (priceChart : option Chart) :
  match priceChart with
  | Some chart => Handlers.resetZoom_none toISOString Date_new chart
  | None => handler_ret tt
  end =
  Handlers.onZoomComplete toISOString Date_new (zoom_call (ResetZoom priceChart)).
Proof. destruct priceChart as [[zoomed call]|]; reflexivity. Qed.

(** The page after a handler of the shape: assign a range name, save it,
    reset the zoom, and update the URL or not. *)
Lemma steps_reset (name : string) (call : option (option string * option string))
    (url : bool) (p : Page) :
  match call with
  | Some (startDate, endDate) =>
      isNaN_Date (Date_of Date_new startDate) = false /\
      isNaN_Date (Date_of Date_new endDate) = false
  | None => True
  end ->
  let range :=
    match call with
    | Some (startDate, endDate) =>
        RangeObject (Date_of Date_new startDate) (Date_of Date_new endDate)
    | None => RangeName name
    end in
  range_valid range /\
  exists text params,
    range_text toISOString range = Returns text /\
    updateUrlWithState toISOString (set_selectedTimeRange range (page_state p)) =
      Returns params /\
    Handlers.steps
      ([ assign (set_selectedTimeRange (RangeName name));
         save_or_throw (saveSelectedTimeRange toISOString);
         Handlers.onZoomComplete toISOString Date_new call ] ++
       (if url then [Handlers.updateUrlWithState toISOString] else [])) true p =
    ({| page_state := set_selectedTimeRange range (page_state p);
        page_localStorage := <["selectedTimeRange" := text]> (page_localStorage p);
        page_url := match call with
                    | Some _ => params
                    | None => if url then params else page_url p
                    end |}, Returns true).
Proof.
  intros Hcall range.
  unfold Handlers.steps, handler_bind, assign, save_or_throw.
  cbn [foldr app set_page_state set_page_localStorage page_state page_localStorage page_url
       saveSelectedTimeRange selectedTimeRange set_selectedTimeRange].
  destruct call as [[startDate endDate]|]; cbn [Handlers.onZoomComplete].
  - destruct Hcall as [Hstart Hend].
    pose (q := {| page_state := set_selectedTimeRange (RangeName name) (page_state p);
                  page_localStorage :=
                    <["selectedTimeRange" := name]> (page_localStorage p);
                  page_url := page_url p |}).
    destruct (handleZoom_page startDate endDate q Hstart Hend)
      as (Hvalid & text & params & Htext & Hparams & Hzoom).
    split; [exact Hvalid|]. exists text, params. split; [exact Htext|].
    split; [exact Hparams|].
    change (set_page_localStorage _ _) with q.
    unfold handler_bind. rewrite Hzoom. unfold handler_ret, q.
    cbn [page_state page_localStorage page_url].
    rewrite insert_insert_eq.
    destruct url; cbn [foldr]; [|reflexivity].
    unfold handler_bind, Handlers.updateUrlWithState. cbn [page_state].
    unfold q in Hparams. cbn [page_state] in Hparams. now rewrite Hparams.
  - split; [exact I|].
    destruct (updateUrlWithState_returns toISOString
                (set_selectedTimeRange (RangeName name) (page_state p)) I) as [params Hparams].
    exists name, params. split; [reflexivity|]. split; [exact Hparams|].
    unfold handler_ret.
    destruct url; cbn [foldr]; [|reflexivity].
    unfold handler_bind, Handlers.updateUrlWithState.
    cbn [page_state set_page_state set_page_localStorage].
    now rewrite Hparams.
Qed.

(** One event. *)
Lemma handle_in_sync (e : event) (p : Page) :
  range_valid (selectedTimeRange (page_state p)) ->
  zoom_readable Date_new e ->
  let result := Handlers.handle toISOString Date_new JSON_stringify e p in
  (exists refresh, result.2 = Returns refresh) /\
  range_valid (selectedTimeRange (page_state result.1)) /\
  (storage_in_sync toISOString JSON_stringify p ->
   storage_in_sync toISOString JSON_stringify result.1) /\
  (~ quiet_reset e -> url_in_sync toISOString p -> url_in_sync toISOString result.1) /\
  (writes_url e (page_state p) -> url_in_sync toISOString result.1).
Proof.
  intros Hvalid Hzoom. cbv zeta. rewrite !storage_in_sync_lookup. unfold url_in_sync.
  destruct e as [s|stationId|checked|value priceChart|startDate endDate|priceChart];
    cbn [Handlers.handle].
  - (* handleResultClick *)
    unfold Handlers.handleResultClick.
    destruct (List.find _ (selectedStations (page_state p))) eqn:Hfind.
    + cbn [fst snd]. split_and!; [now exists false|assumption|tauto|tauto|].
      cbn [writes_url]. intros Hnew. apply find_station_None in Hnew. congruence.
    + destruct (steps_assign_save_url
                  (fun st => set_selectedStations (selectedStations st ++ [s]) st)
                  (saveSelectedStations JSON_stringify) true p Hvalid)
        as (params & Hparams & ->).
      cbn [fst snd]. split_and!; [now exists true|exact Hvalid| |now intros|now intros].
      intros (Hs & Hf & text & Htext & Ht). storage_lookups.
      split_and!; [reflexivity|exact Hf|now exists text].
  - (* removeStation *)
    unfold Handlers.removeStation.
    destruct (steps_assign_save_url (removeStation stationId)
                (saveSelectedStations JSON_stringify) true p Hvalid)
      as (params & Hparams & ->).
    cbn [fst snd]. split_and!; [now exists true|exact Hvalid| |now intros|now intros].
    intros (Hs & Hf & text & Htext & Ht). storage_lookups.
    split_and!; [reflexivity|exact Hf|now exists text].
  - (* handleFuelTypeChange *)
    unfold Handlers.handleFuelTypeChange.
    destruct (steps_assign_save_url (set_selectedFuelTypes checked)
                (saveSelectedFuelTypes JSON_stringify) true p Hvalid)
      as (params & Hparams & ->).
    cbn [fst snd]. split_and!; [now exists true|exact Hvalid| |now intros|now intros].
    intros (Hs & Hf & text & Htext & Ht). storage_lookups.
    split_and!; [exact Hs|reflexivity|now exists text].
  - (* handleTimeRangeChange *)
    unfold Handlers.handleTimeRangeChange. rewrite (reset_step_radio value).
    destruct (steps_reset value (zoom_call (TimeRangeChange value priceChart)) true p Hzoom)
      as (Hvalid' & text & params & Htext & Hparams & Hsteps).
    cbn [app] in Hsteps. rewrite Hsteps.
    cbn [fst snd]. split_and!; [now exists true|exact Hvalid'| | |].
    + intros (Hs & Hf & _). storage_lookups.
      split_and!; [exact Hs|exact Hf|]. exists text. split; [exact Htext|reflexivity].
    + intros _ _. cbn [page_state page_url]. now destruct (zoom_call _).
    + intros _. cbn [page_state page_url]. now destruct (zoom_call _).
  - (* handleZoom *)
    destruct Hzoom as [Hstart Hend].
    destruct (handleZoom_page startDate endDate p Hstart Hend)
      as (Hvalid' & text & params & Htext & Hparams & ->).
    cbn [fst snd]. split_and!; [now exists false|exact Hvalid'| |now intros|now intros].
    intros (Hs & Hf & _). storage_lookups.
    split_and!; [exact Hs|exact Hf|]. exists text. split; [exact Htext|reflexivity].
  - (* handleResetZoom *)
    unfold Handlers.handleResetZoom. rewrite reset_step_button.
    destruct (steps_reset "all" (zoom_call (ResetZoom priceChart)) false p Hzoom)
      as (Hvalid' & text & params & Htext & Hparams & Hsteps).
    cbn [app] in Hsteps. rewrite Hsteps.
    cbn [fst snd]. split_and!; [now exists true|exact Hvalid'| | |].
    + intros (Hs & Hf & _). storage_lookups.
      split_and!; [exact Hs|exact Hf|]. exists text. split; [exact Htext|reflexivity].
    + cbn [quiet_reset page_state page_url]. intros Hquiet _.
      destruct (zoom_call _); [exact Hparams|now contradict Hquiet].
    + cbn [writes_url page_state page_url]. intros Hwrites.
      destruct (zoom_call _); [exact Hparams|now contradict Hwrites].
Qed.

Lemma after_snoc (es : list event) (e : event) (p : Page) :
  Handlers.after toISOString Date_new JSON_stringify (es ++ [e]) p =
  (Handlers.handle toISOString Date_new JSON_stringify e
     (Handlers.after toISOString Date_new JSON_stringify es p)).1.
Proof. unfold Handlers.after. now rewrite foldl_app. Qed.

(** X12.  Starting from a time range without an invalid date, and as long
    as every call of [handleZoom], by a zoom or from the plugin while the
    zoom is reset, goes from one label that is a date to another, no
    handler throws, and the handlers keep the page consistent: if
    localStorage held the state before a sequence of events, it holds the
    state after it, and the same is true of the URL for a sequence without
    a reset of the zoom that passes without a call of [handleZoom].
    Moreover every handler that writes the URL leaves a URL that shows the
    whole state, whatever the URL was before. *)
Theorem handlers_keep_page_in_sync (es : list event) (p : Page) :
  range_valid (selectedTimeRange (page_state p)) ->
  Forall (zoom_readable Date_new) es ->
  let after := Handlers.after toISOString Date_new JSON_stringify in
  let handle := Handlers.handle toISOString Date_new JSON_stringify in
  range_valid (selectedTimeRange (page_state (after es p))) /\
  (forall es1 e es2, es = es1 ++ e :: es2 ->
     exists refresh, (handle e (after es1 p)).2 = Returns refresh) /\
  (storage_in_sync toISOString JSON_stringify p ->
   storage_in_sync toISOString JSON_stringify (after es p)) /\
  ((forall e, e ∈ es -> ~ quiet_reset e) ->
   url_in_sync toISOString p -> url_in_sync toISOString (after es p)) /\
  (forall es1 e, es = es1 ++ [e] -> writes_url e (page_state (after es1 p)) ->
     url_in_sync toISOString (after es p)).
Proof.
  intros Hvalid Hzoom after handle. revert Hzoom.
  induction es as [|e es IH] using rev_ind; intros Hzoom.
  - split_and!; [exact Hvalid| |tauto|tauto|].
    + intros es1 e es2 H. now destruct es1.
    + intros es1 e H. now destruct es1.
  - apply Forall_app in Hzoom as [Hes He]. apply Forall_inv in He.
    destruct (IH Hes) as (IHvalid & IHreturns & IHstorage & IHurl & _).
    unfold after. rewrite after_snoc. fold (after es p).
    destruct (handle_in_sync e (after es p) IHvalid He)
      as (Hreturns & Hvalid' & Hstorage & Hurl & Hwrites).
    split_and!.
    + exact Hvalid'.
    + intros es1 e' es2 Hsplit.
      destruct es2 as [|e2 es2 _] using rev_ind.
      * apply app_inj_tail in Hsplit as [<- <-]. exact Hreturns.
      * rewrite app_comm_cons, app_assoc in Hsplit.
        apply app_inj_tail in Hsplit as [-> _]. now apply (IHreturns es1 e' es2).
    + intros H. now apply Hstorage, IHstorage.
    + intros Hreset Hsync. apply Hurl.
      * apply Hreset, elem_of_app. right. constructor.
      * apply IHurl; [|exact Hsync]. intros e' He'. apply Hreset, elem_of_app. now left.
    + intros es1 e' Hsplit. apply app_inj_tail in Hsplit as [<- <-]. exact Hwrites.
Qed.

(** X13.  Resetting the zoom does not bring the URL to ['all'].
    [handleResetZoom] itself never writes the URL.  On a zoomed page whose
    URL showed the state: if the plugin resets the chart without calling
    [handleZoom], the state and localStorage say ['all'] afterwards, but
    the URL still carries the zoomed range and so no longer shows the
    state, and a reload finds the URL first and comes back with the state
    from before the reset, zoomed range included.  If the plugin calls
    [handleZoom] while it resets, with two labels that are dates, it is
    that call which is last to assign the range: the handler returns with
    the range between the two dates in the state, in localStorage and in
    the URL, not with ['all']. *)
Theorem handleResetZoom_leaves_url (p : Page) (t0 t1 : Z) (priceChart : option Chart) :
  selectedTimeRange (page_state p) = RangeObject (DateValue t0) (DateValue t1) ->
  url_in_sync toISOString p ->
  let result := Handlers.handleResetZoom toISOString Date_new priceChart p in
  (zoom_call (ResetZoom priceChart) = None ->
   result.2 = Returns true /\
   selectedTimeRange (page_state result.1) = RangeName "all" /\
   page_localStorage result.1 !! "selectedTimeRange" = Some "all"%string /\
   page_url result.1 = page_url p /\
   page_url result.1 !! "time" = Some (toISOString t0 ++ ";" ++ toISOString t1)%string /\
   ~ url_in_sync toISOString result.1 /\
   (forall JSON_parse greater_than_zero querySelector (fetch : service Station) fuel log
           before,
      selection_known (page_state p) ->
      separable "," (selected_ids (page_state p)) ->
      separable "," (selectedFuelTypes (page_state p)) ->
      range_encodable Date_new toISOString (selectedTimeRange (page_state p)) ->
      fetchStations fetch fuel = Some (log, Returns (allStations (page_state p))) ->
      initializeApp JSON_parse greater_than_zero Date_new querySelector fetch fuel before
        (page_localStorage result.1) (page_url result.1) =
      Some (Started (page_state p) (0 <? length (selectedStations (page_state p)))))) /\
  (forall startDate endDate s0 s1,
     zoom_call (ResetZoom priceChart) = Some (startDate, endDate) ->
     Date_of Date_new startDate = DateValue s0 ->
     Date_of Date_new endDate = DateValue s1 ->
     result.2 = Returns true /\
     selectedTimeRange (page_state result.1) = RangeObject (DateValue s0) (DateValue s1) /\
     page_localStorage result.1 !! "selectedTimeRange" =
       Some (toISOString s0 ++ ";" ++ toISOString s1)%string /\
     page_url result.1 !! "time" = Some (toISOString s0 ++ ";" ++ toISOString s1)%string /\
     url_in_sync toISOString result.1).
Proof.
  intros Hrange Hsync result. unfold result, Handlers.handleResetZoom.
  rewrite reset_step_button. split.
  - intros Hcall.
    destruct (steps_reset "all" (zoom_call (ResetZoom priceChart)) false p)
      as (_ & text & params & Htext & _ & Hsteps); [now rewrite Hcall|].
    cbn [app] in Hsteps. rewrite Hsteps. rewrite Hcall in Htext |- *.
    injection Htext as <-. cbn [fst snd page_state page_localStorage page_url].
    assert (Htime : page_url p !! "time" =
                    Some (toISOString t0 ++ ";" ++ toISOString t1)%string).
    { apply updateUrlWithState_params in Hsync as (_ & _ & time & Htime & Htext).
      rewrite Hrange, encode_range_valid in Htext. injection Htext as <-. exact Htime. }
    split_and!; try reflexivity.
    + apply lookup_insert_eq.
    + exact Htime.
    + unfold url_in_sync. cbn [page_state page_url]. intros Hsync'.
      apply updateUrlWithState_params in Hsync' as (_ & _ & time & Htime' & Htext).
      cbn [selectedTimeRange set_selectedTimeRange] in Htext. subst time.
      rewrite Htime in Htime'. injection Htime' as Heq.
      assert (Hinc : includes ";" (toISOString t0 ++ ";" ++ toISOString t1) = true).
      { change (";" ++ toISOString t1)%string with (String ";" (toISOString t1)).
        apply includes_app_sep. }
      rewrite Heq in Hinc. discriminate.
    + intros JSON_parse greater_than_zero querySelector fetch fuel log before
             Hknown Hids Hfuels Henc Hfetch.
      unfold initializeApp. rewrite Hfetch. f_equal.
      rewrite (restoreState_written_url Date_new toISOString) by assumption.
      apply showState_accepted. now rewrite Hrange.
  - intros startDate endDate s0 s1 Hcall Hstart Hend.
    destruct (steps_reset "all" (zoom_call (ResetZoom priceChart)) false p)
      as (_ & text & params & Htext & Hparams & Hsteps).
    { rewrite Hcall, Hstart, Hend. now split. }
    cbn [app] in Hsteps. rewrite Hsteps. rewrite Hcall, Hstart, Hend in Htext, Hparams |- *.
    cbn [range_text] in Htext. rewrite encode_range_valid in Htext. injection Htext as <-.
    cbn [fst snd page_state page_localStorage page_url selectedTimeRange
         set_selectedTimeRange].
    split_and!; try reflexivity.
    + apply lookup_insert_eq.
    + apply updateUrlWithState_params in Hparams as (_ & _ & time & Htime & Htext).
      cbn [selectedTimeRange set_selectedTimeRange] in Htext.
      rewrite encode_range_valid in Htext. injection Htext as <-. exact Htime.
    + exact Hparams.
Qed.

End HandlerFacts.

Example zoomed_page_state :
  page_state zoomed_page =
  {| allStations := [station_A; station_B];
     selectedStations := [station_A];
     selectedFuelTypes := ["price_diesel"; "price_super"];
     selectedTimeRange := RangeObject (DateValue 1709294400000) (DateValue 1709380800000) |}.
Proof. vm_compute. reflexivity. Qed.

Lemma zoomed_page_known : selection_known (page_state zoomed_page).
Proof.
  rewrite zoomed_page_state. split.
  - cbn. apply NoDup_cons. split; [|apply NoDup_singleton].
    rewrite list_elem_of_singleton. discriminate.
  - cbn [selectedStations allStations]. intros s Hs.
    apply list_elem_of_singleton in Hs as ->. constructor.
Qed.

Lemma zoomed_page_separable :
  separable "," (selected_ids (page_state zoomed_page)) /\
  separable "," (selectedFuelTypes (page_state zoomed_page)).
Proof.
  rewrite zoomed_page_state. split; (split; [repeat constructor|discriminate]).
Qed.

Lemma zoomed_page_encodable :
  range_encodable iso_Date_new iso_toISOString (selectedTimeRange (page_state zoomed_page)).
Proof. rewrite zoomed_page_state. cbn. repeat split; vm_compute; reflexivity. Qed.

Lemma station_service_fetch :
  fetchStations station_service 1 =
  Some (page_requests stations_query [] 0 1, Returns (allStations (page_state zoomed_page))).
Proof. vm_compute. reflexivity. Qed.

Lemma quoted_page_known :
  selection_known (page_state quoted_page) /\
  separable "," (selected_ids (page_state quoted_page)) /\
  separable "," (selectedFuelTypes (page_state quoted_page)) /\
  range_encodable iso_Date_new iso_toISOString (selectedTimeRange (page_state quoted_page)).
Proof.
  split_and!.
  - apply zoomed_page_known.
  - apply zoomed_page_separable.
  - apply zoomed_page_separable.
  - split; [discriminate|reflexivity].
Qed.

Lemma reload_restores_state_from_url_witness :
  initializeApp json_parse json_greater_than_zero iso_Date_new page_querySelector
    station_service 1 fresh_state ∅ (page_url zoomed_page) =
  Some (Started (page_state zoomed_page) true) /\
  initializeApp json_parse json_greater_than_zero iso_Date_new page_querySelector
    station_service 1 fresh_state ∅ (page_url quoted_page) =
  Some (Failed (page_state quoted_page) DOMException).
Proof.
  split.
  - destruct (reload_restores_state_from_url iso_Date_new iso_toISOString json_parse
                json_greater_than_zero page_querySelector station_service 1
                (page_requests stations_query [] 0 1)
                (page_state zoomed_page) fresh_state ∅ (page_url zoomed_page))
      as [Haccepted _].
    + apply zoomed_page_known.
    + apply zoomed_page_separable.
    + apply zoomed_page_separable.
    + apply zoomed_page_encodable.
    + vm_compute. reflexivity.
    + apply station_service_fetch.
    + apply Haccepted. rewrite zoomed_page_state. exact I.
  - destruct (reload_restores_state_from_url iso_Date_new iso_toISOString json_parse
                json_greater_than_zero page_querySelector station_service 1
                (page_requests stations_query [] 0 1)
                (page_state quoted_page) fresh_state ∅ (page_url quoted_page))
      as [_ Hrejected].
    + apply quoted_page_known.
    + apply quoted_page_known.
    + apply quoted_page_known.
    + apply quoted_page_known.
    + vm_compute. reflexivity.
    + apply station_service_fetch.
    + apply Hrejected. vm_compute. reflexivity.
Defined.

Lemma reload_restores_state_from_storage_witness :
  initializeApp json_parse json_greater_than_zero iso_Date_new page_querySelector
    station_service 1 fresh_state (page_localStorage zoomed_page) ∅ =
  Some (Started (page_state zoomed_page) true) /\
  initializeApp json_parse json_greater_than_zero iso_Date_new page_querySelector
    station_service 1 fresh_state (page_localStorage quoted_page) ∅ =
  Some (Failed (page_state quoted_page) DOMException).
Proof.
  split.
  - destruct (reload_restores_state_from_storage iso_Date_new iso_toISOString json_stringify
                json_parse json_greater_than_zero page_querySelector station_service 1
                (page_requests stations_query [] 0 1) zoomed_page fresh_state ∅)
      as [Haccepted _].
    + apply zoomed_page_known.
    + split; [vm_compute; discriminate|vm_compute; reflexivity].
    + split; [vm_compute; discriminate|vm_compute; reflexivity].
    + apply zoomed_page_encodable.
    + repeat split; vm_compute; reflexivity.
    + vm_compute. reflexivity.
    + apply station_service_fetch.
    + apply Haccepted. rewrite zoomed_page_state. exact I.
  - destruct (reload_restores_state_from_storage iso_Date_new iso_toISOString json_stringify
                json_parse json_greater_than_zero page_querySelector station_service 1
                (page_requests stations_query [] 0 1) quoted_page fresh_state ∅)
      as [_ Hrejected].
    + apply quoted_page_known.
    + split; [vm_compute; discriminate|vm_compute; reflexivity].
    + split; [vm_compute; discriminate|vm_compute; reflexivity].
    + apply quoted_page_known.
    + repeat split; vm_compute; reflexivity.
    + vm_compute. reflexivity.
    + apply station_service_fetch.
    + apply Hrejected. vm_compute. reflexivity.
Defined.

Lemma initializeApp_prefers_url_witness :
  exists st,
    initializeApp json_parse json_greater_than_zero iso_Date_new page_querySelector
      station_service 1 fresh_state (page_localStorage zoomed_page)
      {[ "stations" := "b2,zz,a1,b2" ]} =
    Some (Started st (0 <? length (selectedStations st))) /\
    initializeApp json_parse json_greater_than_zero iso_Date_new page_querySelector
      station_service 1 fresh_state ∅ {[ "stations" := "b2,zz,a1,b2" ]} =
    Some (Started st (0 <? length (selectedStations st))) /\
    selected_ids st = ["b2"; "a1"; "b2"] /\
    selectedFuelTypes st = ["price_diesel"; "price_super"; "price_super_e10"] /\
    selectedTimeRange st = RangeName "all".
Proof.
  destruct (initializeApp_prefers_url iso_Date_new json_parse json_greater_than_zero
              page_querySelector station_service 1 (page_requests stations_query [] 0 1)
              [station_A; station_B] fresh_state ∅ (page_localStorage zoomed_page)
              {[ "stations" := "b2,zz,a1,b2" ]})
    as (Hsame & st & Haccepted & _ & _ & [Hids _] & Hfuels & _ & Htime).
  - vm_compute. reflexivity.
  - exists "stations"%string, "b2,zz,a1,b2"%string.
    split; [constructor|]. split; [vm_compute; reflexivity|discriminate].
  - assert (Hall : selectedTimeRange st = RangeName "all").
    { apply Htime. left. vm_compute. reflexivity. }
    assert (Hstarted : radio_selector_accepted page_querySelector (selectedTimeRange st)).
    { rewrite Hall. now exists true. }
    exists st. split_and!; [|now apply Haccepted|exact Hids|now apply Hfuels|exact Hall].
    rewrite Hsame. now apply Haccepted.
Defined.

(** The claim C8 as the specification words it fails: the selection is
    restored from the URL as the URL names it, so that a URL that names a
    station twice gives a selection that holds it twice, and one removal
    then takes both entries away. *)
Lemma url_selects_a_station_twice :
  exists st,
    initializeApp json_parse json_greater_than_zero iso_Date_new page_querySelector
      station_service 1 fresh_state ∅ {[ "stations" := "b2,b2" ]} =
    Some (Started st true) /\
    selectedStations st = [station_B; station_B] /\
    ~ NoDup (selected_ids st) /\
    selectedStations (removeStation "b2" st) = [].
Proof.
  eexists. split; [vm_compute; reflexivity|]. split; [reflexivity|]. split; [|reflexivity].
  cbn. intros Hnd. apply NoDup_cons in Hnd as [Hin _]. apply Hin. constructor.
Qed.

Lemma initializeApp_without_url_witness :
  initializeApp json_parse json_greater_than_zero iso_Date_new page_querySelector
    station_service 1 fresh_state ∅ ∅ =
  Some (Started {| allStations := [station_A; station_B]; selectedStations := [];
                   selectedFuelTypes := fuel_key <$> FUEL_TYPE_CONFIG;
                   selectedTimeRange := RangeName "all" |} false).
Proof.
  apply (initializeApp_without_url iso_Date_new json_parse json_greater_than_zero
           page_querySelector station_service 1 (page_requests stations_query [] 0 1)
           fresh_state ∅ ∅); vm_compute; reflexivity.
Defined.

Lemma example_events_readable : Forall (zoom_readable iso_Date_new) example_events.
Proof. repeat constructor; vm_compute; reflexivity. Qed.

Lemma handlers_keep_page_in_sync_witness :
  url_in_sync iso_toISOString zoomed_page.
Proof.
  apply (handlers_keep_page_in_sync iso_toISOString iso_Date_new json_stringify
           example_events fresh_page I example_events_readable)
    with (es1 := removelast example_events) (e := RemoveClick "b2").
  - reflexivity.
  - exact I.
Defined.

Lemma handleResetZoom_leaves_url_witness :
  (let result := Handlers.handleResetZoom iso_toISOString iso_Date_new None zoomed_page in
   selectedTimeRange (page_state result.1) = RangeName "all" /\
   page_url result.1 !! "time" =
     Some "2024-03-01T12:00:00.000Z;2024-03-02T12:00:00.000Z"%string /\
   initializeApp json_parse json_greater_than_zero iso_Date_new page_querySelector
     station_service 1 fresh_state (page_localStorage result.1) (page_url result.1) =
   Some (Started (page_state zoomed_page) true)) /\
  (let result := Handlers.handleResetZoom iso_toISOString iso_Date_new
                   (Some calling_chart) zoomed_page in
   selectedTimeRange (page_state result.1) =
     RangeObject (DateValue 1709251200000) (DateValue 1709424000000) /\
   page_url result.1 !! "time" =
     Some "2024-03-01T00:00:00.000Z;2024-03-03T00:00:00.000Z"%string).
Proof.
  split.
  - destruct (handleResetZoom_leaves_url iso_toISOString iso_Date_new zoomed_page
                1709294400000 1709380800000 None) as [Hquiet _].
    + now rewrite zoomed_page_state.
    + vm_compute. reflexivity.
    + destruct (Hquiet eq_refl) as (_ & Hall & _ & _ & Htime & _ & Hreload).
      split_and!; [exact Hall|exact Htime|].
      apply (Hreload json_parse json_greater_than_zero page_querySelector station_service 1
               (page_requests stations_query [] 0 1) fresh_state).
      * apply zoomed_page_known.
      * apply zoomed_page_separable.
      * apply zoomed_page_separable.
      * apply zoomed_page_encodable.
      * apply station_service_fetch.
  - destruct (handleResetZoom_leaves_url iso_toISOString iso_Date_new zoomed_page
                1709294400000 1709380800000 (Some calling_chart)) as [_ Hcalls].
    + now rewrite zoomed_page_state.
    + vm_compute. reflexivity.
    + destruct (Hcalls (Some "2024-03-01T00:00:00.000Z"%string)
                  (Some "2024-03-03T00:00:00.000Z"%string)
                  1709251200000%Z 1709424000000%Z)
        as (_ & Hrange & _ & Htime & _); try (vm_compute; reflexivity).
      split; [exact Hrange|exact Htime].
Defined.

(** ** When the pattern analysis throws *)

Section PatternErrors.

Variables getDay getHours : string -> option nat.

Lemma analyze_row_lengths fuelKey stats row stats' :
  analyze_row getDay getHours fuelKey stats row = Returns stats' ->
  length stats'.1 = length stats.1 /\ length stats'.2 = length stats.2.
Proof.
  destruct stats as [dailyStats hourlyStats]. unfold analyze_row.
  destruct (row_get row fuelKey) as [price|]; [|intros [= <-]; now split].
  destruct (truthy price); [|intros [= <-]; now split].
  destruct (getDay _) as [d|]; [|discriminate].
  destruct (getHours _) as [h|]; [|discriminate].
  destruct (_ && _); [|discriminate].
  intros [= <-]. cbn [fst snd]. now rewrite !length_alter.
Qed.

Lemma analyze_row_throws fuelKey dailyStats hourlyStats row :
  length dailyStats = 7 -> length hourlyStats = 24 ->
  (exists e, analyze_row getDay getHours fuelKey (dailyStats, hourlyStats) row = Throws e) <->
  undated_row getDay getHours fuelKey row.
Proof.
  intros Hd Hh. unfold analyze_row, undated_row. rewrite Hd, Hh.
  destruct (row_get row fuelKey) as [price|].
  2:{ split; [intros [e [=]]|intros (price & Hp & _); discriminate]. }
  destruct (truthy price) eqn:Htruthy.
  2:{ split; [intros [e [=]]|intros (price' & Hp & Ht & _); congruence]. }
  destruct (getDay _) as [d|] eqn:Hday.
  2:{ split; [|now eexists]. intros _. exists price. split_and!; try reflexivity; try assumption.
      intros (d & h & Hd' & _). discriminate. }
  destruct (getHours _) as [h|] eqn:Hhour.
  2:{ split; [|now eexists]. intros _. exists price. split_and!; try reflexivity; try assumption.
      intros (d' & h & _ & _ & Hh' & _). discriminate. }
  destruct ((d <? 7) && (h <? 24)) eqn:Hrange.
  - apply andb_true_iff in Hrange as [Hd' Hh']. apply Nat.ltb_lt in Hd', Hh'.
    split; [intros [e [=]]|]. intros (price' & _ & _ & Hbad). exfalso. apply Hbad.
    now exists d, h.
  - split; [|now eexists]. intros _. exists price. split_and!; try reflexivity; try assumption.
    intros (d' & h' & Hd1 & Hd' & Hh1 & Hh'). injection Hd1 as <-. injection Hh1 as <-.
    apply Nat.ltb_lt in Hd', Hh'. rewrite Hd', Hh' in Hrange. discriminate.
Qed.

Lemma analyze_row_error fuelKey stats row e :
  analyze_row getDay getHours fuelKey stats row = Throws e -> e = TypeError.
Proof.
  destruct stats as [dailyStats hourlyStats]. unfold analyze_row.
  repeat (case_match; try discriminate); congruence.
Qed.

Lemma forEach_row_throws fuelKey rows : forall dailyStats hourlyStats,
  length dailyStats = 7 -> length hourlyStats = 24 ->
  (exists e, forEach_row getDay getHours fuelKey (dailyStats, hourlyStats) rows = Throws e) <->
  exists row, row ∈ rows /\ undated_row getDay getHours fuelKey row.
Proof.
  induction rows as [|row rows IH]; intros dailyStats hourlyStats Hd Hh.
  - cbn [forEach_row]. split; [intros [e [=]]|].
    intros (row & Hin & _). now apply elem_of_nil in Hin.
  - cbn [forEach_row].
    destruct (analyze_row getDay getHours fuelKey (dailyStats, hourlyStats) row)
      as [[dailyStats' hourlyStats']|e] eqn:Hrow; cbn [bind_outcome].
    + pose proof (analyze_row_lengths _ _ _ _ Hrow) as [Hd' Hh']. cbn [fst snd] in Hd', Hh'.
      rewrite IH by congruence. split.
      * intros (row' & Hin & Hbad). exists row'. split; [now constructor|exact Hbad].
      * intros (row' & Hin & Hbad). apply elem_of_cons in Hin as [->|Hin].
        -- apply (analyze_row_throws fuelKey dailyStats hourlyStats row Hd Hh) in Hbad
             as [e He]. congruence.
        -- now exists row'.
    + split; [|now eexists]. intros _. exists row. split; [constructor|].
      apply (analyze_row_throws fuelKey dailyStats hourlyStats row Hd Hh). now exists e.
Qed.

Lemma forEach_row_error fuelKey rows : forall stats e,
  forEach_row getDay getHours fuelKey stats rows = Throws e -> e = TypeError.
Proof.
  induction rows as [|row rows IH]; intros stats e; cbn [forEach_row]; [discriminate|].
  destruct (analyze_row getDay getHours fuelKey stats row) as [stats'|e'] eqn:Hrow;
    cbn [bind_outcome].
  - apply IH.
  - intros [= <-]. eapply analyze_row_error, Hrow.
Qed.

Lemma analyzePricePatterns_TypeError_iff (priceData : list PriceRow) (fuelKey : string) :
  analyzePricePatterns getDay getHours priceData fuelKey = Throws TypeError <->
  exists row, row ∈ priceData /\ undated_row getDay getHours fuelKey row.
Proof.
  rewrite <- (forEach_row_throws fuelKey priceData
                (replicate 7 {| sum := 0; count := 0 |})
                (replicate 24 {| sum := 0; count := 0 |}))
    by apply length_replicate.
  unfold analyzePricePatterns.
  destruct (forEach_row _ _ _ _ priceData) as [[dailyStats hourlyStats]|e] eqn:Hrows;
    cbn [bind_outcome].
  - split; [|intros [e [=]]].
    destruct (extremes (average <$> dailyStats)), (extremes (average <$> hourlyStats)).
    destruct (_ || _); discriminate.
  - apply forEach_row_error in Hrows as ->. split; [now eexists|reflexivity].
Qed.

Lemma analyzePricePatterns_outcome (priceData : list PriceRow) (fuelKey : string) :
  analyzePricePatterns getDay getHours priceData fuelKey = Throws TypeError \/
  exists result, analyzePricePatterns getDay getHours priceData fuelKey = Returns result.
Proof.
  unfold analyzePricePatterns.
  destruct (forEach_row _ _ _ _ priceData) as [[dailyStats hourlyStats]|e] eqn:Hrows;
    cbn [bind_outcome].
  - right. destruct (extremes (average <$> dailyStats)), (extremes (average <$> hourlyStats)).
    destruct (_ || _); eexists; reflexivity.
  - left. now apply forEach_row_error in Hrows as ->.
Qed.

(** X14.  [analyzePricePatterns] either returns or throws a [TypeError],
    and it throws exactly when some row with a price for the fuel has a
    timestamp that gives no weekday or no hour, as an unreadable date does.
    Rows without a price for the fuel are never looked at, whatever their
    timestamp. *)
Theorem analyzePricePatterns_throws (priceData : list PriceRow) (fuelKey : string) :
  (analyzePricePatterns getDay getHours priceData fuelKey = Throws TypeError <->
   exists row, row ∈ priceData /\ undated_row getDay getHours fuelKey row) /\
  (analyzePricePatterns getDay getHours priceData fuelKey = Throws TypeError \/
   exists result, analyzePricePatterns getDay getHours priceData fuelKey = Returns result).
Proof.
  split; [apply analyzePricePatterns_TypeError_iff|apply analyzePricePatterns_outcome].
Qed.

End PatternErrors.

Lemma analyzePricePatterns_throws_witness :
  analyzePricePatterns example_getDay example_getHours
    (example_week ++ [diesel_row "soon" (Some 1.5%float)]) "price_diesel" = Throws TypeError.
Proof.
  apply (analyzePricePatterns_throws example_getDay example_getHours).
  exists (diesel_row "soon" (Some 1.5%float)). split.
  - apply elem_of_app. right. constructor.
  - exists 1.5%float. split_and!; [reflexivity..|].
    intros (d & h & Hd & _). vm_compute in Hd. discriminate.
Defined.

(** ** The recommendation and the refresh *)

Lemma findCheapest_has_station (sda : list StationData) (fuelKey : string) (c : Cheapest) :
  findCheapest sda fuelKey = Some c -> exists s, cheapest_station c = Some s.
Proof.
  unfold findCheapest.
  destruct (findCheapest_scan sda fuelKey) as [[Hinit _]|(i & sd & p & _ & _ & Hc & _)].
  - rewrite Hinit. cbn. discriminate.
  - rewrite Hc. cbn [cheapest_price]. destruct (PrimFloat.eqb p infinity); [discriminate|].
    intros [= <-]. now eexists.
Qed.

Lemma cheapest_lines_spec (fuels : list FuelType) (sda : list StationData) :
  exists lines,
    cheapest_lines fuels sda = Returns lines /\
    line_fuel <$> lines = List.filter (has_price sda) fuels /\
    forall line, line ∈ lines ->
      findCheapest sda (fuel_key (line_fuel line)) =
      Some {| cheapest_station := Some (line_station line);
              cheapest_price := line_price line |}.
Proof.
  induction fuels as [|fuel fuels (lines & IH & Hfuels & Hlines)].
  - exists []. split_and!; [reflexivity..|]. intros line H. now apply elem_of_nil in H.
  - cbn [cheapest_lines List.filter]. unfold has_price at 1.
    destruct (findCheapest sda (fuel_key fuel)) as [c|] eqn:Hc.
    + destruct (findCheapest_has_station _ _ _ Hc) as [s Hs]. rewrite Hs, IH.
      cbn [bind_outcome]. eexists. split; [reflexivity|]. rewrite fmap_cons.
      cbn [line_fuel]. split; [now rewrite Hfuels|].
      intros line Hin. apply elem_of_cons in Hin as [->|Hin]; [|now apply Hlines].
      cbn [line_fuel line_station line_price]. rewrite Hc, <- Hs. now destruct c.
    + exists lines. now split_and!.
Qed.

Lemma all_empty_forallb (sda : list StationData) :
  forallb (fun sd => length (data sd) =? 0) sda = true <->
  forall sd, sd ∈ sda -> data sd = [].
Proof.
  rewrite List.forallb_forall. split.
  - intros H sd Hin. apply list_elem_of_In, H, Nat.eqb_eq in Hin.
    now apply length_zero_iff_nil.
  - intros H sd Hin. apply list_elem_of_In, H in Hin. now rewrite Hin.
Qed.

Section RefreshFacts.

Variables getDay getHours : string -> option nat.
Variable Date_new : string -> Date.
Variable daysBeforeNow : nat -> Date.

Lemma fuel_patterns_spec (fuels : list FuelType) (sd : StationData) :
  (forall fuel, fuel ∈ fuels -> dated getDay getHours (fuel_key fuel) (data sd) 7 24) ->
  fuel_patterns getDay getHours fuels (data sd) =
  Returns (omap (pattern_of getDay getHours sd) fuels).
Proof.
  induction fuels as [|fuel fuels IH]; intros Hdated; [reflexivity|].
  cbn [fuel_patterns omap list_omap]. unfold pattern_of at 1.
  rewrite IH by (intros f Hf; apply Hdated; now constructor).
  destruct (analyzePricePatterns_outcome getDay getHours (data sd) (fuel_key fuel))
    as [Hthrows|[result Hresult]].
  - exfalso. apply analyzePricePatterns_TypeError_iff in Hthrows
      as (row & Hin & price & Hprice & Htruthy & Hbad).
    apply Hbad. destruct (Hdated fuel ltac:(constructor) row price Hin Hprice Htruthy)
      as (d & h & ?). now exists d, h.
  - rewrite Hresult. cbn [bind_outcome]. now destruct result.
Qed.

Lemma append_analyses_spec (fuels : list FuelType) (sda : list StationData) :
  forall container,
  analysable getDay getHours fuels sda ->
  append_analyses getDay getHours fuels sda container =
  (container ++ omap (block_of getDay getHours fuels) sda, Returns tt).
Proof.
  induction sda as [|sd sda IH]; intros container Hdated.
  - cbn. now rewrite app_nil_r.
  - assert (Hrest : analysable getDay getHours fuels sda).
    { intros sd' fuel Hin. apply Hdated. now constructor. }
    cbn [append_analyses omap list_omap]. unfold block_of at 1.
    destruct (length (data sd) <? 50) eqn:Hlen; [now apply IH|].
    apply Nat.ltb_ge in Hlen.
    rewrite fuel_patterns_spec
      by (intros fuel Hfuel; apply Hdated; [constructor|exact Hlen|exact Hfuel]).
    rewrite IH by exact Hrest.
    destruct (omap (pattern_of getDay getHours sd) fuels); [reflexivity|].
    cbn [length Nat.ltb Nat.leb]. now rewrite <- app_assoc.
Qed.

Lemma fuel_patterns_throws (fuels : list FuelType) (rows : list PriceRow) :
  (exists fuel row, fuel ∈ fuels /\ row ∈ rows /\
                    undated_row getDay getHours (fuel_key fuel) row) ->
  fuel_patterns getDay getHours fuels rows = Throws TypeError.
Proof.
  induction fuels as [|fuel fuels IH]; intros (bad & row & Hbad & Hrow & Hundated).
  - now apply elem_of_nil in Hbad.
  - cbn [fuel_patterns].
    destruct (analyzePricePatterns_outcome getDay getHours rows (fuel_key fuel))
      as [->|[result Hresult]]; [reflexivity|].
    rewrite Hresult. cbn [bind_outcome]. rewrite IH; [reflexivity|].
    apply elem_of_cons in Hbad as [->|Hbad]; [|now exists bad, row].
    assert (Hthrows : analyzePricePatterns getDay getHours rows (fuel_key fuel) =
                      Throws TypeError)
      by (apply analyzePricePatterns_TypeError_iff; now exists row).
    congruence.
Qed.

Lemma fuel_patterns_error (fuels : list FuelType) (rows : list PriceRow) (e : js_error) :
  fuel_patterns getDay getHours fuels rows = Throws e -> e = TypeError.
Proof.
  induction fuels as [|fuel fuels IH]; cbn [fuel_patterns]; [discriminate|].
  destruct (analyzePricePatterns_outcome getDay getHours rows (fuel_key fuel))
    as [->|[result ->]]; cbn [bind_outcome]; [congruence|].
  destruct (fuel_patterns getDay getHours fuels rows); cbn [bind_outcome]; [discriminate|].
  intros [= <-]. now apply IH.
Qed.

Lemma append_analyses_throws (fuels : list FuelType) (sda : list StationData) :
  forall container,
  (exists sd fuel row, sd ∈ sda /\ 50 <= length (data sd) /\ fuel ∈ fuels /\
                       row ∈ data sd /\ undated_row getDay getHours (fuel_key fuel) row) ->
  (append_analyses getDay getHours fuels sda container).2 = Throws TypeError.
Proof.
  induction sda as [|sd sda IH];
    intros container (bad & fuel & row & Hbad & Hlen & Hfuel & Hrow & Hundated).
  - now apply elem_of_nil in Hbad.
  - cbn [append_analyses].
    destruct (length (data sd) <? 50) eqn:Hshort.
    + apply Nat.ltb_lt in Hshort. apply IH.
      apply elem_of_cons in Hbad as [->|Hbad]; [lia|]. now exists bad, fuel, row.
    + destruct (fuel_patterns getDay getHours fuels (data sd)) as [found|e] eqn:Hfound.
      * apply IH. apply elem_of_cons in Hbad as [->|Hbad]; [|now exists bad, fuel, row].
        rewrite fuel_patterns_throws in Hfound; [discriminate|]. now exists fuel, row.
      * cbn [snd]. f_equal. eapply fuel_patterns_error, Hfound.
Qed.

(** X15.  What [analyzeMultiStationPrices] writes as recommendation.  If no
    station has a row, it says that there are no price data and leaves the
    pattern blocks as they were.  Otherwise building the lines never
    throws: there is one line for each active fuel type, in the order of
    the configuration, for which [findCheapest] finds a station, it shows
    that station and its price, and without any such line the text says
    that no current prices were found.  The chart is not touched. *)
Theorem analyzeMultiStationPrices_recommendation (st : State) (sda : list StationData)
    (view : View) :
  let result := analyzeMultiStationPrices getDay getHours st sda view in
  ((forall sd, sd ∈ sda -> data sd = []) ->
   result = (set_recommendation NoPriceData view, Returns tt)) /\
  ((exists sd, sd ∈ sda /\ data sd <> []) ->
   exists lines,
     recommendation result.1 =
       (if 0 <? length lines then CheapestPrices lines else NoCurrentPrices) /\
     line_fuel <$> lines = List.filter (has_price sda) (activeFuelTypes st) /\
     (forall line, line ∈ lines ->
        findCheapest sda (fuel_key (line_fuel line)) =
        Some {| cheapest_station := Some (line_station line);
                cheapest_price := line_price line |}) /\
     priceChart result.1 = priceChart view).
Proof.
  cbv zeta. unfold analyzeMultiStationPrices. split.
  - intros Hempty. apply all_empty_forallb in Hempty. rewrite Hempty.
    now rewrite orb_true_r.
  - intros (sd & Hin & Hdata).
    assert (Hsome : (length sda =? 0) || forallb (fun sd => length (data sd) =? 0) sda = false).
    { apply orb_false_iff. split.
      - destruct sda; [now apply elem_of_nil in Hin|reflexivity].
      - apply not_true_iff_false. intros Hall. apply Hdata.
        now apply (proj1 (all_empty_forallb sda) Hall). }
    rewrite Hsome.
    destruct (cheapest_lines_spec (activeFuelTypes st) sda) as (lines & -> & Hfuels & Hlines).
    exists lines. destruct (append_analyses _ _ _ _ _) as [blocks out]. cbn [fst].
    now split_and!.
Qed.

(** X16.  The pattern blocks of [analyzeMultiStationPrices].  A station
    with fewer than 50 rows is never analysed.  If the timestamps of the
    priced rows of the other stations can be read, the call returns and
    the blocks are, in the order of the stations, those of the stations
    with at least 50 rows and a pattern for at least one active fuel type,
    each with one paragraph per such fuel type.  If instead a station with
    at least 50 rows has a row with a price for an active fuel type and a
    timestamp that cannot be read, the call throws a [TypeError]. *)
Theorem analyzeMultiStationPrices_patterns (st : State) (sda : list StationData)
    (view : View) :
  (exists sd, sd ∈ sda /\ data sd <> []) ->
  let result := analyzeMultiStationPrices getDay getHours st sda view in
  (analysable getDay getHours (activeFuelTypes st) sda ->
   result.2 = Returns tt /\
   pricePatternAnalysis result.1 =
     omap (block_of getDay getHours (activeFuelTypes st)) sda /\
   (forall block, block ∈ pricePatternAnalysis result.1 ->
      exists sd, sd ∈ sda /\ analysis_station block = station sd /\
                 50 <= length (data sd) /\ analysis_fuels block <> [] /\
                 forall fuel patterns, (fuel, patterns) ∈ analysis_fuels block <->
                   fuel ∈ activeFuelTypes st /\
                   analyzePricePatterns getDay getHours (data sd) (fuel_key fuel) =
                     Returns (Some patterns))) /\
  (forall sd fuel row,
     sd ∈ sda -> 50 <= length (data sd) -> fuel ∈ activeFuelTypes st ->
     row ∈ data sd -> undated_row getDay getHours (fuel_key fuel) row ->
     result.2 = Throws TypeError).
Proof.
  intros (sd0 & Hin0 & Hdata0). cbv zeta. unfold analyzeMultiStationPrices.
  assert (Hsome : (length sda =? 0) || forallb (fun sd => length (data sd) =? 0) sda = false).
  { apply orb_false_iff. split.
    - destruct sda; [now apply elem_of_nil in Hin0|reflexivity].
    - apply not_true_iff_false. intros Hall. apply Hdata0.
      now apply (proj1 (all_empty_forallb sda) Hall). }
  rewrite Hsome.
  destruct (cheapest_lines_spec (activeFuelTypes st) sda) as (lines & -> & _).
  split.
  - intros Hdated. rewrite append_analyses_spec by exact Hdated. cbn [fst snd app].
    cbn [pricePatternAnalysis set_pricePatternAnalysis].
    split_and!; [reflexivity..|].
    intros block Hblock. apply list_elem_of_omap in Hblock as (sd & Hin & Hblock).
    exists sd. unfold block_of in Hblock.
    destruct (length (data sd) <? 50) eqn:Hlen; [discriminate|]. apply Nat.ltb_ge in Hlen.
    destruct (omap (pattern_of getDay getHours sd) (activeFuelTypes st))
      as [|entry found] eqn:Hfound; [discriminate|].
    injection Hblock as <-. cbn [analysis_station analysis_fuels].
    split_and!; [exact Hin|reflexivity|exact Hlen|discriminate|].
    intros fuel patterns. rewrite <- Hfound, list_elem_of_omap. unfold pattern_of. split.
    + intros (fuel' & Hfuel & Hpattern).
      destruct (analyzePricePatterns getDay getHours (data sd) (fuel_key fuel'))
        as [[patterns'|]|] eqn:Hanalysis; try discriminate.
      injection Hpattern as -> ->. now split.
    + intros [Hfuel Hanalysis]. exists fuel. split; [exact Hfuel|]. now rewrite Hanalysis.
  - intros sd fuel row Hsd Hlen Hfuel Hrow Hbad.
    pose proof (append_analyses_throws (activeFuelTypes st) sda []
                  ltac:(now exists sd, fuel, row)) as Hthrows.
    destruct (append_analyses _ _ _ _ _) as [blocks out]. exact Hthrows.
Qed.

Lemma fuel_patterns_throws_inv (fuels : list FuelType) (rows : list PriceRow) (e : js_error) :
  fuel_patterns getDay getHours fuels rows = Throws e ->
  exists fuel row, fuel ∈ fuels /\ row ∈ rows /\
                   undated_row getDay getHours (fuel_key fuel) row.
Proof.
  induction fuels as [|fuel fuels IH]; cbn [fuel_patterns]; [discriminate|].
  destruct (analyzePricePatterns_outcome getDay getHours rows (fuel_key fuel))
    as [Hthrows|[result ->]]; cbn [bind_outcome].
  - intros _. apply analyzePricePatterns_TypeError_iff in Hthrows as (row & Hrow & Hbad).
    exists fuel, row. split; [constructor|now split].
  - destruct (fuel_patterns getDay getHours fuels rows) as [found|e'];
      cbn [bind_outcome]; [discriminate|].
    intros [= <-]. destruct (IH eq_refl) as (bad & row & Hin & Hrow & Hbad).
    exists bad, row. split; [now constructor|now split].
Qed.

Lemma append_analyses_throws_inv (fuels : list FuelType) (sda : list StationData) :
  forall container e,
  (append_analyses getDay getHours fuels sda container).2 = Throws e ->
  exists sd fuel row, sd ∈ sda /\ 50 <= length (data sd) /\ fuel ∈ fuels /\
                      row ∈ data sd /\ undated_row getDay getHours (fuel_key fuel) row.
Proof.
  induction sda as [|sd sda IH]; intros container e; cbn [append_analyses]; [discriminate|].
  destruct (length (data sd) <? 50) eqn:Hlen.
  - intros H. destruct (IH _ _ H) as (bad & fuel & row & Hin & ?).
    exists bad, fuel, row. split; [now constructor|assumption].
  - apply Nat.ltb_ge in Hlen.
    destruct (fuel_patterns getDay getHours fuels (data sd)) as [found|e'] eqn:Hfound.
    + intros H. destruct (IH _ _ H) as (bad & fuel & row & Hin & ?).
      exists bad, fuel, row. split; [now constructor|assumption].
    + intros _. apply fuel_patterns_throws_inv in Hfound as (fuel & row & Hfuel & Hrow & Hbad).
      exists sd, fuel, row. split; [constructor|now split_and!].
Qed.

(** What [analyzeMultiStationPrices] writes depends on the active fuel
    types and on the histories, and of the page only on the pattern blocks
    it may leave in place. *)
Lemma analyzeMultiStationPrices_independent (st st' : State) (sda : list StationData)
    (view view' : View) :
  activeFuelTypes st = activeFuelTypes st' ->
  pricePatternAnalysis view = pricePatternAnalysis view' ->
  let result := analyzeMultiStationPrices getDay getHours st sda view in
  let result' := analyzeMultiStationPrices getDay getHours st' sda view' in
  recommendation result.1 = recommendation result'.1 /\
  pricePatternAnalysis result.1 = pricePatternAnalysis result'.1 /\
  priceChart result.1 = priceChart view /\
  result.2 = result'.2.
Proof.
  intros Hfuels Hblocks. cbv zeta. unfold analyzeMultiStationPrices. rewrite <- Hfuels.
  destruct (_ || _); [now split_and!|].
  destruct (cheapest_lines_spec (activeFuelTypes st) sda) as (lines & -> & _).
  destruct (append_analyses _ _ _ _ _) as [blocks out]. now split_and!.
Qed.

Lemma analyzeMultiStationPrices_text (st : State) (sda : list StationData) (view : View) :
  recommendation view = Loading ->
  let result := analyzeMultiStationPrices getDay getHours st sda view in
  (exists e, result.2 = Throws e) \/
  (result.2 = Returns tt /\ recommendation result.1 <> LoadingFailed).
Proof.
  intros Hloading. cbv zeta. unfold analyzeMultiStationPrices.
  destruct (_ || _); [right; split; [reflexivity|discriminate]|].
  destruct (cheapest_lines_spec (activeFuelTypes st) sda) as (lines & -> & _).
  destruct (append_analyses _ _ _ _ _) as [blocks [[]|e]]; cbn [fst snd]; [right|left].
  - split; [reflexivity|].
    unfold set_pricePatternAnalysis, set_recommendation. cbn [recommendation].
    destruct (0 <? length lines); discriminate.
  - now exists e.
Qed.

(** X17.  [updateChartAndAnalysis].  With no station selected nothing is
    fetched: the chart is removed and the prompt is shown, whatever the
    service would answer.  Otherwise the chart is drawn from the histories
    as [filterDataByTimeRange] leaves them, while the recommendation and
    the pattern blocks are computed from the unfiltered histories, so that
    another time range changes neither.  The text that the price data
    could not be loaded appears exactly when a station with at least 50
    rows has a row with a price for an active fuel type and a timestamp
    that cannot be read; failed fetches never produce it, and when every
    fetch failed the page says that there are no price data. *)
Theorem updateChartAndAnalysis_view (fetch : service PriceRow) (fuel : nat) (since : string)
    (st : State) (view : View) :
  (selectedStations st = [] ->
   forall (fetch' : service PriceRow) fuel',
     updateChartAndAnalysis getDay getHours Date_new daysBeforeNow fetch' fuel' since st view =
     Some {| recommendation := Prompt;
             pricePatternAnalysis := pricePatternAnalysis view;
             priceChart := None |}) /\
  (forall sda,
     selectedStations st <> [] ->
     stationDataArray fetch fuel since st = Some sda ->
     exists view',
       updateChartAndAnalysis getDay getHours Date_new daysBeforeNow fetch fuel since st view =
         Some view' /\
       priceChart view' =
         Some (renderMultiStationChart st
                 ((fun sd => {| station := station sd;
                                data := filterDataByTimeRange Date_new daysBeforeNow (data sd)
                                          (selectedTimeRange st) |}) <$> sda)) /\
       (recommendation view' = LoadingFailed <->
        exists sd fuel row,
          sd ∈ sda /\ 50 <= length (data sd) /\ fuel ∈ activeFuelTypes st /\
          row ∈ data sd /\ undated_row getDay getHours (fuel_key fuel) row) /\
       ((forall sd, sd ∈ sda -> data sd = []) ->
        recommendation view' = NoPriceData /\
        pricePatternAnalysis view' = pricePatternAnalysis view) /\
       (forall range, exists view'',
          updateChartAndAnalysis getDay getHours Date_new daysBeforeNow fetch fuel since
            (set_selectedTimeRange range st) view = Some view'' /\
          recommendation view'' = recommendation view' /\
          pricePatternAnalysis view'' = pricePatternAnalysis view')).
Proof.
  split.
  - intros Hnone fetch' fuel'. unfold updateChartAndAnalysis. now rewrite Hnone.
  - intros sda Hsome Hsda. unfold updateChartAndAnalysis.
    assert (Hlen : (length (selectedStations st) =? 0) = false)
      by (destruct (selectedStations st); [done|reflexivity]).
    rewrite Hlen, Hsda. cbn [mbind option_bind].
    set (filtered := _ <$> sda).
    set (view0 := {| recommendation := Loading;
                     pricePatternAnalysis := pricePatternAnalysis view;
                     priceChart := Some (renderMultiStationChart st filtered) |}).
    pose proof (analyzeMultiStationPrices_independent st st sda view0 view0 eq_refl eq_refl)
      as (_ & _ & Hchart & _).
    pose proof (analyzeMultiStationPrices_text st sda view0 eq_refl) as Htext.
    cbv zeta in Hchart, Htext.
    assert (Hrange : forall range, exists view'',
      updateChartAndAnalysis getDay getHours Date_new daysBeforeNow fetch fuel since
        (set_selectedTimeRange range st) view = Some view'' /\
      recommendation view'' =
        recommendation
          match analyzeMultiStationPrices getDay getHours st sda view0 with
          | (v, Returns _) => v
          | (v, Throws _) => set_recommendation LoadingFailed v
          end /\
      pricePatternAnalysis view'' =
        pricePatternAnalysis
          match analyzeMultiStationPrices getDay getHours st sda view0 with
          | (v, Returns _) => v
          | (v, Throws _) => set_recommendation LoadingFailed v
          end).
    { intros range. unfold updateChartAndAnalysis.
      change (selectedStations (set_selectedTimeRange range st)) with (selectedStations st).
      change (stationDataArray fetch fuel since (set_selectedTimeRange range st))
        with (stationDataArray fetch fuel since st).
      rewrite Hlen, Hsda. cbn [mbind option_bind].
      match goal with
      | |- context [analyzeMultiStationPrices _ _ _ _ ?v] => set (view1 := v)
      end.
      pose proof (analyzeMultiStationPrices_independent
                    (set_selectedTimeRange range st) st sda view1 view0 eq_refl eq_refl)
        as (Hrec & Hblocks & _ & Hout).
      cbv zeta in Hrec, Hblocks, Hout.
      destruct (analyzeMultiStationPrices getDay getHours (set_selectedTimeRange range st)
                  sda view1) as [v1 out1].
      destruct (analyzeMultiStationPrices getDay getHours st sda view0) as [v0 out0].
      cbn [fst snd] in Hrec, Hblocks, Hout. subst out1.
      destruct out0; eexists; (split; [reflexivity|]); cbn; now split. }
    destruct (analyzeMultiStationPrices getDay getHours st sda view0) as [v out] eqn:Hresult.
    cbn [fst snd] in Hchart, Htext.
    assert (Hbad : (exists e, out = Throws e) <->
              exists sd fuel row,
                sd ∈ sda /\ 50 <= length (data sd) /\ fuel ∈ activeFuelTypes st /\
                row ∈ data sd /\ undated_row getDay getHours (fuel_key fuel) row).
    { unfold analyzeMultiStationPrices in Hresult.
      destruct (_ || _) eqn:Hempty.
      - injection Hresult as <- <-. split; [intros [e [=]]|].
        intros (sd & _ & _ & Hin & Hlong & _). exfalso.
        apply orb_true_iff in Hempty as [Hnil|Hall].
        + destruct sda; [now apply elem_of_nil in Hin|discriminate].
        + pose proof (proj1 (all_empty_forallb sda) Hall sd Hin) as Hnil.
          rewrite Hnil in Hlong. cbn in Hlong. lia.
      - destruct (cheapest_lines_spec (activeFuelTypes st) sda) as (lines & Hlines & _).
        rewrite Hlines in Hresult.
        destruct (append_analyses getDay getHours (activeFuelTypes st) sda [])
          as [blocks out'] eqn:Happend.
        injection Hresult as <- <-. split.
        + intros [e ->]. apply (append_analyses_throws_inv (activeFuelTypes st) sda [] e).
          now rewrite Happend.
        + intros Hex. exists TypeError.
          pose proof (append_analyses_throws (activeFuelTypes st) sda [] Hex) as H.
          now rewrite Happend in H. }
    destruct out as [[]|e].
    + exists v. split; [reflexivity|]. split; [exact Hchart|]. split_and!.
      * destruct Htext as [[e [=]]|[_ Hne]]. split; [intros H; congruence|].
        intros Hex. apply Hbad in Hex as [e [=]].
      * intros Hempty. unfold analyzeMultiStationPrices in Hresult.
        apply (proj2 (all_empty_forallb sda)) in Hempty.
        rewrite Hempty, orb_true_r in Hresult. injection Hresult as <-. now split.
      * exact Hrange.
    + exists (set_recommendation LoadingFailed v). split; [reflexivity|].
      split; [exact Hchart|]. split_and!.
      * split; [intros _; apply Hbad; now exists e|reflexivity].
      * intros Hempty. unfold analyzeMultiStationPrices in Hresult.
        apply (proj2 (all_empty_forallb sda)) in Hempty.
        rewrite Hempty, orb_true_r in Hresult. discriminate.
      * exact Hrange.
Qed.

End RefreshFacts.

(** ** A zoom onto a label that is no date *)

Section ZoomFacts.

Variable toISOString : Z -> string.
Variable Date_new : string -> Date.
Variable JSON_stringify : list string -> string.

Lemma encode_range_invalid (start end_ : Date) :
  isNaN_Date start = true \/ isNaN_Date end_ = true ->
  encode_range toISOString start end_ = Throws RangeError.
Proof.
  destruct start as [t0|], end_ as [t1|]; cbn; intros [H|H]; try discriminate; reflexivity.
Qed.

Lemma updateUrlWithState_invalid (st : State) (start end_ : Date) :
  selectedTimeRange st = RangeObject start end_ ->
  isNaN_Date start = true \/ isNaN_Date end_ = true ->
  updateUrlWithState toISOString st = Throws RangeError.
Proof.
  intros Hrange Hinvalid. unfold updateUrlWithState.
  now rewrite Hrange, encode_range_invalid.
Qed.

Lemma filter_none {A} (p : A -> bool) (l : list A) :
  (forall x, p x = false) -> List.filter p l = [].
Proof.
  intros H. induction l as [|x l IH]; cbn [List.filter]; [reflexivity|]. now rewrite H.
Qed.

(** X18.  A zoom whose start or end label is missing or is no date.
    [handleZoom] stores the range with the invalid date in the state and
    then throws a [RangeError] before localStorage or the URL is
    written.  With this range the time filter keeps no row.  From then on
    the handlers for adding a station, removing a station and changing the
    fuel types still change the state and localStorage, but throw the same
    error before the URL is written and before the refresh; choosing a
    time range with the radio buttons works and ends this: the handler
    returns and leaves a URL that shows the state, with the chosen range,
    or with the range of the call of [handleZoom] that the plugin makes
    while the zoom is reset, if it makes one, between two labels that are
    dates. *)
Theorem handleZoom_unreadable_label (p : Page) (startDate endDate : option string) :
  isNaN_Date (Date_of Date_new startDate) = true \/
  isNaN_Date (Date_of Date_new endDate) = true ->
  let range := RangeObject (Date_of Date_new startDate) (Date_of Date_new endDate) in
  let result := Handlers.handleZoom toISOString Date_new startDate endDate p in
  result.2 = Throws RangeError /\
  page_state result.1 = set_selectedTimeRange range (page_state p) /\
  page_localStorage result.1 = page_localStorage p /\
  page_url result.1 = page_url p /\
  (forall daysBeforeNow data,
     filterDataByTimeRange Date_new daysBeforeNow data range = []) /\
  (forall e,
     match e with
     | ResultClick s => station_id s ∉ selected_ids (page_state p)
     | RemoveClick _ | FuelTypeChange _ => True
     | _ => False
     end ->
     let next := Handlers.handle toISOString Date_new JSON_stringify e result.1 in
     next.2 = Throws RangeError /\
     page_url next.1 = page_url p /\
     selectedTimeRange (page_state next.1) = range) /\
  (forall value priceChart,
     zoom_readable Date_new (TimeRangeChange value priceChart) ->
     let next := Handlers.handle toISOString Date_new JSON_stringify
                   (TimeRangeChange value priceChart) result.1 in
     next.2 = Returns true /\
     selectedTimeRange (page_state next.1) =
       match zoom_call (TimeRangeChange value priceChart) with
       | Some (startDate, endDate) =>
           RangeObject (Date_of Date_new startDate) (Date_of Date_new endDate)
       | None => RangeName value
       end /\
     url_in_sync toISOString next.1).
Proof.
  intros Hinvalid range result.
  assert (Hresult : result =
            (set_page_state (set_selectedTimeRange range (page_state p)) p,
             Throws RangeError)).
  { unfold result, Handlers.handleZoom, Handlers.steps, handler_bind, assign, save_or_throw.
    cbn [foldr set_page_state page_state page_localStorage].
    unfold saveSelectedTimeRange. cbn [selectedTimeRange set_selectedTimeRange].
    now rewrite encode_range_invalid. }
  rewrite Hresult. cbn [fst snd]. split_and!; try reflexivity.
  - intros daysBeforeNow data. cbn [filterDataByTimeRange]. apply filter_none.
    intros row. cbv zeta.
    destruct (Date_of Date_new startDate), (Date_of Date_new endDate);
      cbn in Hinvalid; destruct Hinvalid as [H|H]; try discriminate;
      destruct (Date_new (last_transmission row));
      cbn [date_leb]; rewrite ?andb_false_r; reflexivity.
  - intros e He.
    assert (Hurl : forall f : State -> State,
              selectedTimeRange (f (set_selectedTimeRange range (page_state p))) = range ->
              forall q, page_state q = f (set_selectedTimeRange range (page_state p)) ->
              Handlers.updateUrlWithState toISOString q = (q, Throws RangeError)).
    { intros f Hf q Hq. unfold Handlers.updateUrlWithState.
      rewrite (updateUrlWithState_invalid (page_state q) (Date_of Date_new startDate)
                 (Date_of Date_new endDate)); [reflexivity| |exact Hinvalid].
      now rewrite Hq, Hf. }
    destruct e as [s|stationId|checked| | |]; try contradiction; cbn [Handlers.handle].
    + unfold Handlers.handleResultClick.
      cbn [page_state set_page_state selectedStations set_selectedTimeRange].
      apply find_station_None in He. rewrite He.
      unfold Handlers.steps, handler_bind, assign, save.
      cbn [foldr set_page_state set_page_localStorage page_state page_localStorage page_url].
      erewrite (Hurl (fun st => set_selectedStations (selectedStations st ++ [s]) st));
        [now split_and!|reflexivity|reflexivity].
    + unfold Handlers.removeStation, Handlers.steps, handler_bind, assign, save.
      cbn [foldr set_page_state set_page_localStorage page_state page_localStorage page_url].
      erewrite (Hurl (removeStation stationId)); [now split_and!|reflexivity|reflexivity].
    + unfold Handlers.handleFuelTypeChange, Handlers.steps, handler_bind, assign, save.
      cbn [foldr set_page_state set_page_localStorage page_state page_localStorage page_url].
      erewrite (Hurl (set_selectedFuelTypes checked)); [now split_and!|reflexivity|reflexivity].
  - intros value priceChart Hzoom. cbn [Handlers.handle].
    unfold Handlers.handleTimeRangeChange. rewrite (reset_step_radio _ _ value).
    destruct (steps_reset toISOString Date_new value
                (zoom_call (TimeRangeChange value priceChart)) true
                (set_page_state (set_selectedTimeRange range (page_state p)) p) Hzoom)
      as (_ & text & params & _ & Hparams & Hsteps).
    cbn [app] in Hsteps. rewrite Hsteps. cbn [fst snd]. split_and!; [reflexivity..|].
    unfold url_in_sync. cbn [page_state page_url]. now destruct (zoom_call _).
Qed.

End ZoomFacts.

Lemma handleZoom_unreadable_label_witness :
  let result := Handlers.handleZoom iso_toISOString iso_Date_new
                  None (Some "2024-03-02T12:00:00.000Z"%string) zoomed_page in
  result.2 = Throws RangeError /\
  page_url result.1 = page_url zoomed_page /\
  (Handlers.handle iso_toISOString iso_Date_new json_stringify (RemoveClick "a1")
     result.1).2 = Throws RangeError.
Proof.
  destruct (handleZoom_unreadable_label iso_toISOString iso_Date_new json_stringify
              zoomed_page None (Some "2024-03-02T12:00:00.000Z"%string))
    as (Hthrows & _ & _ & Hurl & _ & Hnext & _).
  - left. reflexivity.
  - split_and!; [exact Hthrows|exact Hurl|]. now apply (Hnext (RemoveClick "a1")).
Defined.

Lemma analyzeMultiStationPrices_recommendation_witness :
  exists lines,
    recommendation
      (analyzeMultiStationPrices example_getDay example_getHours state_AB
         [station_X; station_Y] empty_view).1 =
      (if 0 <? length lines then CheapestPrices lines else NoCurrentPrices) /\
    line_fuel <$> lines =
      List.filter (has_price [station_X; station_Y]) (activeFuelTypes state_AB).
Proof.
  destruct (analyzeMultiStationPrices_recommendation example_getDay example_getHours
              state_AB [station_X; station_Y] empty_view) as [_ Hlines].
  destruct Hlines as (lines & Htext & Hfuels & _).
  - exists station_X. split; [constructor|discriminate].
  - now exists lines.
Defined.

Example analyzeMultiStationPrices_example :
  analyzeMultiStationPrices example_getDay example_getHours state_AB
    [station_X; station_Y] empty_view =
  ({| recommendation :=
        CheapestPrices [ {| line_fuel := {| fuel_key := "price_diesel"; fuel_name := "Diesel";
                                            fuel_style := "solid" |};
                            line_price := 1.879%float;
                            line_station := station_B |} ];
      pricePatternAnalysis := [];
      priceChart := None |}, Returns tt).
Proof. vm_compute. reflexivity. Qed.

Lemma busy_station_analysable :
  analysable example_getDay example_getHours (activeFuelTypes state_AB)
    [busy_station; station_Y].
Proof.
  intros sd fuel Hsd Hlen Hfuel.
  apply elem_of_cons in Hsd as [->|Hsd].
  - apply elem_of_cons in Hfuel as [->|Hfuel]; [|now apply elem_of_nil in Hfuel].
    apply dated_check_sound. vm_compute. reflexivity.
  - apply list_elem_of_singleton in Hsd as ->. cbn in Hlen. lia.
Qed.

Lemma analyzeMultiStationPrices_patterns_witness :
  let result := analyzeMultiStationPrices example_getDay example_getHours state_AB
                  [busy_station; station_Y] empty_view in
  result.2 = Returns tt /\
  pricePatternAnalysis result.1 =
    omap (block_of example_getDay example_getHours (activeFuelTypes state_AB))
         [busy_station; station_Y].
Proof.
  destruct (analyzeMultiStationPrices_patterns example_getDay example_getHours state_AB
              [busy_station; station_Y] empty_view) as [Hblocks _].
  - exists station_Y. split; [repeat constructor|discriminate].
  - destruct (Hblocks busy_station_analysable) as (Hout & Heq & _). now split.
Defined.

Example analyzeMultiStationPrices_busy_station :
  pricePatternAnalysis
    (analyzeMultiStationPrices example_getDay example_getHours state_AB
       [busy_station; station_Y] empty_view).1 =
  [ {| analysis_station := station_A;
       analysis_fuels :=
         [ ({| fuel_key := "price_diesel"; fuel_name := "Diesel"; fuel_style := "solid" |},
            {| cheapestDay := {| day := Some "Dienstag";
                                 day_price := (foldl PrimFloat.add 0 (replicate 25 1.55) / 25)%float |};
               dearestDay := {| day := Some "Montag";
                                day_price := (foldl PrimFloat.add 0 (replicate 25 1.60) / 25)%float |};
               cheapestHour :=
                 {| hour := 10;
                    hour_price := (foldl PrimFloat.add 0
                                     (replicate 25 1.60 ++ replicate 25 1.55) / 50)%float |};
               dearestHour :=
                 {| hour := 10;
                    hour_price := (foldl PrimFloat.add 0
                                     (replicate 25 1.60 ++ replicate 25 1.55) / 50)%float |} |}) ] |} ].
Proof. vm_compute. reflexivity. Qed.

Lemma updateChartAndAnalysis_view_witness :
  exists view',
    updateChartAndAnalysis example_getDay example_getHours iso_Date_new example_daysBeforeNow
      flaky_service 1 "2024-04-01T12:00:00.000Z" state_AB empty_view = Some view' /\
    priceChart view' =
      Some (renderMultiStationChart state_AB
              [ {| station := station_A; data := [] |};
                {| station := station_B; data := [row_noon] |} ]) /\
    recommendation view' <> LoadingFailed.
Proof.
  destruct (updateChartAndAnalysis_view example_getDay example_getHours iso_Date_new
              example_daysBeforeNow flaky_service 1 "2024-04-01T12:00:00.000Z" state_AB
              empty_view) as [_ Hsome].
  destruct (Hsome [ {| station := station_A; data := [] |};
                    {| station := station_B; data := [row_noon] |} ])
    as (view' & Hview & Hchart & Hfailed & _).
  - discriminate.
  - vm_compute. reflexivity.
  - exists view'. split_and!; [exact Hview|exact Hchart|].
    intros H. apply Hfailed in H as (sd & fuel & row & Hsd & Hlen & _).
    repeat (apply elem_of_cons in Hsd as [->|Hsd]; [cbn in Hlen; lia|]).
    now apply elem_of_nil in Hsd.
Defined.

(** ** When the advice throws *)

Section AdviceErrors.

Variable hourOf : string -> outcome js_error (option nat).

Lemma perHour_fill_throws (values : list Value) : forall perHour e,
  length perHour = 24 ->
  (perHour_fill hourOf perHour values = Throws e <->
   exists front x back,
     values = front ++ x :: back /\ hours_readable hourOf front 24 /\
     hour_fails hourOf x e).
Proof.
  induction values as [|x values IH]; intros perHour e Hlen; cbn [perHour_fill].
  - split; [discriminate|]. intros (front & y & back & Heq & _).
    destruct front; discriminate.
  - assert (Htail : forall hr, hourOf (date x) = Returns (Some hr) -> hr < 24 ->
              ((exists front y back,
                  values = front ++ y :: back /\ hours_readable hourOf front 24 /\
                  hour_fails hourOf y e) <->
               (exists front y back,
                  x :: values = front ++ y :: back /\ hours_readable hourOf front 24 /\
                  hour_fails hourOf y e))).
    { intros hr Hhour Hhr. split.
      - intros (front & y & back & -> & Hread & Hfail). exists (x :: front), y, back.
        split; [reflexivity|]. split; [|exact Hfail].
        intros z Hz. apply elem_of_cons in Hz as [->|Hz]; [now exists hr|now apply Hread].
      - intros (front & y & back & Heq & Hread & Hfail). destruct front as [|x' front].
        + cbn in Heq. injection Heq as <- <-. exfalso.
          destruct Hfail as [Hf|(_ & reading & Hr & Hbad)]; rewrite Hhour in *; [discriminate|].
          injection Hr as <-. specialize (Hbad hr eq_refl). lia.
        + cbn in Heq. injection Heq as <- ->. exists front, y, back.
          split; [reflexivity|]. split; [|exact Hfail].
          intros z Hz. apply Hread, elem_of_cons. now right. }
    assert (Hstop : forall e', hour_fails hourOf x e' ->
              (forall e'', hour_fails hourOf x e'' -> e'' = e') ->
              ((Throws e' : outcome js_error (list Stat)) = Throws e <->
               exists front y back,
                 x :: values = front ++ y :: back /\ hours_readable hourOf front 24 /\
                 hour_fails hourOf y e)).
    { intros e' Hfail Hunique. split.
      - intros [= <-]. exists [], x, values. split; [reflexivity|].
        split; [|exact Hfail]. intros z Hz. now apply elem_of_nil in Hz.
      - intros (front & y & back & Heq & Hread & Hfail'). destruct front as [|x' front].
        + cbn in Heq. injection Heq as <- <-. f_equal. symmetry. now apply Hunique.
        + cbn in Heq. injection Heq as <- ->. exfalso.
          destruct (Hread x ltac:(apply elem_of_cons; now left)) as (hr & Hhr & Hlt).
          destruct Hfail as [Hf|(_ & reading & Hr & Hbad)]; rewrite Hhr in *; [discriminate|].
          injection Hr as <-. specialize (Hbad hr eq_refl). lia. }
    destruct (hourOf (date x)) as [[hr|]|e'] eqn:Hhour.
    + rewrite Hlen. destruct (hr <? 24) eqn:Hhr.
      * apply Nat.ltb_lt in Hhr. rewrite IH by now rewrite length_alter.
        now apply (Htail hr).
      * apply Nat.ltb_ge in Hhr. apply Hstop.
        -- right. split; [reflexivity|]. exists (Some hr). split; [exact Hhour|].
           now intros ? [= <-].
        -- intros e'' [Hf|[-> _]]; [rewrite Hhour in Hf; discriminate|reflexivity].
    + apply Hstop.
      * right. split; [reflexivity|]. exists None. split; [exact Hhour|]. discriminate.
      * intros e'' [Hf|[-> _]]; [rewrite Hhour in Hf; discriminate|reflexivity].
    + apply Hstop.
      * left. exact Hhour.
      * intros e'' [Hf|(_ & reading & Hr & _)].
        -- rewrite Hhour in Hf. now injection Hf.
        -- rewrite Hhour in Hr. discriminate.
Qed.

Lemma perHour_fill_returns (values : list Value) : forall perHour,
  length perHour = 24 ->
  ((exists filled, perHour_fill hourOf perHour values = Returns filled) <->
   hours_readable hourOf values 24).
Proof.
  intros perHour Hlen. split.
  - revert perHour Hlen.
    induction values as [|x values IH]; intros perHour Hlen [filled Hrun].
    + intros z Hz. now apply elem_of_nil in Hz.
    + cbn [perHour_fill] in Hrun.
      destruct (hourOf (date x)) as [[hr|]|e'] eqn:Hhour; try discriminate.
      rewrite Hlen in Hrun. destruct (hr <? 24) eqn:Hhr; [|discriminate].
      apply Nat.ltb_lt in Hhr.
      intros z Hz. apply elem_of_cons in Hz as [->|Hz]; [now exists hr|].
      revert z Hz. apply (IH (alter (add_price (v x)) hr perHour)).
      * now rewrite length_alter.
      * now exists filled.
  - intros Hread. eexists. apply perHour_fill_buckets. now rewrite Hlen.
Qed.

Lemma advice_values_priced (rows : list AppPriceRow) (fuelKey : FuelKey) :
  advice_values (List.filter (has_value fuelKey) rows) fuelKey = advice_values rows fuelKey.
Proof.
  unfold advice_values. induction rows as [|r rows IH]; [reflexivity|].
  cbn [List.filter omap list_omap]. unfold has_value at 1.
  destruct (app_row_get r fuelKey) as [price|] eqn:Hprice.
  - cbn [omap list_omap mbind option_bind]. rewrite Hprice. cbn [mbind option_bind].
    now rewrite IH.
  - cbn [mbind option_bind]. exact IH.
Qed.

(** X19.  When [computeAdvice] throws, and what.  It returns exactly when
    the rows hold fewer than three prices for the key, where no hour is
    read, or the hour of every point is an hour of the day.  Otherwise it
    throws at the first point, in the order of the rows, whose hour fails:
    the error of the formatter if that threw, as it does with a
    [RangeError] for an invalid date, and a [TypeError] if the formatted
    text is no hour of the day.  Rows without a price for the key never
    matter: leaving them out changes nothing. *)
Theorem computeAdvice_throws (curHour : option nat) (rows : list AppPriceRow)
    (fuelKey : FuelKey) :
  let values := advice_values rows fuelKey in
  ((exists result, computeAdvice hourOf curHour rows fuelKey = Returns result) <->
   length values < 3 \/ hours_readable hourOf values 24) /\
  (forall e,
     computeAdvice hourOf curHour rows fuelKey = Throws e <->
     3 <= length values /\
     exists front x back,
       values = front ++ x :: back /\ hours_readable hourOf front 24 /\
       hour_fails hourOf x e) /\
  computeAdvice hourOf curHour (List.filter (has_value fuelKey) rows) fuelKey =
    computeAdvice hourOf curHour rows fuelKey.
Proof.
  intros values.
  pose proof (perHour_fill_returns values (replicate 24 {| sum := 0; count := 0 |})
                (length_replicate _ _)) as Hreturns.
  pose proof (fun e => perHour_fill_throws values (replicate 24 {| sum := 0; count := 0 |}) e
                         (length_replicate _ _)) as Hthrows.
  split_and!.
  - unfold computeAdvice. fold values.
    destruct (length values <? 3) eqn:Hlen.
    + apply Nat.ltb_lt in Hlen. split; [now left|]. intros _. now eexists.
    + apply Nat.ltb_ge in Hlen.
      destruct (last values) as [lastv|] eqn:Hlast.
      2:{ apply last_None in Hlast. rewrite Hlast in Hlen. cbn in Hlen. lia. }
      rewrite <- Hreturns.
      destruct (perHour_fill hourOf _ values) as [filled|e']; cbn [bind_outcome].
      * split; intros _; [right|]; now eexists.
      * split; [intros [? [=]]|]. intros [?|[? [=]]]. lia.
  - intros e. unfold computeAdvice. fold values.
    destruct (length values <? 3) eqn:Hlen.
    + apply Nat.ltb_lt in Hlen. split; [discriminate|]. intros [? _]. lia.
    + apply Nat.ltb_ge in Hlen.
      destruct (last values) as [lastv|] eqn:Hlast.
      2:{ apply last_None in Hlast. rewrite Hlast in Hlen. cbn in Hlen. lia. }
      rewrite <- Hthrows.
      destruct (perHour_fill hourOf _ values) as [filled|e']; cbn [bind_outcome].
      * split; [discriminate|]. intros [_ [=]].
      * split; [intros [= <-]; now split|now intros [_ [= <-]]].
  - unfold computeAdvice. now rewrite advice_values_priced.
Qed.

End AdviceErrors.

Lemma computeAdvice_throws_witness :
  computeAdvice hour_but_one (Some 9) five_days Diesel = Throws TypeError /\
  computeAdvice hour_but_one (Some 9) (drop 3 five_days ++ take 3 five_days) Diesel =
    Throws RangeError.
Proof.
  split.
  - destruct (computeAdvice_throws hour_but_one (Some 9) five_days Diesel) as (_ & Hthrows & _).
    apply Hthrows. split; [cbn; lia|].
    exists (take 2 (advice_values five_days Diesel)),
           {| date := "2024-05-03T10:00:00Z"; v := 1.79%float |},
           (drop 3 (advice_values five_days Diesel)).
    split; [reflexivity|]. split.
    + intros x Hx. exists 12. split; [|lia].
      cbn in Hx. apply elem_of_cons in Hx as [->|Hx]; [reflexivity|].
      apply list_elem_of_singleton in Hx as ->. reflexivity.
    + right. split; [reflexivity|]. exists None. split; [reflexivity|]. discriminate.
  - destruct (computeAdvice_throws hour_but_one (Some 9)
                (drop 3 five_days ++ take 3 five_days) Diesel) as (_ & Hthrows & _).
    apply Hthrows. split; [cbn; lia|].
    exists [], {| date := "2024-05-04T10:00:00Z"; v := 1.85%float |},
           (drop 1 (advice_values (drop 3 five_days ++ take 3 five_days) Diesel)).
    split; [reflexivity|]. split.
    + intros x Hx. now apply elem_of_nil in Hx.
    + now left.
Defined.

(** ** What start-up and the events keep *)

Section StartupFacts.

Variable Date_new : string -> Date.
Variable JSON_parse : string -> option json.
Variable greater_than_zero : json -> bool.
Variable querySelector : string -> outcome exception bool.

Lemma showState_Started (st st' : State) (refresh : bool) :
  showState querySelector st = Started st' refresh ->
  st' = st /\ refresh = (0 <? length (selectedStations st)).
Proof.
  unfold showState. destruct (updateTimeRangeRadios querySelector st); [|discriminate].
  now intros [= <- <-].
Qed.

Lemma loadSelectedStations_elem (allStations : list Station)
    (localStorage : gmap string string) (stations : list Station) (s : Station) :
  loadSelectedStations JSON_parse greater_than_zero allStations localStorage =
    Returns stations ->
  s ∈ stations -> s ∈ allStations.
Proof.
  unfold loadSelectedStations. destruct (JSON_parse _) as [savedIds|]; [|discriminate].
  destruct savedIds as [|b|x|str|items|members]; try discriminate;
    try (intros [= <-] H; now apply elem_of_nil in H).
  - destruct (_ && _); [discriminate|]. intros [= <-] H. now apply elem_of_nil in H.
  - destruct (_ && _); intros [= <-] H; [|now apply elem_of_nil in H].
    apply list_elem_of_omap in H as (id & _ & Hfind).
    destruct id; try discriminate. now apply find_station_Some in Hfind as [? _].
  - destruct (_ && _); [discriminate|]. intros [= <-] H. now apply elem_of_nil in H.
Qed.

(** X20.  However [initializeApp] gets the selection, from the URL or from
    localStorage, and whatever these hold: if the start-up succeeds, the
    station list of the state is the fetched one, every selected station is
    a station of that list, and the chart is refreshed exactly when a
    station is selected. *)
Theorem initializeApp_selection_known (fetch : service Station) (fuel : nat)
    (before st : State) (localStorage params : gmap string string) (refresh : bool) :
  initializeApp JSON_parse greater_than_zero Date_new querySelector fetch fuel before
    localStorage params =
    Some (Started st refresh) ->
  (exists log, fetchStations fetch fuel = Some (log, Returns (allStations st))) /\
  (forall s, s ∈ selectedStations st -> s ∈ allStations st) /\
  refresh = (0 <? length (selectedStations st)).
Proof.
  unfold initializeApp.
  destruct (fetchStations fetch fuel) as [[log [fetched|e]]|]; try discriminate.
  unfold restoreState. destruct (loadStateFromUrl Date_new params) as [urlState|].
  - intros [= [-> ->]%showState_Started].
    cbn [set_allStations set_selectedStations set_selectedFuelTypes set_selectedTimeRange
         allStations selectedStations selectedFuelTypes selectedTimeRange].
    split_and!; [now exists log| |reflexivity].
    intros s Hs. now apply stations_of_ids_elem in Hs as [? _].
  - cbn [allStations set_allStations].
    destruct (loadSelectedStations _ _ _ _) as [stations|e] eqn:Hstations; [|discriminate].
    destruct (loadSelectedFuelTypes _ _) as [fuelTypes|e]; [|discriminate].
    destruct (strings_of_json fuelTypes) as [fuels|]; [|discriminate].
    intros [= [-> ->]%showState_Started].
    cbn [set_allStations set_selectedStations set_selectedFuelTypes set_selectedTimeRange
         allStations selectedStations selectedFuelTypes selectedTimeRange].
    split_and!; [now exists log| |reflexivity].
    intros s. now apply loadSelectedStations_elem with (1 := Hstations).
Qed.

End StartupFacts.

Section EventFacts.

Variable toISOString : Z -> string.
Variable Date_new : string -> Date.
Variable JSON_stringify : list string -> string.

Lemma steps_state (f : State -> State) (second third : Handler unit) (b : bool) (p : Page) :
  (forall q, page_state (second q).1 = page_state q) ->
  (forall q, page_state (third q).1 = page_state q) ->
  page_state (Handlers.steps [assign f; second; third] b p).1 = f (page_state p).
Proof.
  intros Hsecond Hthird. unfold Handlers.steps, handler_bind, assign. cbn [foldr].
  specialize (Hsecond (set_page_state (f (page_state p)) p)).
  cbn [page_state set_page_state] in Hsecond.
  destruct (second _) as [q [[]|e]]; cbn [fst] in *; [|exact Hsecond].
  specialize (Hthird q).
  destruct (third q) as [q' [[]|e]]; unfold handler_ret; cbn [fst] in *; congruence.
Qed.

Lemma save_state (sv : State -> gmap string string -> gmap string string) (q : Page) :
  page_state (save sv q).1 = page_state q.
Proof. reflexivity. Qed.

Lemma save_or_throw_state
    (sv : State -> gmap string string -> outcome js_error (gmap string string)) (q : Page) :
  page_state (save_or_throw sv q).1 = page_state q.
Proof. unfold save_or_throw. now destruct (sv _ _). Qed.

Lemma updateUrlWithState_state (q : Page) :
  page_state (Handlers.updateUrlWithState toISOString q).1 = page_state q.
Proof. unfold Handlers.updateUrlWithState. now destruct (updateUrlWithState _ _). Qed.

Lemma handleZoom_state (startDate endDate : option string) (q : Page) :
  page_state (Handlers.handleZoom toISOString Date_new startDate endDate q).1 =
  set_selectedTimeRange
    (RangeObject (Date_of Date_new startDate) (Date_of Date_new endDate)) (page_state q).
Proof.
  apply (steps_state (set_selectedTimeRange _));
    [apply save_or_throw_state|apply updateUrlWithState_state].
Qed.

(** The state after a handler that assigns a range name, saves it and
    resets the zoom. *)
Lemma steps_reset_state (name : string) (call : option (option string * option string))
    (rest : list (Handler unit)) (p : Page) :
  Forall (fun m : Handler unit => forall q, page_state (m q).1 = page_state q) rest ->
  page_state (Handlers.steps
                ([ assign (set_selectedTimeRange (RangeName name));
                   save_or_throw (saveSelectedTimeRange toISOString);
                   Handlers.onZoomComplete toISOString Date_new call ] ++ rest) true p).1 =
  set_selectedTimeRange
    match call with
    | Some (startDate, endDate) =>
        RangeObject (Date_of Date_new startDate) (Date_of Date_new endDate)
    | None => RangeName name
    end (page_state p).
Proof.
  intros Hrest.
  assert (Htail : forall q,
            page_state (foldr (fun (m : Handler unit) (k : Handler bool) =>
                                 handler_bind m (fun _ => k))
                              (handler_ret true) rest q).1 = page_state q).
  { induction Hrest as [|m rest Hm _ IH]; intros q; [reflexivity|].
    cbn [foldr]. unfold handler_bind at 1. specialize (Hm q).
    destruct (m q) as [q' [[]|e]]; cbn [fst] in *; [|exact Hm]. now rewrite IH. }
  unfold Handlers.steps. cbn [app foldr]. unfold handler_bind at 1 2, assign, save_or_throw.
  cbn [set_page_state set_page_localStorage page_state page_localStorage page_url
       saveSelectedTimeRange selectedTimeRange set_selectedTimeRange].
  unfold handler_bind at 1. destruct call as [[startDate endDate]|]; cbn [Handlers.onZoomComplete].
  - unfold handler_bind at 1.
    pose proof (handleZoom_state startDate endDate
                  {| page_state := set_selectedTimeRange (RangeName name) (page_state p);
                     page_localStorage :=
                       <["selectedTimeRange" := name]> (page_localStorage p);
                     page_url := page_url p |}) as Hzoom.
    cbn [page_state] in Hzoom.
    destruct (Handlers.handleZoom _ _ _ _ _) as [q [b|e]]; cbn [fst] in *.
    + unfold handler_ret at 1. now rewrite Htail.
    + exact Hzoom.
  - unfold handler_ret at 1. now rewrite Htail.
Qed.

Lemma handle_state (e : event) (p : Page) :
  page_state (Handlers.handle toISOString Date_new JSON_stringify e p).1 =
  state_after Date_new e (page_state p).
Proof.
  destruct e as [s|stationId|checked|value priceChart|startDate endDate|priceChart];
    cbn [Handlers.handle state_after].
  - unfold Handlers.handleResultClick, handleResultClick.
    destruct (List.find _ (selectedStations (page_state p))); [reflexivity|].
    apply (steps_state (fun st => set_selectedStations (selectedStations st ++ [s]) st));
      [apply save_state|apply updateUrlWithState_state].
  - apply steps_state; [apply save_state|apply updateUrlWithState_state].
  - apply steps_state; [apply save_state|apply updateUrlWithState_state].
  - unfold Handlers.handleTimeRangeChange.
    rewrite (reset_step_radio toISOString Date_new value).
    apply (steps_reset_state value _ [Handlers.updateUrlWithState toISOString]).
    constructor; [apply updateUrlWithState_state|constructor].
  - apply handleZoom_state.
  - unfold Handlers.handleResetZoom. rewrite (reset_step_button toISOString Date_new).
    apply (steps_reset_state "all" _ []). constructor.
Qed.

(** X21.  What an event does to the state does not depend on localStorage
    or on the URL, nor on whether its handler throws on the way: the new
    state is the old one with the station added or removed, or with the
    fuel types or the time range replaced.  So along every sequence of
    events the station list stays what it was, and selected station ids
    that were distinct stay distinct. *)
Theorem events_keep_selection_distinct (es : list event) (p : Page) :
  let after := Handlers.after toISOString Date_new JSON_stringify in
  page_state (after es p) = foldl (fun st e => state_after Date_new e st) (page_state p) es /\
  allStations (page_state (after es p)) = allStations (page_state p) /\
  (NoDup (selected_ids (page_state p)) -> NoDup (selected_ids (page_state (after es p)))).
Proof.
  cbv zeta. revert p. induction es as [|e es IH]; intros p; [now split_and!|].
  unfold Handlers.after. cbn [foldl].
  fold (Handlers.after toISOString Date_new JSON_stringify es
          (Handlers.handle toISOString Date_new JSON_stringify e p).1).
  destruct (IH (Handlers.handle toISOString Date_new JSON_stringify e p).1)
    as (Hstate & Hall & Hdistinct).
  rewrite handle_state in Hstate, Hall, Hdistinct. split_and!.
  - exact Hstate.
  - rewrite Hall. destruct e; cbn [state_after]; try reflexivity.
    unfold handleResultClick. now destruct (List.find _ _).
  - intros Hnd. apply Hdistinct.
    destruct e; cbn [state_after]; try exact Hnd.
    + now apply handleResultClick_NoDup.
    + now apply removeStation_NoDup.
Qed.

End EventFacts.

Lemma initializeApp_selection_known_witness :
  station_A ∈ allStations (page_state zoomed_page).
Proof.
  destruct (initializeApp_selection_known iso_Date_new json_parse json_greater_than_zero
              page_querySelector station_service 1 fresh_state (page_state zoomed_page) ∅ (page_url zoomed_page)
              true) as (_ & Hknown & _).
  - vm_compute. reflexivity.
  - apply Hknown. vm_compute. constructor.
Defined.

Lemma events_keep_selection_distinct_witness :
  NoDup (selected_ids (page_state zoomed_page)).
Proof.
  apply (events_keep_selection_distinct iso_toISOString iso_Date_new json_stringify
           example_events fresh_page).
  constructor.
Defined.
